(** * msticpy: the Azure Monitor query driver and the domain utilities

    A shallow embedding of
    - [msticpy/data/drivers/azure_monitor_driver.py] (class
      [AzureMonitorDriver] and the two schema formatters), and
    - [msticpy/context/domain_utils.py] ([DomainValidator.in_abuse_list]),
    followed by the properties of the driver's connection and query life
    cycle.

    Python objects are explicit values ([pyval]); a [str] is the string of
    the bytes of its UTF-8 encoding, so that equality, concatenation,
    substring search, splitting at an ASCII character and the order by code
    point are those of the bytes; keyword
    arguments are finite maps from names to values; the driver instance is
    a record that is threaded through a state-and-exception monad together
    with the trace of externally visible effects (credential requests, HTTP
    requests, query dispatches, [warnings.warn], console output).  Records
    written to the [logging] module are not part of the trace; an argument
    of a logging call that can raise is evaluated where the code evaluates
    it.  Everything the driver delegates to other packages is a field of
    the environment record [Env]. *)

From Stdlib Require Import ZArith String Ascii List Bool Lia OrderedTypeEx.
From Stdlib Require Import Permutation.
From stdpp Require Import base option list gmap strings sorting.

Set Warnings "-register-all".

Local Open Scope string_scope.
Local Open Scope list_scope.
Local Open Scope Z_scope.
Local Open Scope stdpp_scope.

(** ** Python values *)

Module Py.

(** [datetime.datetime]: the calendar fields (year ... microsecond) are kept
    as one count of microseconds on the object's own clock, next to the
    optional [tzinfo] (the UTC offset in seconds) and the [fold] flag. *)
Record datetime := {
  wall_us : Z;
  tzinfo : option Z;
  fold : bool;
}.

(** [pandas.Timestamp]: the calendar fields reach down to the nanosecond;
    they are kept as one count of nanoseconds on the object's own clock,
    next to [tzinfo] and [fold]. *)
Record Timestamp := {
  wall_ns : Z;
  ts_tzinfo : option Z;
  ts_fold : bool;
}.

(** The [nanosecond] field (0..999), below the microsecond. *)
Definition nanosecond (t : Timestamp) : Z := wall_ns t mod 1000.

(** [Timestamp.to_pydatetime(warn=False)]: the [datetime] with the same
    calendar fields down to the microsecond, the same [tzinfo] and [fold];
    the nanosecond field has no counterpart and, with [warn=False], is
    dropped silently. *)
Definition to_pydatetime (t : Timestamp) : datetime :=
  {| wall_us := wall_ns t / 1000; tzinfo := ts_tzinfo t; fold := ts_fold t |}.

(** The reading of a clock value in nanoseconds on its own clock. *)
Definition datetime_ns (d : datetime) : Z := wall_us d * 1000.
Definition timestamp_ns (t : Timestamp) : Z := wall_ns t.

(** Python values.  [PList] is a list or a tuple. *)
Inductive pyval :=
| PNone
| PBool (b : bool)
| PInt (n : Z)
| PStr (s : string)
| PList (l : list pyval)
| PDict (d : list (string * pyval))
| PDatetime (d : datetime)
| PTimestamp (t : Timestamp).

(** Truth value testing ([bool(v)], [if v], [not v], [a or b]). *)
Definition truthy (v : pyval) : bool :=
  match v with
  | PNone => false
  | PBool b => b
  | PInt n => negb (n =? 0)
  | PStr s => negb (String.eqb s "")
  | PList l => match l with [] => false | _ => true end
  | PDict d => match d with [] => false | _ => true end
  | PDatetime _ => true
  | PTimestamp _ => true
  end.

Definition is_none (v : pyval) : bool :=
  match v with PNone => true | _ => false end.

(** [a or b] *)
Definition py_or (a b : pyval) : pyval := if truthy a then a else b.

(** Truthiness of [str | None] attributes. *)
Definition str_truthy (o : option string) : bool :=
  match o with
  | Some s => negb (String.eqb s "")
  | None => false
  end.

(** [a or b] on [str | None] attributes. *)
Definition str_or (a b : option string) : option string :=
  if str_truthy a then a else b.

(** [d.get(k)] on a dict literal kept in insertion order. *)
Fixpoint dict_get {V} (k : string) (d : list (string * V)) : option V :=
  match d with
  | [] => None
  | (k', v) :: d' => if String.eqb k k' then Some v else dict_get k d'
  end.

(** [k in d] *)
Definition dict_mem {V} (k : string) (d : list (string * V)) : bool :=
  match dict_get k d with Some _ => true | None => false end.

(** [d[k] = v]: an existing key keeps its position, a new key goes last. *)
Fixpoint dict_set {V} (k : string) (v : V) (d : list (string * V))
  : list (string * V) :=
  match d with
  | [] => [(k, v)]
  | (k', v') :: d' =>
      if String.eqb k k' then (k, v) :: d' else (k', v') :: dict_set k v d'
  end.

(** [d[k] = v] on a dict whose keys are [str | None]. *)
Fixpoint okey_set {V} (k : option string) (v : V)
    (d : list (option string * V)) : list (option string * V) :=
  match d with
  | [] => [(k, v)]
  | (k', v') :: d' =>
      if bool_decide (k = k') then (k, v) :: d'
      else (k', v') :: okey_set k v d'
  end.

(** [dict(items)] and the dict comprehension [{key: value for ...}]. *)
Definition dict_of_items {V} (items : list (string * V)) : list (string * V) :=
  fold_left (fun d kv => dict_set (fst kv) (snd kv) d) items [].

(** [sorted(d.items())].  The items of a dict have pairwise different
    keys, so the tuple comparison is decided by the keys alone; strings
    compare by code point, which in UTF-8 is the order of the bytes,
    [String.compare].  The sort is stable, as Python's is. *)
Fixpoint sorted_insert {V} (x : string * V) (l : list (string * V))
  : list (string * V) :=
  match l with
  | [] => [x]
  | y :: l' =>
      if String.ltb (fst y) (fst x) then y :: sorted_insert x l'
      else x :: y :: l'
  end.

Definition sorted_items {V} (d : list (string * V)) : list (string * V) :=
  fold_right sorted_insert [] d.

(** *** Strings *)

(** The white space that [str.strip()] removes, as UTF-8: the one-byte
    characters U+0009..U+000D and U+001C..U+0020, the two-byte characters
    U+0085 and U+00A0, and the three-byte characters U+1680,
    U+2000..U+200A, U+2028, U+2029, U+202F, U+205F and U+3000. *)
Definition ws1 (a : nat) : bool :=
  ((9 <=? a) && (a <=? 13) || (28 <=? a) && (a <=? 32))%nat.

Definition ws2 (a b : nat) : bool :=
  ((a =? 194) && ((b =? 133) || (b =? 160)))%nat.

Definition ws3 (a b c : nat) : bool :=
  ((a =? 225) && (b =? 154) && (c =? 128)
   || (a =? 226) && (b =? 128)
      && ((128 <=? c) && (c <=? 138) || (c =? 168) || (c =? 169) || (c =? 175))
   || (a =? 226) && (b =? 129) && (c =? 159)
   || (a =? 227) && (b =? 128) && (c =? 128))%nat.

(** Dropping the white space at the head of a byte list; [backwards] when
    the list is a string read from its end. *)
Fixpoint lstrip_bytes (backwards : bool) (l : list ascii) : list ascii :=
  match l with
  | [] => []
  | a :: l1 =>
      if ws1 (nat_of_ascii a) then lstrip_bytes backwards l1
      else
        match l1 with
        | [] => l
        | b :: l2 =>
            if (if backwards then ws2 (nat_of_ascii b) (nat_of_ascii a)
                else ws2 (nat_of_ascii a) (nat_of_ascii b))
            then lstrip_bytes backwards l2
            else
              match l2 with
              | [] => l
              | c :: l3 =>
                  if (if backwards
                      then ws3 (nat_of_ascii c) (nat_of_ascii b)
                             (nat_of_ascii a)
                      else ws3 (nat_of_ascii a) (nat_of_ascii b)
                             (nat_of_ascii c))
                  then lstrip_bytes backwards l3
                  else l
              end
        end
  end.

Definition lstrip (s : string) : string :=
  string_of_list_ascii (lstrip_bytes false (list_ascii_of_string s)).

Definition rstrip (s : string) : string :=
  string_of_list_ascii
    (rev (lstrip_bytes true (rev (list_ascii_of_string s)))).

(** [s.strip()] *)
Definition strip (s : string) : string := rstrip (lstrip s).

(** The characters of a string, each with the bytes of its encoding
    ([list(s)], [for c in s]). *)
Fixpoint utf8_chars (l : list ascii) : list string :=
  match l with
  | [] => []
  | a :: l1 =>
      let n := nat_of_ascii a in
      if (n <? 192)%nat then String a "" :: utf8_chars l1
      else
        match l1 with
        | [] => [String a ""]
        | b :: l2 =>
            if (n <? 224)%nat then String a (String b "") :: utf8_chars l2
            else
              match l2 with
              | [] => [String a (String b "")]
              | c :: l3 =>
                  if (n <? 240)%nat then
                    String a (String b (String c "")) :: utf8_chars l3
                  else
                    match l3 with
                    | [] => [String a (String b (String c ""))]
                    | d :: l4 =>
                        String a (String b (String c (String d "")))
                        :: utf8_chars l4
                    end
              end
        end
  end.

Definition chars (s : string) : list string :=
  utf8_chars (list_ascii_of_string s).

(** A string given by its bytes. *)
Definition utf8 (bytes : list nat) : string :=
  string_of_list_ascii (map ascii_of_nat bytes).

(** [c in s] for an ASCII character [c]. *)
Fixpoint contains_char (c : ascii) (s : string) : bool :=
  match s with
  | EmptyString => false
  | String c' s' => if Ascii.eqb c c' then true else contains_char c s'
  end.

(** [s.split(sep)] for an ASCII character as separator: never empty. *)
Fixpoint split_char (sep : ascii) (s : string) : list string :=
  match s with
  | EmptyString => [EmptyString]
  | String c s' =>
      if Ascii.eqb c sep then EmptyString :: split_char sep s'
      else match split_char sep s' with
           | [] => [String c EmptyString]
           | w :: ws => String c w :: ws
           end
  end.

(** [s.split(sep)[0]] *)
Definition split_head (sep : ascii) (s : string) : string :=
  match split_char sep s with
  | [] => EmptyString
  | w :: _ => w
  end.

(** [sep.join(l)] *)
Fixpoint join (sep : string) (l : list string) : string :=
  match l with
  | [] => ""
  | [s] => s
  | s :: l' => s +:+ sep +:+ join sep l'
  end.

(** [sub in s] *)
Fixpoint is_prefix (p s : string) : bool :=
  match p, s with
  | EmptyString, _ => true
  | String a p', String b s' => Ascii.eqb a b && is_prefix p' s'
  | String _ _, EmptyString => false
  end.

Fixpoint contains_str (sub s : string) : bool :=
  is_prefix sub s ||
  match s with
  | EmptyString => false
  | String _ s' => contains_str sub s'
  end.

(** *** Exceptions *)

(** The exception classes the two modules raise, catch or let through.
    Every one of them derives from [Exception]. *)
Inductive exc_class :=
| MsticpyNotConnectedError
| MsticpyDataQueryError
| MsticpyKqlConnectionError
| MsticpyNoDataSourceError
| ValueError
| KeyError
| IndexError
| AttributeError
| TypeError
| ConnectionError
| HTTPError
| URLError
| OtherException (name : string).

Record exn := {
  exn_class : exc_class;
  exn_args : list string;
  exn_title : option string;
}.

Definition mk_exn (c : exc_class) (args : list string) (title : option string)
  : exn :=
  {| exn_class := c; exn_args := args; exn_title := title |}.

(** *** Computations that read and write a state and may raise *)

Inductive outcome (A : Type) :=
| Ret (a : A)
| Raise (e : exn).
Arguments Ret {A} a.
Arguments Raise {A} e.

#[global] Instance outcome_ret : MRet outcome := fun A a => Ret a.

#[global] Instance outcome_bind : MBind outcome := fun A B f o =>
  match o with
  | Ret a => f a
  | Raise e => Raise e
  end.

Definition M (S A : Type) : Type := S -> outcome A * S.

#[global] Instance M_ret {S} : MRet (M S) := fun A a s => (Ret a, s).

#[global] Instance M_bind {S} : MBind (M S) := fun A B f m s =>
  match m s with
  | (Ret a, s') => f a s'
  | (Raise e, s') => (Raise e, s')
  end.

Definition raise {S A} (e : exn) : M S A := fun s => (Raise e, s).
Definition get_state {S} : M S S := fun s => (Ret s, s).
Definition modify {S} (f : S -> S) : M S unit := fun s => (Ret tt, f s).

(** The result of an external call, passed on as it is. *)
Definition lift {S A} (o : outcome A) : M S A := fun s => (o, s).

(** [try: m  except Exception as e: h(e)] *)
Definition try_except {S A} (m : M S A) (h : exn -> M S A) : M S A :=
  fun s =>
    match m s with
    | (Ret a, s') => (Ret a, s')
    | (Raise e, s') => h e s'
    end.

Definition raises {A} (o : outcome A) (c : exc_class) : Prop :=
  exists e, o = Raise e /\ exn_class e = c.

End Py.
Export Py.

(** ** Collaborators of the driver *)

Module Collab.

(** The three states of an entry of a [WorkspaceConfig] that the driver
    provides for: not there (the driver tests [key in config] and catches
    [AttributeError]), there with the value [None] (the driver compares
    with [None]), there with a text. *)
Inductive conf_value :=
| Absent
| Null
| Val (text : string).

(** Modelled from the spec: [WorkspaceConfig] (msticpy/common/wsconfig.py)
    identifies one target workspace by workspace_id, tenant_id,
    workspace_name, subscription_id and resource_group.  The driver also
    reads its [workspace_key], [settings_path] and the names under the
    [Args] entry of its [settings].  An entry is read as an attribute or as
    an item, with the same result: its value, which may be [None], or, when
    it is not there, [AttributeError] or [KeyError]. *)
Record WorkspaceConfig := {
  workspace_id : conf_value;
  tenant_id : conf_value;
  workspace_name : conf_value;
  subscription_id : conf_value;
  resource_group : conf_value;
  workspace_key : conf_value;
  settings_path : option string;
  settings_args : list string;
}.

(** The keys [WorkspaceConfig.CONF_WS_ID], [CONF_TENANT_ID] and
    [CONF_WS_NAME_KEY]. *)
Inductive conf_key := CONF_WS_ID | CONF_TENANT_ID | CONF_WS_NAME_KEY.

Definition conf_entry (c : WorkspaceConfig) (k : conf_key) : conf_value :=
  match k with
  | CONF_WS_ID => workspace_id c
  | CONF_TENANT_ID => tenant_id c
  | CONF_WS_NAME_KEY => workspace_name c
  end.

(** [key in config] *)
Definition conf_contains (c : WorkspaceConfig) (k : conf_key) : bool :=
  match conf_entry c k with Absent => false | _ => true end.

(** Reading an entry: [str | None], or the exception for one that is not
    there. *)
Definition conf_read (missing : exc_class) (v : conf_value)
  : outcome (option string) :=
  match v with
  | Absent => Raise (mk_exn missing [] None)
  | Null => Ret None
  | Val text => Ret (Some text)
  end.

(** [config[key]] *)
Definition conf_getitem (c : WorkspaceConfig) (k : conf_key)
  : outcome (option string) :=
  conf_read KeyError (conf_entry c k).

(** [config.attribute] *)
Definition conf_getattr (v : conf_value) : outcome (option string) :=
  conf_read AttributeError v.

(** The [connection_str] argument of [connect]:
    [str | WorkspaceConfig | None]. *)
Inductive connection_arg :=
| ConnNone
| ConnStr (s : string)
| ConnConfig (c : WorkspaceConfig).

(** [AzCredentials]: the driver only passes its [modern] member on. *)
Record AzCredentials := { modern : string }.

(** [LogsQueryClient(credential=..., endpoint=..., proxies=...)] *)
Record LogsQueryClient := {
  credential : string;
  endpoint : string;
  client_proxies : pyval;
}.

(** [LogsTable] and the results of [LogsQueryClient.query_workspace]. *)
Record LogsTable := {
  rows : list (list pyval);
  columns : list string;
}.

Inductive query_response :=
| LogsQueryResult (status_name : string) (tables : list LogsTable)
| LogsQueryPartialResult (status_name : string) (partial_data : list LogsTable)
| OtherResult (repr : string).

(** What a dispatched query comes back with: a result, an
    [HttpResponseError] with its [message], or any other exception. *)
Inductive service_outcome :=
| SvcReturn (r : query_response)
| SvcHttpResponseError (message : string)
| SvcException (e : exn).

(** [pd.DataFrame(table.rows, columns=table.columns)] *)
Record DataFrame := {
  df_rows : list (list pyval);
  df_columns : list string;
}.

(** The table list of the management endpoint, as the formatters read it:
    [table["name"]], [table["properties"]["schema"]], and in the schema the
    optional entries ["standardColumns"] and ["customColumns"], lists of
    [{"name": ..., "type": ...}]. *)
Record raw_column := {
  col_name : string;
  col_type : string;
}.

Record raw_schema := {
  standardColumns : option (list raw_column);
  customColumns : option (list raw_column);
}.

Record raw_table := {
  table_name : string;
  properties_schema : raw_schema;
}.

(** [httpx.Response]: the status code and what [response.json()] gives,
    the optional ["value"] entry of the decoded object. *)
Record Response := {
  status_code : Z;
  json : outcome (option (list raw_table));
}.

(** [QuerySource]: the driver reads [params] only. *)
Record QuerySource := {
  params : gmap string pyval;
}.

(** Everything outside the two modules. *)
Record Env := {
  (** [WorkspaceConfig(workspace=name)] *)
  WorkspaceConfig_new : pyval -> outcome WorkspaceConfig;
  (** [WorkspaceConfig.from_connection_string(s)] *)
  from_connection_string : string -> outcome WorkspaceConfig;
  (** [get_protected_setting(path, name)] *)
  get_protected_setting : string -> string -> outcome pyval;
  (** [az_connect] applied to the keyword arguments [connect_args] *)
  az_connect : gmap string pyval -> outcome AzCredentials;
  (** [credentials.modern.get_token(scope)]: the token text *)
  get_token : AzCredentials -> string -> outcome string;
  (** [httpx.Client(...).get(url, headers=...)] with the bearer token *)
  httpx_get : string -> string -> pyval -> outcome Response;
  (** [client.query_workspace(workspace_id, query, timespan,
      server_timeout, additional_workspaces)] *)
  query_workspace :
    LogsQueryClient -> option string -> string -> option (pyval * pyval) ->
    pyval -> option (list string) -> service_outcome;
  (** [TimeSpan(start=..., end=...)]: its [start] and [end] attributes *)
  TimeSpan : pyval -> pyval -> outcome (pyval * pyval);
  (** [str(time_span)] of the [TimeSpan] with these attributes *)
  TimeSpan_str : pyval * pyval -> outcome string;
  (** [str(exception)], which every exception class defines for itself *)
  exception_str : exn -> string;
  (** [list(set(keys))]: the keys once each, in an order that Python
      leaves open *)
  list_of_set : list string -> list string;
  list_of_set_perm : forall keys, NoDup keys -> list_of_set keys ≡ₚ keys;
  (** [print(text)] *)
  print_stdout : string -> outcome unit;
  (** [az_cloud_config.log_analytics_uri], [.resource_manager] *)
  log_analytics_uri : string;
  resource_manager : string;
  (** [parse_version(az_monitor_version) > parse_version("1.1.0")] *)
  az_monitor_after_1_1_0 : bool;
}.

End Collab.
Export Collab.

(** ** The driver *)

Module AzureMonitorDriver.

(** The instance attributes of [AzureMonitorDriver]. *)
Record driver := {
  _connected : bool;
  _query_client : option LogsQueryClient;
  _schema : list (string * list (string * string));
  _def_timeout : pyval;
  _def_proxies : pyval;
  _az_tenant_id : pyval;
  _ws_config : option WorkspaceConfig;
  _ws_name : option string;
  _workspace_id : option string;
  _workspace_ids : list string;
  _def_connection_str : option string;
  _connect_auth_types : pyval;
  _try_get_schema : bool;
  _fail_on_partial : pyval;
}.

(** What the driver does to the outside, in order. *)
Inductive event :=
| EvAzConnect (args : gmap string pyval)
| EvGetToken (scope : string)
| EvHttpGet (url : string)
| EvQueryWorkspace (workspace : option string) (query : string)
    (timespan : option (pyval * pyval)) (server_timeout : pyval)
    (additional_workspaces : option (list string))
| EvWarn (category message : string)
| EvPrint (text : string).

(** The calls that leave the process. *)
Definition is_network_call (ev : event) : bool :=
  match ev with
  | EvAzConnect _ | EvGetToken _ | EvHttpGet _ | EvQueryWorkspace _ _ _ _ _ =>
      true
  | EvWarn _ _ | EvPrint _ => false
  end.

Record world := {
  self : driver;
  trace : list event;
}.

Definition emit (ev : event) : M world unit :=
  modify (fun w => {| self := self w; trace := trace w ++ [ev] |}).

Definition get_self : M world driver :=
  fun w => (Ret (self w), w).

Definition update_self (f : driver -> driver) : M world unit :=
  modify (fun w => {| self := f (self w); trace := trace w |}).

(** Assignment to one attribute: [self.attr = v]. *)
Definition set_connected (v : bool) (d : driver) : driver :=
  {| _connected := v;
     _query_client := _query_client d;
     _schema := _schema d;
     _def_timeout := _def_timeout d;
     _def_proxies := _def_proxies d;
     _az_tenant_id := _az_tenant_id d;
     _ws_config := _ws_config d;
     _ws_name := _ws_name d;
     _workspace_id := _workspace_id d;
     _workspace_ids := _workspace_ids d;
     _def_connection_str := _def_connection_str d;
     _connect_auth_types := _connect_auth_types d;
     _try_get_schema := _try_get_schema d;
     _fail_on_partial := _fail_on_partial d |}.

Definition set_query_client (v : option LogsQueryClient) (d : driver) : driver :=
  {| _connected := _connected d;
     _query_client := v;
     _schema := _schema d;
     _def_timeout := _def_timeout d;
     _def_proxies := _def_proxies d;
     _az_tenant_id := _az_tenant_id d;
     _ws_config := _ws_config d;
     _ws_name := _ws_name d;
     _workspace_id := _workspace_id d;
     _workspace_ids := _workspace_ids d;
     _def_connection_str := _def_connection_str d;
     _connect_auth_types := _connect_auth_types d;
     _try_get_schema := _try_get_schema d;
     _fail_on_partial := _fail_on_partial d |}.

Definition set_schema (v : list (string * list (string * string))) (d : driver) : driver :=
  {| _connected := _connected d;
     _query_client := _query_client d;
     _schema := v;
     _def_timeout := _def_timeout d;
     _def_proxies := _def_proxies d;
     _az_tenant_id := _az_tenant_id d;
     _ws_config := _ws_config d;
     _ws_name := _ws_name d;
     _workspace_id := _workspace_id d;
     _workspace_ids := _workspace_ids d;
     _def_connection_str := _def_connection_str d;
     _connect_auth_types := _connect_auth_types d;
     _try_get_schema := _try_get_schema d;
     _fail_on_partial := _fail_on_partial d |}.

Definition set_def_timeout (v : pyval) (d : driver) : driver :=
  {| _connected := _connected d;
     _query_client := _query_client d;
     _schema := _schema d;
     _def_timeout := v;
     _def_proxies := _def_proxies d;
     _az_tenant_id := _az_tenant_id d;
     _ws_config := _ws_config d;
     _ws_name := _ws_name d;
     _workspace_id := _workspace_id d;
     _workspace_ids := _workspace_ids d;
     _def_connection_str := _def_connection_str d;
     _connect_auth_types := _connect_auth_types d;
     _try_get_schema := _try_get_schema d;
     _fail_on_partial := _fail_on_partial d |}.

Definition set_def_proxies (v : pyval) (d : driver) : driver :=
  {| _connected := _connected d;
     _query_client := _query_client d;
     _schema := _schema d;
     _def_timeout := _def_timeout d;
     _def_proxies := v;
     _az_tenant_id := _az_tenant_id d;
     _ws_config := _ws_config d;
     _ws_name := _ws_name d;
     _workspace_id := _workspace_id d;
     _workspace_ids := _workspace_ids d;
     _def_connection_str := _def_connection_str d;
     _connect_auth_types := _connect_auth_types d;
     _try_get_schema := _try_get_schema d;
     _fail_on_partial := _fail_on_partial d |}.

Definition set_az_tenant_id (v : pyval) (d : driver) : driver :=
  {| _connected := _connected d;
     _query_client := _query_client d;
     _schema := _schema d;
     _def_timeout := _def_timeout d;
     _def_proxies := _def_proxies d;
     _az_tenant_id := v;
     _ws_config := _ws_config d;
     _ws_name := _ws_name d;
     _workspace_id := _workspace_id d;
     _workspace_ids := _workspace_ids d;
     _def_connection_str := _def_connection_str d;
     _connect_auth_types := _connect_auth_types d;
     _try_get_schema := _try_get_schema d;
     _fail_on_partial := _fail_on_partial d |}.

Definition set_ws_config (v : option WorkspaceConfig) (d : driver) : driver :=
  {| _connected := _connected d;
     _query_client := _query_client d;
     _schema := _schema d;
     _def_timeout := _def_timeout d;
     _def_proxies := _def_proxies d;
     _az_tenant_id := _az_tenant_id d;
     _ws_config := v;
     _ws_name := _ws_name d;
     _workspace_id := _workspace_id d;
     _workspace_ids := _workspace_ids d;
     _def_connection_str := _def_connection_str d;
     _connect_auth_types := _connect_auth_types d;
     _try_get_schema := _try_get_schema d;
     _fail_on_partial := _fail_on_partial d |}.

Definition set_ws_name (v : option string) (d : driver) : driver :=
  {| _connected := _connected d;
     _query_client := _query_client d;
     _schema := _schema d;
     _def_timeout := _def_timeout d;
     _def_proxies := _def_proxies d;
     _az_tenant_id := _az_tenant_id d;
     _ws_config := _ws_config d;
     _ws_name := v;
     _workspace_id := _workspace_id d;
     _workspace_ids := _workspace_ids d;
     _def_connection_str := _def_connection_str d;
     _connect_auth_types := _connect_auth_types d;
     _try_get_schema := _try_get_schema d;
     _fail_on_partial := _fail_on_partial d |}.

Definition set_workspace_id (v : option string) (d : driver) : driver :=
  {| _connected := _connected d;
     _query_client := _query_client d;
     _schema := _schema d;
     _def_timeout := _def_timeout d;
     _def_proxies := _def_proxies d;
     _az_tenant_id := _az_tenant_id d;
     _ws_config := _ws_config d;
     _ws_name := _ws_name d;
     _workspace_id := v;
     _workspace_ids := _workspace_ids d;
     _def_connection_str := _def_connection_str d;
     _connect_auth_types := _connect_auth_types d;
     _try_get_schema := _try_get_schema d;
     _fail_on_partial := _fail_on_partial d |}.

Definition set_workspace_ids (v : list string) (d : driver) : driver :=
  {| _connected := _connected d;
     _query_client := _query_client d;
     _schema := _schema d;
     _def_timeout := _def_timeout d;
     _def_proxies := _def_proxies d;
     _az_tenant_id := _az_tenant_id d;
     _ws_config := _ws_config d;
     _ws_name := _ws_name d;
     _workspace_id := _workspace_id d;
     _workspace_ids := v;
     _def_connection_str := _def_connection_str d;
     _connect_auth_types := _connect_auth_types d;
     _try_get_schema := _try_get_schema d;
     _fail_on_partial := _fail_on_partial d |}.

Definition set_def_connection_str (v : option string) (d : driver) : driver :=
  {| _connected := _connected d;
     _query_client := _query_client d;
     _schema := _schema d;
     _def_timeout := _def_timeout d;
     _def_proxies := _def_proxies d;
     _az_tenant_id := _az_tenant_id d;
     _ws_config := _ws_config d;
     _ws_name := _ws_name d;
     _workspace_id := _workspace_id d;
     _workspace_ids := _workspace_ids d;
     _def_connection_str := v;
     _connect_auth_types := _connect_auth_types d;
     _try_get_schema := _try_get_schema d;
     _fail_on_partial := _fail_on_partial d |}.

Definition set_connect_auth_types (v : pyval) (d : driver) : driver :=
  {| _connected := _connected d;
     _query_client := _query_client d;
     _schema := _schema d;
     _def_timeout := _def_timeout d;
     _def_proxies := _def_proxies d;
     _az_tenant_id := _az_tenant_id d;
     _ws_config := _ws_config d;
     _ws_name := _ws_name d;
     _workspace_id := _workspace_id d;
     _workspace_ids := _workspace_ids d;
     _def_connection_str := _def_connection_str d;
     _connect_auth_types := v;
     _try_get_schema := _try_get_schema d;
     _fail_on_partial := _fail_on_partial d |}.

Definition set_fail_on_partial (v : pyval) (d : driver) : driver :=
  {| _connected := _connected d;
     _query_client := _query_client d;
     _schema := _schema d;
     _def_timeout := _def_timeout d;
     _def_proxies := _def_proxies d;
     _az_tenant_id := _az_tenant_id d;
     _ws_config := _ws_config d;
     _ws_name := _ws_name d;
     _workspace_id := _workspace_id d;
     _workspace_ids := _workspace_ids d;
     _def_connection_str := _def_connection_str d;
     _connect_auth_types := _connect_auth_types d;
     _try_get_schema := _try_get_schema d;
     _fail_on_partial := v |}.

Definition _HELP_URL : string :=
  "https://msticpy.readthedocs.io/en/latest/data_acquisition/DataProv-MSSentinel.html".

Definition _DEFAULT_TIMEOUT : pyval := PInt 300.

(** *** Schema formatting *)

(** [_schema_format_columns(table_schema)] *)
Definition _schema_format_columns (table_schema : raw_schema)
  : list (string * string) :=
  let columns :=
    dict_of_items
      (map (fun col => (col_name col, col_type col))
           (default [] (standardColumns table_schema))) in
  let columns :=
    fold_left (fun columns col => dict_set (col_name col) (col_type col) columns)
              (default [] (customColumns table_schema)) columns in
  dict_of_items (sorted_items columns).

(** [_schema_format_tables(ws_tables)], on [ws_tables["value"]] *)
Definition _schema_format_tables (ws_tables_value : list raw_table)
  : list (string * list (string * string)) :=
  let table_schema :=
    dict_of_items
      (map (fun table =>
              (table_name table,
               _schema_format_columns (properties_schema table)))
           ws_tables_value) in
  dict_of_items (sorted_items table_schema).

(** *** Read-only attributes *)

(** [url_endpoint] *)
Definition url_endpoint (E : Env) : string :=
  let base_url := log_analytics_uri E in
  if az_monitor_after_1_1_0 E then base_url +:+ "v1" else base_url.

(** [a or b] where [a] is [str | None] and [b] a string. *)
Definition or_else (a : option string) (b : string) : string :=
  match a with
  | Some s => if String.eqb s "" then b else s
  | None => b
  end.

(** [current_connection] (getter) *)
Definition current_connection (d : driver) : outcome string :=
  let connection := _ws_name d in
  connection ←
    match _ws_config d with
    | Some ws_config =>
        if negb (str_truthy connection)
           && conf_contains ws_config CONF_WS_NAME_KEY
        then conf_getitem ws_config CONF_WS_NAME_KEY
        else mret connection
    | None => mret connection
    end;
  mret
    (or_else connection
       (or_else (_def_connection_str d)
          (or_else (_workspace_id d)
             (or_else (Some (hd "" (_workspace_ids d))) "AzureMonitor")))).

(** [current_connection] (setter): [del value] *)
Definition current_connection_setter (value : pyval) : M world unit :=
  mret tt.

(** *** Workspace resolution *)

(** Modelled from the spec: the [WorkspaceConfig] constructor looks a
    workspace up by name; its [workspace] argument is a name or [None], and
    any other value is refused with [TypeError]. *)
Definition workspace_arg (v : pyval) : outcome (option string) :=
  match v with
  | PNone => Ret None
  | PStr s => Ret (Some s)
  | _ => Raise (mk_exn TypeError [] None)
  end.

(** [WorkspaceConfig(workspace)] *)
Definition WorkspaceConfig_ctor (E : Env) (workspace : pyval)
  : outcome WorkspaceConfig :=
  name ← workspace_arg workspace;
  WorkspaceConfig_new E workspace.

(** [for x in v] *)
Definition py_iter (v : pyval) : outcome (list pyval) :=
  match v with
  | PList l => Ret l
  | PDict d => Ret (map (fun kv => PStr (fst kv)) d)
  | PStr s => Ret (map PStr (chars s))
  | _ => Raise (mk_exn TypeError [] None)
  end.

(** A value as the attribute [_workspace_ids : list[str]] holds it, as far
    as [len(...)] and [", ".join(...)] of the log call accept it.  A list
    or tuple of strings is held as it is.  A bare string passes both calls;
    it is held as the list of its characters: that is what iteration makes
    of it, while its slice [[1:]], the string of the remaining characters,
    is recorded as the list of those characters.  On a list with an entry
    that is not a string, and on a value without a length, the log call
    raises [TypeError]; the attribute as typed here cannot hold such a
    value and keeps its earlier one, where the code has assigned the value
    before the log call.  A dict passes the log call by its keys and fails
    when a query slices it; it is refused here with the same
    [TypeError]. *)
Definition as_str_list (v : pyval) : outcome (list string) :=
  match v with
  | PList l =>
      match mapM (fun x => match x with PStr s => Some s | _ => None end) l with
      | Some ids => Ret ids
      | None => Raise (mk_exn TypeError [] None)
      end
  | PStr s => Ret (chars s)
  | _ => Raise (mk_exn TypeError [] None)
  end.

(** [_get_workspaces_by_id(workspace_ids)] *)
Definition _get_workspaces_by_id (workspace_ids : pyval) : M world unit :=
  d ← get_self;
  if negb (truthy (_az_tenant_id d)) then
    raise (mk_exn MsticpyKqlConnectionError
             ["You must supply a tenant_id with the workspace_ids parameter"]
             (Some "No tenant_id supplied."))
  else
    ids ← lift (as_str_list workspace_ids);
    update_self (set_workspace_ids ids).

(** The dict comprehension of [_get_workspaces_by_name]: for each name,
    first the key [WorkspaceConfig(workspace)[CONF_WS_ID]], then the value
    [WorkspaceConfig(workspace)[CONF_TENANT_ID]]. *)
Fixpoint workspace_configs_of (E : Env) (workspaces : list pyval)
    (acc : list (option string * option string))
  : outcome (list (option string * option string)) :=
  match workspaces with
  | [] => Ret acc
  | workspace :: rest =>
      c1 ← WorkspaceConfig_ctor E workspace;
      k ← conf_getitem c1 CONF_WS_ID;
      c2 ← WorkspaceConfig_ctor E workspace;
      v ← conf_getitem c2 CONF_TENANT_ID;
      workspace_configs_of E rest (okey_set k v acc)
  end.

(** A [str | None] value of a config as a Python value. *)
Definition of_str_or_none (v : option string) : pyval :=
  match v with
  | Some text => PStr text
  | None => PNone
  end.

(** [_get_workspaces_by_name(workspaces)].  [list(set(d))] lists the keys
    of [d] once each, in the order the environment gives.  With a key
    [None] among them, [", ".join(...)] of the log call raises [TypeError];
    the attribute as typed here cannot hold that list and keeps its earlier
    value, where the code has assigned the list before the log call. *)
Definition _get_workspaces_by_name (E : Env) (workspaces : pyval)
  : M world unit :=
  names ← lift (py_iter workspaces);
  workspace_configs ← lift (workspace_configs_of E names []);
  if (1 <? length (remove_dups (map snd workspace_configs)))%nat then
    raise (mk_exn ValueError ["All workspaces must have the same tenant ID."]
             None)
  else
    match map snd workspace_configs with
    | [] => raise (mk_exn (OtherException "StopIteration") [] None)
    | tenant :: _ =>
        update_self (set_az_tenant_id (of_str_or_none tenant));;
        match mapM id (map fst workspace_configs) with
        | Some keys => update_self (set_workspace_ids (list_of_set E keys))
        | None => raise (mk_exn TypeError [] None)
        end
    end.

Definition no_connection_details (args : list string) : exn :=
  mk_exn MsticpyKqlConnectionError args (Some "No connection details").

(** [connection_str or self._def_connection_str] *)
Definition connection_or_default (connection_str : connection_arg)
    (def : option string) : connection_arg :=
  let of_def := match def with Some s => ConnStr s | None => ConnNone end in
  match connection_str with
  | ConnNone => of_def
  | ConnStr s => if String.eqb s "" then of_def else ConnStr s
  | ConnConfig c => ConnConfig c
  end.

(** [_get_workspaces(connection_str, **kwargs)].  The keyword arguments
    are this call's own copy, so the two [pop]s are plain reads. *)
Definition _get_workspaces (E : Env) (connection_str : connection_arg)
    (kwargs : gmap string pyval) : M world unit :=
  update_self
    (set_az_tenant_id
       (default (default PNone (kwargs !! "mp_az_tenant_id"))
                (kwargs !! "tenant_id")));;
  let workspaces := default PNone (kwargs !! "workspaces") in
  if truthy workspaces then _get_workspaces_by_name E workspaces
  else
  let workspace_ids := default PNone (kwargs !! "workspace_ids") in
  if truthy workspace_ids then _get_workspaces_by_id workspace_ids
  else
  let workspace_name := default PNone (kwargs !! "workspace") in
  d ← get_self;
  let connection_str :=
    connection_or_default connection_str (_def_connection_str d) in
  ws_config ←
    match connection_str with
    | ConnNone =>
        c ← lift (WorkspaceConfig_ctor E workspace_name); mret (Some c)
    | ConnStr s =>
        if truthy workspace_name then
          c ← lift (WorkspaceConfig_ctor E workspace_name); mret (Some c)
        else
          update_self (set_def_connection_str (Some s));;
          match from_connection_string E s with
          | Ret c => mret (Some c)
          | Raise e =>
              match exn_class e with
              | ValueError => mret None
              | _ => raise e
              end
          end
    | ConnConfig c0 =>
        if truthy workspace_name then
          c ← lift (WorkspaceConfig_ctor E workspace_name); mret (Some c)
        else
          (* the argument [connection_str.workspace_id] of the log call *)
          lift (conf_getattr (workspace_id c0));;
          mret (Some c0)
    end;
  match ws_config with
  | None =>
      raise (no_connection_details
               ["A workspace name, config or connection string is needed to connect to a workspace."])
  | Some ws_config =>
      (* [ws_config.workspace_id is None or ws_config.tenant_id is None] *)
      ws_id ← lift (conf_getattr (workspace_id ws_config));
      tenant ←
        match ws_id with
        | None => mret None
        | Some _ => lift (conf_getattr (tenant_id ws_config))
        end;
      match tenant with
      | Some _ =>
          update_self (set_ws_config (Some ws_config));;
          ws_name ←
            match workspace_name with
            | PStr s =>
                if String.eqb s "" then
                  lift (conf_getattr (workspace_id ws_config))
                else mret (Some s)
            | _ => lift (conf_getattr (workspace_id ws_config))
            end;
          update_self (set_ws_name ws_name);;
          d ← get_self;
          (if negb (truthy (_az_tenant_id d))
              && conf_contains ws_config CONF_TENANT_ID
           then
             t ← lift (conf_getitem ws_config CONF_TENANT_ID);
             update_self (set_az_tenant_id (of_str_or_none t))
           else mret tt);;
          w ← lift (conf_getitem ws_config CONF_WS_ID);
          update_self (set_workspace_id w)
      | None =>
          raise (no_connection_details
                   ["The workspace config or connection string did not havethe required parameters to connect to a workspace.";
                    "At least a workspace ID and tenant ID are required."])
      end
  end.

(** *** Building the query client *)

(** [_get_workspace_settings_args()] *)
Fixpoint protected_settings (E : Env) (args_path : string)
    (names : list string) (acc : gmap string pyval)
  : outcome (gmap string pyval) :=
  match names with
  | [] => Ret acc
  | name :: rest =>
      v ← get_protected_setting E args_path name;
      protected_settings E args_path rest (<[name := v]> acc)
  end.

Definition _get_workspace_settings_args (E : Env)
  : M world (gmap string pyval) :=
  d ← get_self;
  match _ws_config d with
  | None => mret ∅
  | Some ws_config =>
      if negb (str_truthy (settings_path ws_config)) then mret ∅
      else
        let args_path := default "" (settings_path ws_config) +:+ ".Args" in
        lift (protected_settings E args_path (settings_args ws_config) ∅)
  end.

(** The two [isinstance] tests on [az_auth_types]. *)
Definition normalise_auth_types (v : pyval) : pyval :=
  match v with
  | PBool _ => PNone
  | PStr s => PList [PStr s]
  | _ => v
  end.

(** [_create_query_client(connection_str, **kwargs)] *)
Definition _create_query_client (E : Env) (connection_str : connection_arg)
    (kwargs : gmap string pyval) : M world LogsQueryClient :=
  let az_auth_types :=
    default (default PNone (kwargs !! "mp_az_auth")) (kwargs !! "auth_types") in
  let kwargs := delete "auth_types" kwargs in
  let az_auth_types := normalise_auth_types az_auth_types in
  update_self (set_connect_auth_types az_auth_types);;
  update_self (set_def_timeout (default _DEFAULT_TIMEOUT (kwargs !! "timeout")));;
  let kwargs := delete "timeout" kwargs in
  d ← get_self;
  update_self (set_def_proxies (default (_def_proxies d) (kwargs !! "proxies")));;
  let kwargs := delete "proxies" kwargs in
  _get_workspaces E connection_str kwargs;;
  connect_args ← _get_workspace_settings_args E;
  let connect_args := kwargs ∪ connect_args in
  d ← get_self;
  let connect_args :=
    <["tenant_id" := _az_tenant_id d]>
      (<["auth_methods" := az_auth_types]> connect_args) in
  emit (EvAzConnect connect_args);;
  credentials ← lift (az_connect E connect_args);
  mret {| credential := modern credentials;
          endpoint := url_endpoint E;
          client_proxies := default (_def_proxies d) (kwargs !! "proxies") |}.

(** *** Fetching the schema *)

Definition url_tables (endpoint sub_id res_group ws_name : string) : string :=
  endpoint +:+ "subscriptions/" +:+ sub_id +:+ "/resourcegroups/" +:+
  res_group +:+ "/providers/Microsoft.OperationalInsights/workspaces/" +:+
  ws_name +:+ "/tables?api-version=2021-12-01-preview".

(** A [str | None] value in a format string. *)
Definition format_field (v : option string) : string := default "None" v.

(** [url_tables.format(...)] with its three attribute reads. *)
Definition format_url_tables (mgmt_endpoint : string) (c : WorkspaceConfig)
  : outcome string :=
  sub_id ← conf_getattr (subscription_id c);
  res_group ← conf_getattr (resource_group c);
  ws_name ← conf_getattr (workspace_name c);
  mret (url_tables mgmt_endpoint (format_field sub_id)
          (format_field res_group) (format_field ws_name)).

(** [_get_schema()] *)
Definition _get_schema (E : Env)
  : M world (list (string * list (string * string))) :=
  d ← get_self;
  match _ws_config d with
  | None => mret []
  | Some ws_config =>
      let mgmt_endpoint := resource_manager E in
      ws_name ←
        lift (match conf_getattr (workspace_name ws_config) with
              | Ret ws_name => Ret ws_name
              | Raise _ => conf_getattr (workspace_key ws_config)
              end);
      if negb (str_truthy ws_name)
         || bool_decide (ws_name = Some "Default")
      then mret []
      else
        match format_url_tables mgmt_endpoint ws_config with
        | Raise e =>
            match exn_class e with
            | AttributeError => mret []
            | _ => raise e
            end
        | Ret fmt_url =>
            let args : gmap string pyval :=
              <["tenant_id" := _az_tenant_id d]>
                (<["auth_methods" := _connect_auth_types d]> ∅) in
            emit (EvAzConnect args);;
            credentials ← lift (az_connect E args);
            let scope := mgmt_endpoint +:+ "/.default" in
            emit (EvGetToken scope);;
            token ← lift (get_token E credentials scope);
            let proxies := py_or (_def_proxies d) (PDict []) in
            emit (EvHttpGet fmt_url);;
            response ← lift (httpx_get E fmt_url token proxies);
            if negb (status_code response =? 200) then mret []
            else
              tables ← lift (json response);
              match tables with
              | None => raise (mk_exn TypeError [] None)
              | Some value => mret (_schema_format_tables value)
              end
        end
  end.

(** *** connect *)

(** [print(text)]: the text goes to the console, or the write fails. *)
Definition print (E : Env) (text : string) : M world unit :=
  emit (EvPrint text);;
  lift (print_stdout E text).

(** [connect(connection_str, **kwargs)] *)
Definition connect (E : Env) (connection_str : connection_arg)
    (kwargs : gmap string pyval) : M world bool :=
  update_self (set_connected false);;
  client ← _create_query_client E connection_str kwargs;
  update_self (set_query_client (Some client));;
  d ← get_self;
  update_self
    (set_fail_on_partial
       (default (_fail_on_partial d) (kwargs !! "fail_on_partial")));;
  (if _try_get_schema d then
     schema ← _get_schema E;
     update_self (set_schema schema)
   else mret tt);;
  update_self (set_connected true);;
  print E "connected";;
  d ← get_self;
  mret (_connected d).

(** *** Queries *)

Definition not_connected_error : exn :=
  mk_exn MsticpyNotConnectedError
    ["Please run connect() to connect to the workspace";
     "before running a query."]
    (Some "Workspace not connected.").

(** [v.get(...)] on a keyword argument that is expected to hold a dict. *)
Definition as_dict (v : option pyval) : outcome (list (string * pyval)) :=
  match v with
  | None => Ret []
  | Some (PDict d) => Ret d
  | Some _ => Raise (mk_exn AttributeError [] None)
  end.

(** The two [isinstance(..., pd.Timestamp)] conversions. *)
Definition timestamp_to_datetime (v : pyval) : pyval :=
  match v with
  | PTimestamp t => PDatetime (to_pydatetime t)
  | _ => v
  end.

(** [_get_time_span_value] with the keyword arguments [kwargs] *)
Definition _get_time_span_value (E : Env) (kwargs : gmap string pyval)
  : M world (option (pyval * pyval)) :=
  let default_time_params :=
    default (PBool false) (kwargs !! "default_time_params") in
  time_params ← lift (as_dict (kwargs !! "time_span"));
  let start := default PNone (dict_get "start" time_params) in
  let end_ := default PNone (dict_get "end" time_params) in
  if truthy default_time_params || (is_none start || is_none end_) then
    mret None
  else
    time_span ← lift (TimeSpan E start end_);
    let t_start := timestamp_to_datetime (fst time_span) in
    let t_end := timestamp_to_datetime (snd time_span) in
    (* the argument [str(time_span)] of the log call *)
    lift (TimeSpan_str E time_span);;
    mret (Some (t_start, t_end)).

(** The table name that [_check_table_exists] looks up. *)
Definition table_key (table : string) : string :=
  if contains_char " " (strip table) then split_head " " (strip table)
  else table.

Definition no_data_source_error (table : string) : exn :=
  mk_exn MsticpyNoDataSourceError
    ["The table " +:+ table +:+ " for this query is not in your workspace";
     "or database schema. Please check your query."]
    (Some (table +:+ " not found.")).

(** [_check_table_exists(query_source)] *)
Definition _check_table_exists (query_source : QuerySource) : M world unit :=
  d ← get_self;
  match _schema d with
  | [] => mret tt
  | _ =>
      table_param ← lift (as_dict (params query_source !! "table"));
      let table := default PNone (dict_get "default" table_param) in
      if truthy table then
        match table with
        | PStr table =>
            let table := table_key table in
            if negb (dict_mem table (_schema d)) then
              raise (no_data_source_error table)
            else mret tt
        | _ => raise (mk_exn AttributeError [] None)
        end
      else mret tt
  end.

(** The query status dictionary. *)
Record query_status := {
  status : string;
  tables : nat;
  result : option query_response;
}.

(** [_get_query_status(result)] *)
Definition _get_query_status (r : query_response) : query_status :=
  match r with
  | LogsQueryResult status_name tables =>
      {| status := status_name; tables := length tables; result := None |}
  | LogsQueryPartialResult status_name partial_data =>
      {| status := status_name; tables := length partial_data;
         result := None |}
  | OtherResult _ =>
      {| status := "unknown failure"; tables := 0%nat; result := Some r |}
  end.

(** [_raise_query_failure(query, http_err)] *)
Definition _raise_query_failure {A} (query message : string) : M world A :=
  let err_contents := split_char "010" message in
  let err_contents := err_contents ++ ["Query:" +:+ "
" +:+ query] in
  raise (mk_exn MsticpyDataQueryError err_contents (Some "Query Failure")).

(** [_raise_unknown_error(exception)] *)
Definition _raise_unknown_error {A} (E : Env) (exception : exn) : M world A :=
  raise
    (mk_exn MsticpyDataQueryError
       (["An unknown exception was returned by the service"] ++
        exn_args exception ++
        ["Full exception:" +:+ "
" +:+ exception_str E exception])
       (Some "connection failed")).

Definition partial_results_message : string :=
  "Partial results returned. This may indicate a query timeout.".

(** [table = tables[0]] *)
Definition first_table (tables : list LogsTable) : outcome LogsTable :=
  match tables with
  | table :: _ => Ret table
  | [] => Raise (mk_exn IndexError ["list index out of range"] None)
  end.

(** The [fail_on_partial] that a query call works with. *)
Definition effective_fail_on_partial (d : driver) (kwargs : gmap string pyval)
  : pyval :=
  default (default (_fail_on_partial d) (kwargs !! "fail_on_partial"))
          (kwargs !! "fail_if_partial").

(** [next(iter(self._workspace_ids), None) or self._workspace_id] *)
Definition primary_workspace (d : driver) : option string :=
  str_or (head (_workspace_ids d)) (_workspace_id d).

(** [self._workspace_ids[1:] if self._workspace_ids else None] *)
Definition additional_workspaces_of (d : driver) : option (list string) :=
  match _workspace_ids d with
  | [] => None
  | _ :: rest => Some rest
  end.

(** [query_with_results(query, **kwargs)] *)
Definition query_with_results (E : Env) (query : string)
    (kwargs : gmap string pyval) : M world (DataFrame * query_status) :=
  d ← get_self;
  match _connected d, _query_client d with
  | true, Some client =>
      time_span_value ← _get_time_span_value E kwargs;
      let fail_on_partial := effective_fail_on_partial d kwargs in
      let server_timeout := default (_def_timeout d) (kwargs !! "timeout") in
      let workspace_id := primary_workspace d in
      let additional_workspaces := additional_workspaces_of d in
      emit (EvQueryWorkspace workspace_id query time_span_value
              server_timeout additional_workspaces);;
      result ←
        match query_workspace E client workspace_id query time_span_value
                server_timeout additional_workspaces with
        | SvcReturn r => mret r
        | SvcHttpResponseError message => _raise_query_failure query message
        | SvcException unknown_err => _raise_unknown_error E unknown_err
        end;
      let status := _get_query_status result in
      table ←
        match result with
        | LogsQueryPartialResult _ partial_data =>
            if truthy fail_on_partial then
              raise (mk_exn MsticpyDataQueryError [partial_results_message]
                       (Some "Partial results returned"))
            else
              emit (EvWarn "RuntimeWarning" partial_results_message);;
              lift (first_table partial_data)
        | LogsQueryResult _ tables => lift (first_table tables)
        | OtherResult _ => raise (mk_exn AttributeError [] None)
        end;
      mret ({| df_rows := rows table; df_columns := columns table |}, status)
  | _, _ => raise not_connected_error
  end.

(** [query(query, query_source, **kwargs)].  [query_with_results] returns
    a frame whenever it returns, so [data if data is not None else result]
    is the frame. *)
Definition query (E : Env) (query_text : string)
    (query_source : option QuerySource) (kwargs : gmap string pyval)
  : M world DataFrame :=
  d ← get_self;
  match _connected d, _query_client d with
  | true, Some _ =>
      match query_source with
      | Some query_source => _check_table_exists query_source
      | None => mret tt
      end;;
      data_result ← query_with_results E query_text kwargs;
      mret (fst data_result)
  | _, _ => raise not_connected_error
  end.

End AzureMonitorDriver.
Export AzureMonitorDriver.

(** ** Domain utilities *)

Module DomainUtils.

(** [cryptography.x509.Certificate], as an opaque handle. *)
Record Certificate := { cert_handle : string }.

(** A column of a [pd.DataFrame]: text values, or values of a dtype that
    has no [.str] accessor (only their number matters here). *)
Inductive Column :=
| StrColumn (values : list string)
| OtherColumn (n_rows : nat).

Definition column_length (c : Column) : nat :=
  match c with
  | StrColumn values => length values
  | OtherColumn n_rows => n_rows
  end.

(** The abuse list is a [pd.DataFrame]. *)
Record Frame := { frame_columns : list (string * Column) }.

(** What [DomainValidator] calls outside the module. *)
Record DomEnv := {
  (** [ssl.get_server_certificate((host, port))] *)
  get_server_certificate : string -> Z -> outcome string;
  (** [x509.load_pem_x509_certificate(data)] *)
  load_pem_x509_certificate : string -> outcome Certificate;
  (** [certificate.fingerprint(SHA1())], a byte string *)
  fingerprint_SHA1 : Certificate -> outcome (list ascii);
  (** [pd.read_csv(url, skiprows=n)] *)
  read_csv : string -> Z -> outcome Frame;
  (** whether the installed pandas gives the column of
      [pd.DataFrame({"SHA1": []})] the dtype [object], which has the [.str]
      accessor, or [float64], which has not *)
  empty_column_is_object : bool;
}.

(** The class attribute [DomainValidator._ssl_abuse_list]. *)
Record validator := { _ssl_abuse_list : option Frame }.

(** [frame.empty]: no column or no row. *)
Definition frame_empty (f : Frame) : bool :=
  match frame_columns f with
  | [] => true
  | (_, c) :: _ => (column_length c =? 0)%nat
  end.

(** [frame[column]] *)
Definition frame_getitem (column : string) (f : Frame) : outcome Column :=
  match dict_get column (frame_columns f) with
  | Some values => Ret values
  | None => Raise (mk_exn KeyError [column] None)
  end.

(** [column.str]: the text values, or [AttributeError] on another
    dtype. *)
Definition str_accessor (c : Column) : outcome (list string) :=
  match c with
  | StrColumn values => Ret values
  | OtherColumn _ =>
      Raise (mk_exn AttributeError
               ["Can only use .str accessor with string values!"] None)
  end.

(** [pd.DataFrame({"SHA1": []})] *)
Definition empty_SHA1_frame (E : DomEnv) : Frame :=
  {| frame_columns :=
       [("SHA1",
         if empty_column_is_object E then StrColumn [] else OtherColumn 0)] |}.

(** [_get_ssl_abuselist()] *)
Definition _get_ssl_abuselist (E : DomEnv) : outcome Frame :=
  match read_csv E "https://sslbl.abuse.ch/blacklist/sslblacklist.csv" 8 with
  | Ret ssl_ab_list => Ret ssl_ab_list
  | Raise e =>
      match exn_class e with
      | ConnectionError | HTTPError | URLError => Ret (empty_SHA1_frame E)
      | _ => Raise e
      end
  end.

(** [_check_and_load_abuselist()] *)
Definition _check_and_load_abuselist (E : DomEnv) : M validator unit :=
  v ← get_state;
  if match _ssl_abuse_list v with
     | None => true
     | Some f => frame_empty f
     end
  then
    f ← lift (_get_ssl_abuselist E);
    modify (fun _ => {| _ssl_abuse_list := Some f |})
  else mret tt.

(** [ssl_abuse_list] (property) *)
Definition ssl_abuse_list (E : DomEnv) : M validator Frame :=
  _check_and_load_abuselist E;;
  v ← get_state;
  match _ssl_abuse_list v with
  | Some f => mret f
  | None => raise (mk_exn AttributeError [] None)
  end.

(** [text.encode("ascii")] *)
Definition encode_ascii (text : string) : outcome string :=
  if forallb (fun c => (nat_of_ascii c <? 128)%nat) (list_ascii_of_string text)
  then Ret text
  else Raise (mk_exn (OtherException "UnicodeEncodeError") [] None).

Definition hex_digit (n : nat) : ascii :=
  if (n <? 10)%nat then ascii_of_nat (48 + n) else ascii_of_nat (87 + n).

(** [data.hex()] *)
Fixpoint hex (data : list ascii) : string :=
  match data with
  | [] => EmptyString
  | b :: rest =>
      let n := nat_of_ascii b in
      String (hex_digit (n / 16)) (String (hex_digit (n mod 16)) (hex rest))
  end.

(** The body of the [try] in [in_abuse_list]. *)
Definition in_abuse_list_try (E : DomEnv) (url_domain : string)
  : M validator (bool * Certificate) :=
  cert ← lift (get_server_certificate E url_domain 443);
  pem ← lift (encode_ascii cert);
  x509_cert ← lift (load_pem_x509_certificate E pem);
  cert_sha1 ← lift (fingerprint_SHA1 E x509_cert);
  abuse_list ← ssl_abuse_list E;
  sha1_column ← lift (frame_getitem "SHA1" abuse_list);
  sha1_texts ← lift (str_accessor sha1_column);
  let result := existsb (contains_str (hex cert_sha1)) sha1_texts in
  mret (result, x509_cert).

(** [in_abuse_list(url_domain)] *)
Definition in_abuse_list (E : DomEnv) (url_domain : string)
  : M validator (bool * option Certificate) :=
  try_except
    (r ← in_abuse_list_try E url_domain; mret (fst r, Some (snd r)))
    (fun _ => mret (false, None)).

End DomainUtils.
Export DomainUtils.

(** ** A new driver and a sample environment *)

Module Examples.

(** [AzureMonitorDriver(connection_str, **kwargs)]: the attributes after
    [__init__]; [_connected] starts out [False] in [DriverBase], and
    [get_http_proxies()] is taken to find no proxy settings. *)
Definition init (connection_str : option string) (kwargs : gmap string pyval)
  : driver :=
  {| _connected := false;
     _query_client := None;
     _schema := [];
     _def_timeout :=
       default (default _DEFAULT_TIMEOUT (kwargs !! "server_timeout"))
               (kwargs !! "timeout");
     _def_proxies := default PNone (kwargs !! "proxies");
     _az_tenant_id := PNone;
     _ws_config := None;
     _ws_name := None;
     _workspace_id := None;
     _workspace_ids := [];
     _def_connection_str := connection_str;
     _connect_auth_types := PNone;
     _try_get_schema := true;
     _fail_on_partial := default (PBool false) (kwargs !! "fail_on_partial") |}.

Definition new_world : world := {| self := init None ∅; trace := [] |}.

Definition sample_config (ws tenant : string) : WorkspaceConfig :=
  {| workspace_id := Val ws;
     tenant_id := Val tenant;
     workspace_name := Null;
     subscription_id := Null;
     resource_group := Null;
     workspace_key := Val "Default";
     settings_path := None;
     settings_args := [] |}.

Definition named_config : WorkspaceConfig :=
  {| workspace_id := Val "W1";
     tenant_id := Val "T1";
     workspace_name := Val "Workspace1";
     subscription_id := Val "S1";
     resource_group := Val "RG1";
     workspace_key := Val "Workspace1";
     settings_path := None;
     settings_args := [] |}.

Definition sample_table : LogsTable :=
  {| rows := [[PStr "alert-1"; PInt 3]]; columns := ["AlertName"; "Severity"] |}.

(** Whether a time bound carries a time zone. *)
Definition aware (v : pyval) : option bool :=
  match v with
  | PDatetime d => Some (bool_decide (tzinfo d <> None))
  | PTimestamp t => Some (bool_decide (ts_tzinfo t <> None))
  | _ => None
  end.

(** [str(exception)] for the built-in exception classes: nothing for no
    argument, the argument for one ([KeyError] shows its [repr], in
    quotes), and the tuple of the arguments for more. *)
Definition sample_exception_str (e : exn) : string :=
  let quoted := fun arg => "'" +:+ arg +:+ "'" in
  match exn_args e with
  | [] => ""
  | [arg] =>
      match exn_class e with
      | KeyError => quoted arg
      | _ => arg
      end
  | args => "(" +:+ join ", " (map quoted args) +:+ ")"
  end.

(** A text for a time span, refused when one bound carries a time zone and
    the other does not. *)
Definition sample_TimeSpan_str (time_span : pyval * pyval) : outcome string :=
  match aware (fst time_span), aware (snd time_span) with
  | Some a, Some b =>
      if Bool.eqb a b then Ret "TimeSpan(start=..., end=..., period=...)"
      else Raise (mk_exn TypeError
                    ["can't subtract offset-naive and offset-aware datetimes"]
                    None)
  | _, _ => Raise (mk_exn TypeError [] None)
  end.

(** Settings in which the workspace names [A] and [B] both point at the
    workspace [W1], under the tenants [T1] and [T2], and every other name
    resolves to [W0] under [T0]; one connection string that resolves to
    the fully described workspace [W1]; a management endpoint that answers
    404; a service that answers the query text
    [partial] with a partial result without tables, and any other query
    with one table; a [TimeSpan] that holds its bounds as they are given
    and has a text exactly when both bounds carry a time zone or neither
    does; exceptions that print as the built-in classes do; sets listed in
    the order of insertion; a console that takes every line. *)
Definition sample_env : Env :=
  {| WorkspaceConfig_new := fun v =>
       match v with
       | PStr s =>
           if String.eqb s "A" then Ret (sample_config "W1" "T1")
           else if String.eqb s "B" then Ret (sample_config "W1" "T2")
           else Ret (sample_config "W0" "T0")
       | _ => Ret (sample_config "W0" "T0")
       end;
     from_connection_string := fun s =>
       if String.eqb s "connection-to-W1" then Ret named_config
       else Raise (mk_exn ValueError [] None);
     get_protected_setting := fun _ _ => Ret PNone;
     az_connect := fun _ => Ret {| modern := "credential" |};
     get_token := fun _ _ => Ret "token";
     httpx_get := fun _ _ _ =>
       Ret {| status_code := 404; json := Ret None |};
     query_workspace := fun _ _ q _ _ _ =>
       if String.eqb q "partial" then
         SvcReturn (LogsQueryPartialResult "PARTIAL" [])
       else if String.eqb q "partial1" then
         SvcReturn (LogsQueryPartialResult "PARTIAL" [sample_table])
       else SvcReturn (LogsQueryResult "SUCCESS" [sample_table]);
     TimeSpan := fun s e => Ret (s, e);
     TimeSpan_str := sample_TimeSpan_str;
     exception_str := sample_exception_str;
     list_of_set := fun keys => keys;
     list_of_set_perm := fun keys _ => Permutation_refl keys;
     print_stdout := fun _ => Ret tt;
     log_analytics_uri := "https://api.loganalytics.io/";
     resource_manager := "https://management.azure.com/";
     az_monitor_after_1_1_0 := true |}.

Definition sample_client : LogsQueryClient :=
  {| credential := "credential";
     endpoint := "https://api.loganalytics.io/v1";
     client_proxies := PNone |}.

(** A connected driver on workspace [W0] with the given schema. *)
Definition connected_driver (schema : list (string * list (string * string)))
  : driver :=
  set_schema schema
    (set_workspace_id (Some "W0")
       (set_query_client (Some sample_client)
          (set_connected true (init None ∅)))).

Definition connected_world (schema : list (string * list (string * string)))
  : world :=
  {| self := connected_driver schema; trace := [] |}.

End Examples.
Export Examples.

(** ** Notions used to state the properties *)

Module Notions.

(** The workspace name of the stored config, if there is a config and it
    has one. *)
Definition config_workspace_name (d : driver) : option string :=
  match _ws_config d with
  | Some {| workspace_name := Val name |} => Some name
  | _ => None
  end.

(** A [str | None] attribute that holds no name: [None] or the empty
    string. *)
Definition unset (o : option string) : Prop := o = None \/ o = Some "".

(** Two driver states with the same connected flag and the same
    schema-fetch switch. *)
Definition same_flags (d d' : driver) : Prop :=
  _connected d' = _connected d /\ _try_get_schema d' = _try_get_schema d.

(** A computation whose final driver state is always related to its
    initial one. *)
Definition preserves {A} (R : driver -> driver -> Prop) (m : M world A)
  : Prop :=
  forall w, R (self w) (self (snd (m w))).



(** The order of two dict items by their keys. *)
Definition key_lt {V} (a b : string * V) : Prop :=
  String.ltb (fst a) (fst b) = true.

(** [dict(sorted(dict(items).items()))], the shape of both schema
    formatters. *)
Definition sorted_dict {V} (items : list (string * V)) : list (string * V) :=
  dict_of_items (sorted_items (dict_of_items items)).

(** The [(name, type)] items of a column list of the raw schema. *)
Definition column_items (cols : option (list raw_column))
  : list (string * string) :=
  map (fun col => (col_name col, col_type col)) (default [] cols).

(** The [(name, columns)] items of the raw table list. *)
Definition table_items (ws_tables : list raw_table)
  : list (string * list (string * string)) :=
  map (fun table =>
         (table_name table, _schema_format_columns (properties_schema table)))
      ws_tables.

(** Two raw tables with the same name and different column types. *)
Definition table_T_int : raw_table :=
  {| table_name := "T";
     properties_schema :=
       {| standardColumns := Some [{| col_name := "a"; col_type := "int" |}];
          customColumns := None |} |}.

Definition table_T_string : raw_table :=
  {| table_name := "T";
     properties_schema :=
       {| standardColumns :=
            Some [{| col_name := "a"; col_type := "string" |}];
          customColumns := None |} |}.

Definition table_named (name : string) : raw_table :=
  {| table_name := name;
     properties_schema :=
       {| standardColumns :=
            Some [{| col_name := "TimeGenerated"; col_type := "datetime" |};
                  {| col_name := "Computer"; col_type := "string" |}];
          customColumns :=
            Some [{| col_name := "Computer"; col_type := "dynamic" |}] |} |}.

(** The call that [query_with_results] dispatches for a time span. *)
Definition dispatch_event (d : driver) (query_text : string)
    (kwargs : gmap string pyval) (time_span_value : option (pyval * pyval))
  : event :=
  EvQueryWorkspace (primary_workspace d) query_text time_span_value
    (default (_def_timeout d) (kwargs !! "timeout"))
    (additional_workspaces_of d).

(** What the service answers to that call. *)
Definition service_answer (E : Env) (client : LogsQueryClient) (d : driver)
    (query_text : string) (kwargs : gmap string pyval)
    (time_span_value : option (pyval * pyval)) : service_outcome :=
  query_workspace E client (primary_workspace d) query_text time_span_value
    (default (_def_timeout d) (kwargs !! "timeout"))
    (additional_workspaces_of d).

Definition add_events (w : world) (evs : list event) : world :=
  {| self := self w; trace := trace w ++ evs |}.

(** U+00A0 and U+3000, which [str.strip()] removes, and U+00E0, whose
    encoding ends in the byte that ends U+00A0. *)
Definition no_break_space : string := utf8 [194; 160]%nat.
Definition ideographic_space : string := utf8 [227; 128; 128]%nat.
Definition a_grave : string := utf8 [195; 160]%nat.

(** The declared table name as the specification describes it: trimmed,
    then cut at the first space. *)
Definition trimmed_table_name (table : string) : string :=
  split_head " " (strip table).

Definition alert_schema : list (string * list (string * string)) :=
  [("SecurityAlert", [("AlertName", "string"); ("TimeGenerated", "datetime")])].

Definition source_for (table : string) : QuerySource :=
  {| params := {[ "table" := PDict [("default", PStr table)] ]} |}.

(** One nanosecond past a whole microsecond, in UTC. *)
Definition odd_timestamp : Timestamp :=
  {| wall_ns := 1700000000000000001; ts_tzinfo := Some 0; ts_fold := false |}.

(** What a computation has added to the trace. *)
Definition new_events (w w' : world) : list event :=
  drop (length (trace w)) (trace w').

(** The time spans of the query dispatches among some events. *)
Definition dispatched_time_spans (evs : list event)
  : list (option (pyval * pyval)) :=
  omap (fun ev =>
          match ev with
          | EvQueryWorkspace _ _ time_span _ _ => Some time_span
          | _ => None
          end) evs.

(** Keyword arguments with a time span from a timestamp to a datetime. *)
Definition odd_time_span (end_ : pyval) : gmap string pyval :=
  {[ "time_span" :=
       PDict [("start", PTimestamp odd_timestamp); ("end", end_)] ]}.

End Notions.
Export Notions.

(** ** Notions for the effects of the driver *)

Module Effects.

(** A computation whose final world is always related to its initial
    one. *)
Definition wpreserves {A} (R : world -> world -> Prop) (m : M world A)
  : Prop :=
  forall w, R w (snd (m w)).

(** Nothing was added to the trace. *)
Definition same_trace (w w' : world) : Prop := trace w' = trace w.

(** The keyword arguments of [_create_query_client] after its three
    [pop]s. *)
Definition popped (kwargs : gmap string pyval) : gmap string pyval :=
  delete "proxies" (delete "timeout" (delete "auth_types" kwargs)).

(** The authentication types that [_create_query_client] stores and
    passes on. *)
Definition auth_types_of (kwargs : gmap string pyval) : pyval :=
  normalise_auth_types
    (default (default PNone (kwargs !! "mp_az_auth")) (kwargs !! "auth_types")).

(** The world in which [connect] starts workspace resolution: the flag is
    cleared and the authentication types, the timeout and the proxies are
    stored. *)
Definition before_resolution (kwargs : gmap string pyval) (w : world) : world :=
  {| self :=
       set_def_proxies
         (default (_def_proxies (self w)) (kwargs !! "proxies"))
         (set_def_timeout (default _DEFAULT_TIMEOUT (kwargs !! "timeout"))
            (set_connect_auth_types (auth_types_of kwargs)
               (set_connected false (self w))));
     trace := trace w |}.

(** The keyword arguments that [_create_query_client] gives to
    [az_connect] in the driver state [d]. *)
Definition connect_args_of (kwargs settings : gmap string pyval) (d : driver)
  : gmap string pyval :=
  <["tenant_id" := _az_tenant_id d]>
    (<["auth_methods" := auth_types_of kwargs]> (popped kwargs ∪ settings)).

(** The world in which [connect] starts the schema step: the client and
    the partial-results setting are stored. *)
Definition before_schema (kwargs : gmap string pyval)
    (client : LogsQueryClient) (w : world) : world :=
  {| self :=
       set_fail_on_partial
         (default (_fail_on_partial (self w)) (kwargs !! "fail_on_partial"))
         (set_query_client (Some client) (self w));
     trace := trace w |}.

(** The network calls among some events. *)
Definition network_calls (evs : list event) : list event :=
  filter (fun ev => is_network_call ev = true) evs.

(** What [connect] does once it holds the query client. *)
Definition connect_after_client (E : Env) (kwargs : gmap string pyval)
    (client : LogsQueryClient) : M world bool :=
  update_self (set_query_client (Some client));;
  d ← get_self;
  update_self
    (set_fail_on_partial
       (default (_fail_on_partial d) (kwargs !! "fail_on_partial")));;
  (if _try_get_schema d then
     schema ← _get_schema E;
     update_self (set_schema schema)
   else mret tt);;
  update_self (set_connected true);;
  print E "connected";;
  d ← get_self;
  mret (_connected d).

(** Two driver states with the same stored schema. *)
Definition same_schema (d d' : driver) : Prop := _schema d' = _schema d.

(** The world in which [connect] builds the query client: the flag is
    cleared. *)
Definition disconnected (w : world) : world :=
  {| self := set_connected false (self w); trace := trace w |}.

(** The world [w'] is what this call of [connect] makes when all its steps
    go through: the client that [_create_query_client] builds in this call
    is stored, the schema that [_get_schema] returns in this call is stored
    when schema fetching is on, the line [connected] is the last event and
    the connected flag is true; nothing else differs from the world that
    the last of these steps left. *)
Definition fully_connected (E : Env) (connection_str : connection_arg)
    (kwargs : gmap string pyval) (w w' : world) : Prop :=
  exists client w1,
    _create_query_client E connection_str kwargs (disconnected w)
      = (Ret client, w1) /\
    _connected (self w') = true /\
    _query_client (self w') = Some client /\
    if _try_get_schema (self w) then
      exists schema w2,
        _get_schema E (before_schema kwargs client w1) = (Ret schema, w2) /\
        _schema (self w') = schema /\
        w' = {| self := set_connected true (set_schema schema (self w2));
                trace := trace w2 ++ [EvPrint "connected"] |}
    else
      _schema (self w') = _schema (self w) /\
      w' = {| self := set_connected true (self (before_schema kwargs client w1));
              trace := trace w1 ++ [EvPrint "connected"] |}.

(** [connect] raised in a step before the connected flag is set: while
    building the client (workspace resolution, protected settings,
    credential request) or while fetching the schema. *)
Definition failed_before_flag (E : Env) (connection_str : connection_arg)
    (kwargs : gmap string pyval) (w : world) (e : exn) : Prop :=
  fst (_create_query_client E connection_str kwargs (disconnected w))
    = Raise e \/
  exists client w1,
    _create_query_client E connection_str kwargs (disconnected w)
      = (Ret client, w1) /\
    _try_get_schema (self w) = true /\
    fst (_get_schema E (before_schema kwargs client w1)) = Raise e.

(** The sample environment with a console that cannot be written to. *)
Definition broken_console_env : Env :=
  {| WorkspaceConfig_new := WorkspaceConfig_new sample_env;
     from_connection_string := from_connection_string sample_env;
     get_protected_setting := get_protected_setting sample_env;
     az_connect := az_connect sample_env;
     get_token := get_token sample_env;
     httpx_get := httpx_get sample_env;
     query_workspace := query_workspace sample_env;
     TimeSpan := TimeSpan sample_env;
     TimeSpan_str := TimeSpan_str sample_env;
     exception_str := exception_str sample_env;
     list_of_set := list_of_set sample_env;
     list_of_set_perm := list_of_set_perm sample_env;
     print_stdout := fun _ =>
       Raise (mk_exn (OtherException "BrokenPipeError")
                ["[Errno 32] Broken pipe"] None);
     log_analytics_uri := log_analytics_uri sample_env;
     resource_manager := resource_manager sample_env;
     az_monitor_after_1_1_0 := az_monitor_after_1_1_0 sample_env |}.

(** What [connect] does once the workspaces are resolved. *)
Definition connect_after_resolution (E : Env) (kwargs : gmap string pyval)
  : M world bool :=
  settings ← _get_workspace_settings_args E;
  d ← get_self;
  emit (EvAzConnect (connect_args_of kwargs settings d));;
  credentials ← lift (az_connect E (connect_args_of kwargs settings d));
  connect_after_client E kwargs
    {| credential := modern credentials;
       endpoint := url_endpoint E;
       client_proxies := _def_proxies d |}.

(** The trace was only extended. *)
Definition trace_grows (w w' : world) : Prop :=
  exists evs, trace w' = trace w ++ evs.

(** A driver with a workspace-ID list left by an earlier [connect]. *)
Definition stale_world : world :=
  {| self := set_workspace_ids ["OLD1"; "OLD2"] (init None ∅); trace := [] |}.

(** The sample environment with a credential that cannot get a token. *)
Definition token_down_env : Env :=
  {| WorkspaceConfig_new := WorkspaceConfig_new sample_env;
     from_connection_string := from_connection_string sample_env;
     get_protected_setting := get_protected_setting sample_env;
     az_connect := az_connect sample_env;
     get_token := fun _ _ =>
       Raise (mk_exn (OtherException "ClientAuthenticationError") [] None);
     httpx_get := httpx_get sample_env;
     query_workspace := query_workspace sample_env;
     TimeSpan := TimeSpan sample_env;
     TimeSpan_str := TimeSpan_str sample_env;
     exception_str := exception_str sample_env;
     list_of_set := list_of_set sample_env;
     list_of_set_perm := list_of_set_perm sample_env;
     print_stdout := print_stdout sample_env;
     log_analytics_uri := log_analytics_uri sample_env;
     resource_manager := resource_manager sample_env;
     az_monitor_after_1_1_0 := az_monitor_after_1_1_0 sample_env |}.

(** The two settings of a driver that its queries read. *)
Definition same_query_settings (d d' : driver) : Prop :=
  _def_timeout d' = _def_timeout d /\ _fail_on_partial d' = _fail_on_partial d.

(** The sample environment with a service that refuses the query text
    [bad] with an HTTP error of two lines and fails on [odd] with an
    exception of another kind. *)
Definition failing_query_env : Env :=
  {| WorkspaceConfig_new := WorkspaceConfig_new sample_env;
     from_connection_string := from_connection_string sample_env;
     get_protected_setting := get_protected_setting sample_env;
     az_connect := az_connect sample_env;
     get_token := get_token sample_env;
     httpx_get := httpx_get sample_env;
     query_workspace := fun client ws q ts timeout more =>
       if String.eqb q "bad" then
         SvcHttpResponseError ("(BadArgumentError) The request had some invalid properties" +:+ "
" +:+ "Code: BadArgumentError")
       else if String.eqb q "odd" then
         SvcException (mk_exn KeyError ["tables"] None)
       else query_workspace sample_env client ws q ts timeout more;
     TimeSpan := TimeSpan sample_env;
     TimeSpan_str := TimeSpan_str sample_env;
     exception_str := exception_str sample_env;
     list_of_set := list_of_set sample_env;
     list_of_set_perm := list_of_set_perm sample_env;
     print_stdout := print_stdout sample_env;
     log_analytics_uri := log_analytics_uri sample_env;
     resource_manager := resource_manager sample_env;
     az_monitor_after_1_1_0 := az_monitor_after_1_1_0 sample_env |}.

(** What a driver keeps of a single workspace: its config, its name, its
    ID and the connection string. *)
Definition same_single_workspace (d d' : driver) : Prop :=
  (_ws_config d', _ws_name d', _workspace_id d', _def_connection_str d')
  = (_ws_config d, _ws_name d, _workspace_id d, _def_connection_str d).

(** Keyword arguments that name several workspaces. *)
Definition names_workspaces (kwargs : gmap string pyval) : Prop :=
  truthy (default PNone (kwargs !! "workspaces")) = true \/
  truthy (default PNone (kwargs !! "workspace_ids")) = true.

End Effects.
Export Effects.

(** ** Query parameter formatting *)

Module Formatters.

(** [_format_list(param_list)].  [format_value] is the text that
    [f"{item}"] gives for an item that is not a string. *)
Definition _format_list (format_value : pyval -> string)
    (param_list : list pyval) : string :=
  let fmt_list :=
    map (fun item =>
           match item with
           | PStr item => "'" +:+ item +:+ "'"
           | _ => format_value item
           end) param_list in
  join ", " fmt_list.

(** A certificate service and an abuse list with one entry, the SHA1 of
    the certificate that the service presents. *)
Definition listed_dom_env : DomEnv :=
  {| get_server_certificate := fun _ _ => Ret "-----BEGIN CERTIFICATE-----";
     load_pem_x509_certificate := fun pem => Ret {| cert_handle := pem |};
     fingerprint_SHA1 := fun _ => Ret ["171"%char; "205"%char];
     read_csv := fun _ _ =>
       Ret {| frame_columns :=
                [("Listingdate", StrColumn ["2024-01-01 00:00:00"]);
                 ("SHA1", StrColumn ["abcd"]);
                 ("Listingreason", StrColumn ["C&C"])] |};
     empty_column_is_object := false |}.

End Formatters.
Export Formatters.

(** ** Screenshots *)

Module Browshot.

(** [httpx.Response], as [screenshot] reads it: what [json.loads] makes of
    [content], or the exception it raises, and [is_success]. *)
Record HttpResponse := {
  content_json : outcome pyval;
  is_success : bool;
}.

(** What [screenshot] does outside the process: a request, with or without
    the user-agent header, a sleep, a logged warning. *)
Inductive shot_event :=
| ShotGet (url : string) (ua_header : bool)
| ShotSleep
| ShotWarn (message : string).

(** What [screenshot] calls outside the module; [duration] is the type of
    its [sleep] argument.  The answer to a request may depend on everything
    done before it. *)
Record ShotEnv (duration : Type) := {
  (** the setting that [get_config(path, {})] finds, if there is one *)
  get_config : string -> option pyval;
  (** [httpx.get(url, ...)] *)
  httpx_get_after : list shot_event -> string -> bool -> outcome HttpResponse;
  (** [time.sleep(sleep)] *)
  time_sleep : duration -> outcome unit;
  (** the text that an f-string gives for a value that is not a string *)
  format_value : pyval -> string;
}.
Arguments get_config {duration}.
Arguments httpx_get_after {duration}.
Arguments time_sleep {duration}.
Arguments format_value {duration}.

Section Screenshot.

Context {duration : Type} (E : ShotEnv duration).

Definition LF : string := String "010" "".

Definition no_browshot_config : exn :=
  mk_exn (OtherException "MsticpyUserConfigError")
    ["No configuration found for Browshot" +:+ LF +:+
     "Please add a section to msticpyconfig.yaml:" +:+ LF +:+
     "DataProviders:" +:+ LF +:+
     "  Browshot:" +:+ LF +:+
     "    Args:" +:+ LF +:+
     "      AuthKey: {your_auth_key}"]
    (Some "Browshot configuration not found").

(** [d.get(k, default)] *)
Definition py_get (v : pyval) (k : string) (dflt : pyval) : outcome pyval :=
  match v with
  | PDict d => Ret (default dflt (dict_get k d))
  | _ => Raise (mk_exn AttributeError [] None)
  end.

(** [v[k]] for a string [k] *)
Definition py_getitem (v : pyval) (k : string) : outcome pyval :=
  match v with
  | PDict d =>
      match dict_get k d with
      | Some x => Ret x
      | None => Raise (mk_exn KeyError [k] None)
      end
  | _ => Raise (mk_exn TypeError [] None)
  end.

(** [json.loads(response.content)[k]] *)
Definition json_field (response : HttpResponse) (k : string) : outcome pyval :=
  parsed ← content_json response;
  py_getitem parsed k.

(** A value inside an f-string. *)
Definition fstr (v : pyval) : string :=
  match v with
  | PStr text => text
  | _ => format_value E v
  end.

(** The Browshot API key from the argument or the configuration. *)
Definition browshot_key (api_key : option string) : outcome pyval :=
  match api_key with
  | Some api_key => Ret (PStr api_key)
  | None =>
      let bs_conf :=
        py_or (default (PDict []) (get_config E "DataProviders.Browshot"))
              (default (PDict []) (get_config E "Browshot")) in
      if is_none bs_conf then Ret PNone
      else
        args ← py_get bs_conf "Args" (PDict []);
        py_get args "AuthKey" PNone
  end.

Definition id_string (url : string) (bs_api_key : pyval) : string :=
  "https://api.browshot.com/api/v1/screenshot/create?url=" +:+ url +:+
  "/&instance_id=26&size=screen&cache=0&key=" +:+ fstr bs_api_key.

Definition status_string (bs_id bs_api_key : pyval) : string :=
  "https://api.browshot.com/api/v1/screenshot/info?id=" +:+ fstr bs_id +:+
  "&key=" +:+ fstr bs_api_key.

Definition image_string (bs_id bs_api_key : pyval) : string :=
  "https://api.browshot.com/api/v1/screenshot/thumbnail?id=" +:+ fstr bs_id +:+
  "&zoom=50&key=" +:+ fstr bs_api_key.

(** [httpx.get(url, timeout=..., headers=...)], recorded *)
Definition httpx_get_at (url : string) (ua_header : bool)
  : M (list shot_event) HttpResponse :=
  fun done =>
    (httpx_get_after E done url ua_header, done ++ [ShotGet url ua_header]).

(** [time.sleep(sleep)], recorded *)
Definition sleep_for (sleep : duration) : M (list shot_event) unit :=
  fun done => (time_sleep E sleep, done ++ [ShotSleep]).

(** [status == "finished"] *)
Definition is_finished (status_value : pyval) : bool :=
  match status_value with
  | PStr text => String.eqb text "finished"
  | _ => false
  end.

(** The loop [while not ready and progress.value < max_progress], by the
    steps the progress bar has left: each round moves the bar by one, asks
    for the status and, unless it is [finished], sleeps. *)
Fixpoint wait_until_ready (status_url : string) (sleep : duration)
    (steps_left : nat) : M (list shot_event) unit :=
  match steps_left with
  | O => mret tt
  | S steps_left =>
      status_data ← httpx_get_at status_url true;
      status_value ← lift (json_field status_data "status");
      if is_finished status_value then mret tt
      else sleep_for sleep;; wait_until_ready status_url sleep steps_left
  end.

Definition request_problem : string :=
  "There was a problem with the request, please check the status code for details".

(** [screenshot(url, api_key, sleep=..., max_progress=...)], for the
    [max_progress] of a progress bar that starts at 0: a natural number.
    The progress bar only counts the rounds of the loop; it and the log
    line at level [info] are not recorded. *)
Definition screenshot (url : string) (api_key : option string)
    (sleep : duration) (max_progress : nat)
  : M (list shot_event) HttpResponse :=
  bs_api_key ← lift (browshot_key api_key);
  if is_none bs_api_key then raise no_browshot_config
  else
    id_data ← httpx_get_at (id_string url bs_api_key) true;
    bs_id ← lift (json_field id_data "id");
    wait_until_ready (status_string bs_id bs_api_key) sleep max_progress;;
    image_data ← httpx_get_at (image_string bs_id bs_api_key) false;
    (if negb (is_success image_data) then
       modify (fun done => done ++ [ShotWarn request_problem])
     else mret tt);;
    mret image_data.

End Screenshot.

Definition is_shot_request (ev : shot_event) : bool :=
  match ev with ShotGet _ _ => true | _ => false end.

Definition is_shot_sleep (ev : shot_event) : bool :=
  match ev with ShotSleep => true | _ => false end.

(** The requests and the sleeps among some events. *)
Definition shot_requests (evs : list shot_event) : list shot_event :=
  filter (fun ev => is_shot_request ev = true) evs.

Definition shot_sleeps (evs : list shot_event) : list shot_event :=
  filter (fun ev => is_shot_sleep ev = true) evs.

(** A service that takes the request, reports [processing] twice and then
    [finished], and has the image; there is no configuration. *)
Definition sample_shot_env : ShotEnv Z :=
  {| get_config := fun _ => None;
     httpx_get_after := fun done url _ =>
       if is_prefix "https://api.browshot.com/api/v1/screenshot/create" url
       then Ret {| content_json := Ret (PDict [("id", PInt 12345)]);
                   is_success := true |}
       else if is_prefix "https://api.browshot.com/api/v1/screenshot/info" url
       then Ret {| content_json :=
                     Ret (PDict [("status",
                                  if (length done <? 5)%nat
                                  then PStr "processing"
                                  else PStr "finished")]);
                   is_success := true |}
       else Ret {| content_json := Raise (mk_exn ValueError [] None);
                   is_success := true |};
     time_sleep := fun _ => Ret tt;
     format_value := fun v =>
       match v with PInt 12345 => "12345" | _ => "?" end |}.

(** The same service when the screenshot is never finished and the image
    request is refused. *)
Definition slow_shot_env : ShotEnv Z :=
  {| get_config := get_config sample_shot_env;
     httpx_get_after := fun done url ua =>
       if is_prefix "https://api.browshot.com/api/v1/screenshot/info" url
       then Ret {| content_json := Ret (PDict [("status", PStr "processing")]);
                   is_success := true |}
       else if is_prefix "https://api.browshot.com/api/v1/screenshot/thumbnail"
                 url
       then Ret {| content_json := Raise (mk_exn ValueError [] None);
                   is_success := false |}
       else httpx_get_after sample_shot_env done url ua;
     time_sleep := time_sleep sample_shot_env;
     format_value := format_value sample_shot_env |}.

End Browshot.
Export Browshot.

(** * Properties *)

(** ** Sequencing and keyword arguments *)

Section Monad_facts.

Context {S : Type}.

Lemma bind_ret {A B} (m : M S A) (k : A -> M S B) (s s' : S) (a : A) :
  m s = (Ret a, s') -> (m ≫= k) s = k a s'.
Proof. intros H. unfold mbind, M_bind. now rewrite H. Qed.

Lemma bind_raise {A B} (m : M S A) (k : A -> M S B) (s s' : S) (e : exn) :
  m s = (Raise e, s') -> (m ≫= k) s = (Raise e, s').
Proof. intros H. unfold mbind, M_bind. now rewrite H. Qed.

End Monad_facts.

(** The keyword arguments that [_create_query_client] hands on to
    [_get_workspaces] differ from its own in three names only. *)
Lemma lookup_after_pops (kwargs : gmap string pyval) (k : string) :
  k <> "auth_types" -> k <> "timeout" -> k <> "proxies" ->
  delete "proxies" (delete "timeout" (delete "auth_types" kwargs)) !! k
    = kwargs !! k.
Proof.
  intros H1 H2 H3.
  rewrite !lookup_delete_ne by congruence. reflexivity.
Qed.

(** ** The string and dict operations on sample values *)

Example strip_example :
  strip "  SecurityAlert | take 1 " = "SecurityAlert | take 1" /\
  strip ("SecurityAlert" +:+ String "010" EmptyString) = "SecurityAlert" /\
  strip "   " = "" /\
  strip (no_break_space +:+ "Heartbeat" +:+ ideographic_space) = "Heartbeat" /\
  strip (" " +:+ a_grave +:+ " ") = a_grave /\
  chars ("W" +:+ a_grave +:+ ideographic_space)
    = ["W"; a_grave; ideographic_space].
Proof. repeat split. Qed.

Example split_example :
  split_char " " "SecurityAlert | take 1" = ["SecurityAlert"; "|"; "take"; "1"] /\
  split_char " " "a  b" = ["a"; ""; "b"] /\
  split_char " " "" = [""] /\
  split_head " " "SecurityAlert | take 1" = "SecurityAlert".
Proof. repeat split. Qed.

Example table_key_example :
  table_key "SecurityAlert" = "SecurityAlert" /\
  table_key " SecurityAlert | where Severity > 1" = "SecurityAlert" /\
  table_key "SecurityAlert " = "SecurityAlert ".
Proof. repeat split. Qed.

Example hex_example : hex ["171"%char; "205"%char; "009"%char] = "abcd09".
Proof. reflexivity. Qed.

Example join_example : join ", " ["W1"; "W2"; "W3"] = "W1, W2, W3".
Proof. reflexivity. Qed.

Example dict_example :
  dict_of_items [("b", 1); ("a", 2); ("b", 3)] = [("b", 3); ("a", 2)] /\
  sorted_items [("b", 3); ("a", 2)] = [("a", 2); ("b", 3)] /\
  sorted_items [("b", 1); ("a", 2); ("B", 3)] = [("B", 3); ("a", 2); ("b", 1)].
Proof. repeat split. Qed.

Example schema_format_example :
  _schema_format_tables [table_named "Syslog"; table_named "Heartbeat"] =
    [("Heartbeat", [("Computer", "dynamic"); ("TimeGenerated", "datetime")]);
     ("Syslog", [("Computer", "dynamic"); ("TimeGenerated", "datetime")])].
Proof. reflexivity. Qed.

(** ** Dicts in insertion order *)

Section Dict_facts.

Context {V : Type}.
Implicit Types (d l : list (string * V)) (k : string) (v : V).

Lemma dict_get_set k k' v d :
  dict_get k' (dict_set k v d)
    = if String.eqb k' k then Some v else dict_get k' d.
Proof.
  induction d as [| [k0 v0] d IH]; cbn.
  - destruct (String.eqb k' k); reflexivity.
  - destruct (String.eqb_spec k k0) as [-> | Hne]; cbn.
    + destruct (String.eqb k' k0); reflexivity.
    + destruct (String.eqb_spec k' k0) as [-> | Hne'].
      * destruct (String.eqb_spec k0 k); [congruence | reflexivity].
      * exact IH.
Qed.

Lemma dict_get_app k l1 l2 :
  dict_get k (l1 ++ l2)
    = match dict_get k l1 with
      | Some v => Some v
      | None => dict_get k l2
      end.
Proof.
  induction l1 as [| [k0 v0] l1 IH]; cbn; [reflexivity |].
  destruct (String.eqb k k0); [reflexivity | exact IH].
Qed.

Lemma dict_fold_get k l : forall acc,
  dict_get k (fold_left (fun d kv => dict_set (fst kv) (snd kv) d) l acc)
    = match dict_get k (rev l) with
      | Some v => Some v
      | None => dict_get k acc
      end.
Proof.
  induction l as [| [k0 v0] l IH]; intros acc; cbn; [reflexivity |].
  rewrite IH, dict_get_app, dict_get_set. cbn.
  destruct (dict_get k (rev l)); [reflexivity |].
  destruct (String.eqb k k0); reflexivity.
Qed.

(** A dict built from items maps a key to the value of its last item. *)
Lemma dict_of_items_get k l :
  dict_get k (dict_of_items l) = dict_get k (rev l).
Proof.
  unfold dict_of_items. rewrite dict_fold_get.
  destruct (dict_get k (rev l)); reflexivity.
Qed.

Lemma dict_get_Some_elem k v d : dict_get k d = Some v -> (k, v) ∈ d.
Proof.
  induction d as [| [k0 v0] d IH]; cbn; [discriminate |].
  destruct (String.eqb_spec k k0) as [-> | Hne].
  - intros [= ->]. left.
  - intros H. right. auto.
Qed.

Lemma dict_get_None k d : dict_get k d = None <-> k ∉ map fst d.
Proof.
  induction d as [| [k0 v0] d IH]; cbn.
  - split; [intros _ H; inversion H | reflexivity].
  - destruct (String.eqb_spec k k0) as [-> | Hne].
    + split; [discriminate | intros H; exfalso; apply H; left].
    + rewrite IH. rewrite not_elem_of_cons. tauto.
Qed.

Lemma elem_dict_get k v d :
  NoDup (map fst d) -> (k, v) ∈ d -> dict_get k d = Some v.
Proof.
  induction d as [| [k0 v0] d IH]; cbn; intros Hnd Hin.
  - inversion Hin.
  - apply NoDup_cons in Hnd as [Hk0 Hnd].
    apply elem_of_cons in Hin as [[= -> ->] | Hin].
    + now rewrite String.eqb_refl.
    + destruct (String.eqb_spec k k0) as [-> | Hne]; [| auto].
      exfalso. apply Hk0. apply list_elem_of_fmap. exists (k0, v). auto.
Qed.

Lemma dict_set_fresh k v d :
  k ∉ map fst d -> dict_set k v d = d ++ [(k, v)].
Proof.
  induction d as [| [k0 v0] d IH]; cbn; intros H; [reflexivity |].
  apply not_elem_of_cons in H as [Hne H].
  destruct (String.eqb_spec k k0); [contradiction |].
  now rewrite IH.
Qed.

Lemma dict_fold_id l : forall acc,
  NoDup (map fst (acc ++ l)) ->
  fold_left (fun d kv => dict_set (fst kv) (snd kv) d) l acc = acc ++ l.
Proof.
  induction l as [| [k0 v0] l IH]; intros acc Hnd; cbn.
  - now rewrite app_nil_r.
  - rewrite dict_set_fresh.
    + rewrite IH; rewrite <- app_assoc; [reflexivity | exact Hnd].
    + rewrite map_app in Hnd. apply NoDup_app in Hnd as (_ & Hd & _).
      intros Hin. apply (Hd k0 Hin). left.
Qed.

(** Items with pairwise different keys make the dict that lists them. *)
Lemma dict_of_items_id l : NoDup (map fst l) -> dict_of_items l = l.
Proof. intros H. unfold dict_of_items. now rewrite dict_fold_id. Qed.

Lemma dict_set_keys k v d k' :
  k' ∈ map fst (dict_set k v d) -> k' = k \/ k' ∈ map fst d.
Proof.
  induction d as [| [k0 v0] d IH]; cbn.
  - intros H. apply list_elem_of_singleton in H. auto.
  - destruct (String.eqb_spec k k0) as [-> | Hne]; cbn.
    + intros H. right. exact H.
    + rewrite !elem_of_cons. intros [-> | H]; [auto |].
      destruct (IH H); auto.
Qed.

Lemma dict_set_NoDup k v d :
  NoDup (map fst d) -> NoDup (map fst (dict_set k v d)).
Proof.
  induction d as [| [k0 v0] d IH]; cbn; intros Hnd.
  - apply NoDup_singleton.
  - apply NoDup_cons in Hnd as [Hk0 Hnd].
    destruct (String.eqb_spec k k0) as [-> | Hne]; cbn.
    + apply NoDup_cons. auto.
    + apply NoDup_cons. split; [| auto].
      intros H. apply dict_set_keys in H as [-> | H]; auto.
Qed.

Lemma dict_fold_NoDup l : forall acc,
  NoDup (map fst acc) ->
  NoDup (map fst
           (fold_left (fun d kv => dict_set (fst kv) (snd kv) d) l acc)).
Proof.
  induction l as [| x l IH]; intros acc H; cbn; [exact H |].
  apply IH, dict_set_NoDup, H.
Qed.

(** The keys of a dict are pairwise different. *)
Lemma dict_of_items_NoDup l : NoDup (map fst (dict_of_items l)).
Proof. apply dict_fold_NoDup. cbn. apply NoDup_nil_2. Qed.

End Dict_facts.

(** ** Facts about dicts with keys [str | None] *)
Lemma okey_set_fresh {V} (k : option string) (v : V) d :
  k ∉ map fst d -> okey_set k v d = d ++ [(k, v)].
Proof.
  induction d as [| [k0 v0] d IH]; cbn; intros H; [reflexivity |].
  apply not_elem_of_cons in H as [Hne H].
  rewrite bool_decide_eq_false_2 by exact Hne.
  now rewrite IH.
Qed.

Lemma okey_fold_id {V} (l : list (option string * V)) : forall acc,
  NoDup (map fst (acc ++ l)) ->
  fold_left (fun d kv => okey_set (fst kv) (snd kv) d) l acc = acc ++ l.
Proof.
  induction l as [| [k0 v0] l IH]; intros acc Hnd; cbn.
  - now rewrite app_nil_r.
  - rewrite okey_set_fresh.
    + rewrite IH; rewrite <- app_assoc; [reflexivity | exact Hnd].
    + rewrite map_app in Hnd. apply NoDup_app in Hnd as (_ & Hd & _).
      intros Hin. apply (Hd k0 Hin). left.
Qed.

Lemma okey_set_keys {V} (k : option string) (v : V) d k' :
  k' ∈ map fst (okey_set k v d) -> k' = k \/ k' ∈ map fst d.
Proof.
  induction d as [| [k0 v0] d IH]; cbn.
  - intros H. apply list_elem_of_singleton in H. auto.
  - destruct (bool_decide_reflect (k = k0)) as [-> | Hne]; cbn.
    + intros H. right. exact H.
    + rewrite !elem_of_cons. intros [-> | H]; [auto |].
      destruct (IH H); auto.
Qed.

Lemma okey_set_NoDup {V} (k : option string) (v : V) d :
  NoDup (map fst d) -> NoDup (map fst (okey_set k v d)).
Proof.
  induction d as [| [k0 v0] d IH]; cbn; intros Hnd.
  - apply NoDup_singleton.
  - apply NoDup_cons in Hnd as [Hk0 Hnd].
    destruct (bool_decide_reflect (k = k0)) as [-> | Hne]; cbn.
    + apply NoDup_cons. auto.
    + apply NoDup_cons. split; [| auto].
      intros H. apply okey_set_keys in H as [-> | H]; auto.
Qed.

Lemma okey_set_length {V} (k : option string) (v : V) d :
  (length d <= length (okey_set k v d) <= S (length d))%nat.
Proof.
  induction d as [| [k0 v0] d IH]; cbn; [lia |].
  destruct (bool_decide (k = k0)); cbn; lia.
Qed.

(** ** Sorting the items of a dict *)

Lemma string_ltb_lt (a b : string) :
  String.ltb a b = true <-> String_as_OT.lt a b.
Proof.
  rewrite <- String_as_OT.cmp_lt. unfold String.ltb, String_as_OT.cmp.
  destruct (String.compare a b); split; congruence.
Qed.

Lemma string_ltb_trans (a b c : string) :
  String.ltb a b = true -> String.ltb b c = true -> String.ltb a c = true.
Proof. rewrite !string_ltb_lt. apply String_as_OT.lt_trans. Qed.

Lemma string_ltb_irrefl (a : string) : String.ltb a a = false.
Proof.
  destruct (String.ltb a a) eqn:H; [| reflexivity].
  apply string_ltb_lt in H. exfalso.
  apply (String_as_OT.lt_not_eq _ _ H). reflexivity.
Qed.

Lemma string_ltb_total (a b : string) :
  a <> b -> String.ltb a b = false -> String.ltb b a = true.
Proof.
  intros Hne. unfold String.ltb. rewrite (String.compare_antisym b a).
  destruct (String.compare a b) eqn:H; cbn; try congruence.
  apply String.compare_eq_iff in H. congruence.
Qed.

Section Sorting_facts.

Context {V : Type}.
Implicit Types (d l : list (string * V)) (x : string * V).

Lemma key_lt_trans x y z : key_lt x y -> key_lt y z -> key_lt x z.
Proof. apply string_ltb_trans. Qed.

Lemma sorted_insert_perm x l : sorted_insert x l ≡ₚ x :: l.
Proof.
  induction l as [| y l IH]; cbn; [reflexivity |].
  destruct (String.ltb (fst y) (fst x)); [| reflexivity].
  rewrite IH. apply perm_swap.
Qed.

Lemma sorted_items_perm l : sorted_items l ≡ₚ l.
Proof.
  induction l as [| x l IH]; cbn; [reflexivity |].
  rewrite sorted_insert_perm. now rewrite IH.
Qed.

Lemma sorted_insert_sorted x l :
  StronglySorted key_lt l -> fst x ∉ map fst l ->
  StronglySorted key_lt (sorted_insert x l).
Proof.
  induction l as [| y l IH]; cbn; intros Hs Hx.
  - repeat constructor.
  - apply StronglySorted_inv in Hs as [Hs Hy].
    apply not_elem_of_cons in Hx as [Hne Hx].
    destruct (String.ltb (fst y) (fst x)) eqn:Hlt.
    + constructor; [auto |].
      rewrite sorted_insert_perm. constructor; assumption.
    + assert (Hxy : key_lt x y)
        by (apply string_ltb_total; [congruence | assumption]).
      constructor; [constructor; assumption |].
      constructor; [exact Hxy |].
      eapply Forall_impl; [exact Hy |].
      intros z Hz. eapply key_lt_trans; eassumption.
Qed.

(** Sorting items with pairwise different keys puts the keys in strictly
    increasing order. *)
Lemma sorted_items_sorted l :
  NoDup (map fst l) -> StronglySorted key_lt (sorted_items l).
Proof.
  induction l as [| x l IH]; cbn; intros Hnd; [constructor |].
  apply NoDup_cons in Hnd as [Hx Hnd].
  apply sorted_insert_sorted; [auto |].
  intros Hin. apply Hx.
  assert (Hp : map fst (sorted_items l) ≡ₚ map fst l)
    by apply Permutation_map, sorted_items_perm.
  now rewrite Hp in Hin.
Qed.

Lemma sorted_keys_NoDup l :
  StronglySorted key_lt l -> NoDup (map fst l).
Proof.
  induction 1 as [| x l Hs IH Hx]; cbn; [apply NoDup_nil_2 |].
  apply NoDup_cons. split; [| exact IH].
  intros Hin. apply list_elem_of_fmap in Hin as (y & Hy & Hin).
  rewrite Forall_forall in Hx. specialize (Hx y Hin).
  unfold key_lt in Hx. rewrite Hy, string_ltb_irrefl in Hx. discriminate.
Qed.

Lemma sorted_head_get x l k :
  StronglySorted key_lt (x :: l) -> String.ltb k (fst x) = true ->
  dict_get k (x :: l) = None.
Proof.
  intros Hs Hk. apply dict_get_None. intros Hin.
  apply list_elem_of_fmap in Hin as (y & -> & Hin).
  apply StronglySorted_inv in Hs as [_ Hx].
  apply elem_of_cons in Hin as [-> | Hin].
  - rewrite string_ltb_irrefl in Hk. discriminate.
  - rewrite Forall_forall in Hx. specialize (Hx y Hin).
    pose proof (string_ltb_trans _ _ _ Hk Hx) as H.
    rewrite string_ltb_irrefl in H. discriminate.
Qed.

(** Two dicts in strictly increasing key order that map every key alike
    are one and the same list of items. *)
Lemma sorted_ext l1 : forall l2,
  StronglySorted key_lt l1 -> StronglySorted key_lt l2 ->
  (forall k, dict_get k l1 = dict_get k l2) -> l1 = l2.
Proof.
  induction l1 as [| [k1 v1] l1 IH]; intros [| [k2 v2] l2] H1 H2 Hget.
  - reflexivity.
  - specialize (Hget k2). cbn in Hget. rewrite String.eqb_refl in Hget.
    discriminate.
  - specialize (Hget k1). cbn in Hget. rewrite String.eqb_refl in Hget.
    discriminate.
  - assert (Hk : k1 = k2).
    { destruct (String.eqb_spec k1 k2) as [| Hne]; [assumption |].
      exfalso.
      destruct (String.ltb k1 k2) eqn:Hlt.
      - pose proof (sorted_head_get (k2, v2) l2 k1 H2 Hlt) as Hn.
        rewrite <- Hget in Hn. cbn in Hn. rewrite String.eqb_refl in Hn.
        discriminate.
      - apply string_ltb_total in Hlt; [| assumption].
        pose proof (sorted_head_get (k1, v1) l1 k2 H1 Hlt) as Hn.
        rewrite Hget in Hn. cbn in Hn. rewrite String.eqb_refl in Hn.
        discriminate. }
    subst k2.
    pose proof (Hget k1) as Hv. cbn in Hv. rewrite String.eqb_refl in Hv.
    injection Hv as ->.
    f_equal. apply IH.
    + now apply StronglySorted_inv in H1.
    + now apply StronglySorted_inv in H2.
    + intros k. destruct (String.eqb_spec k k1) as [Heq | Hne].
      * subst k.
        apply sorted_keys_NoDup in H1, H2. cbn in H1, H2.
        apply NoDup_cons in H1 as [H1 _]. apply NoDup_cons in H2 as [H2 _].
        apply dict_get_None in H1, H2. congruence.
      * specialize (Hget k). cbn in Hget.
        destruct (String.eqb_spec k k1); [contradiction | exact Hget].
Qed.

Lemma dict_get_perm l l' k :
  NoDup (map fst l) -> l ≡ₚ l' -> dict_get k l = dict_get k l'.
Proof.
  intros Hnd Hp.
  assert (Hnd' : NoDup (map fst l')).
  { assert (Hp' : map fst l ≡ₚ map fst l') by now apply Permutation_map.
    now rewrite <- Hp'. }
  destruct (dict_get k l) as [v |] eqn:H.
  - symmetry. apply elem_dict_get; [exact Hnd' |].
    rewrite <- Hp. now apply dict_get_Some_elem.
  - symmetry. apply dict_get_None. apply dict_get_None in H.
    intros Hin. apply H.
    assert (Hp' : map fst l ≡ₚ map fst l') by now apply Permutation_map.
    now rewrite Hp'.
Qed.

(** *** The sorted dict of a list of items *)

Lemma sorted_dict_eq l :
  sorted_dict l = sorted_items (dict_of_items l).
Proof.
  unfold sorted_dict. apply dict_of_items_id.
  apply sorted_keys_NoDup, sorted_items_sorted, dict_of_items_NoDup.
Qed.

Lemma sorted_dict_sorted l : StronglySorted key_lt (sorted_dict l).
Proof.
  rewrite sorted_dict_eq. apply sorted_items_sorted, dict_of_items_NoDup.
Qed.

Lemma sorted_dict_get l k : dict_get k (sorted_dict l) = dict_get k (rev l).
Proof.
  rewrite sorted_dict_eq, <- dict_of_items_get.
  symmetry. apply dict_get_perm; [apply dict_of_items_NoDup |].
  symmetry. apply sorted_items_perm.
Qed.

Lemma sorted_dict_ext l l' :
  (forall k, dict_get k (rev l) = dict_get k (rev l')) ->
  sorted_dict l = sorted_dict l'.
Proof.
  intros H. apply sorted_ext; try apply sorted_dict_sorted.
  intros k. now rewrite !sorted_dict_get.
Qed.

Lemma sorted_dict_perm l l' :
  NoDup (map fst l) -> l ≡ₚ l' -> sorted_dict l = sorted_dict l'.
Proof.
  intros Hnd Hp. apply sorted_dict_ext. intros k.
  apply dict_get_perm.
  - assert (Hr : map fst (rev l) ≡ₚ map fst l)
      by (apply Permutation_map; symmetry; apply Permutation_rev).
    now rewrite Hr.
  - now rewrite <- !Permutation_rev.
Qed.

Lemma sorted_dict_elem l x : x ∈ sorted_dict l -> x ∈ l.
Proof.
  destruct x as [k v]. intros Hin.
  apply elem_dict_get in Hin;
    [| apply sorted_keys_NoDup, sorted_dict_sorted].
  rewrite sorted_dict_get in Hin. apply dict_get_Some_elem in Hin.
  apply list_elem_of_In, in_rev. now apply list_elem_of_In.
Qed.

(** Sorting a sorted dict again gives it back. *)
Lemma sorted_dict_fixed l :
  StronglySorted key_lt l -> dict_of_items (sorted_items l) = l.
Proof.
  intros Hs.
  assert (Hnd : NoDup (map fst l)) by now apply sorted_keys_NoDup.
  rewrite dict_of_items_id.
  - apply sorted_ext; [now apply sorted_items_sorted | exact Hs |].
    intros k. apply dict_get_perm; [| apply sorted_items_perm].
    assert (Hp : map fst (sorted_items l) ≡ₚ map fst l)
      by apply Permutation_map, sorted_items_perm.
    now rewrite Hp.
  - apply sorted_keys_NoDup. now apply sorted_items_sorted.
Qed.

End Sorting_facts.

(** ** Which attributes a computation leaves alone *)

Section Preserves.

Context (R : relation driver) `{!PreOrder R}.

Lemma preserves_ret {A} (a : A) : preserves R (mret a).
Proof. intros w. reflexivity. Qed.

Lemma preserves_raise {A} (e : exn) : preserves R (@raise world A e).
Proof. intros w. reflexivity. Qed.

Lemma preserves_lift {A} (o : outcome A) : preserves R (lift o).
Proof. intros w. reflexivity. Qed.

Lemma preserves_get_self : preserves R get_self.
Proof. intros w. reflexivity. Qed.

Lemma preserves_emit (ev : event) : preserves R (emit ev).
Proof. intros w. reflexivity. Qed.

Lemma preserves_update (f : driver -> driver) :
  (forall d, R d (f d)) -> preserves R (update_self f).
Proof. intros H w. apply H. Qed.

Lemma preserves_bind {A B} (m : M world A) (k : A -> M world B) :
  preserves R m -> (forall a, preserves R (k a)) -> preserves R (m ≫= k).
Proof.
  intros Hm Hk w. unfold mbind, M_bind.
  specialize (Hm w). destruct (m w) as [[a | e] w1]; cbn in *.
  - etransitivity; [exact Hm | apply Hk].
  - exact Hm.
Qed.

End Preserves.

#[global] Instance same_flags_preorder : PreOrder same_flags.
Proof.
  split.
  - intros d. split; reflexivity.
  - intros d1 d2 d3 [H1 H2] [H3 H4]. split; congruence.
Qed.

Ltac preserves_step :=
  match goal with
  | |- preserves _ (mret _) => apply preserves_ret; tc_solve
  | |- preserves _ (raise _) => apply preserves_raise; tc_solve
  | |- preserves _ (lift _) => apply preserves_lift; tc_solve
  | |- preserves _ get_self => apply preserves_get_self; tc_solve
  | |- preserves _ (emit _) => apply preserves_emit; tc_solve
  | |- preserves _ (print _ _) => unfold print
  | |- preserves _ (update_self _) =>
      apply preserves_update; intros ?; first [reflexivity | split; reflexivity]
  | |- preserves _ (_ ≫= _) =>
      apply preserves_bind; [tc_solve | | intros ?]
  | |- preserves _ (if ?b then _ else _) => destruct b
  | |- preserves _ (match ?x with _ => _ end) => destruct x
  end.

Ltac preserves_flags := cbv zeta; repeat preserves_step.

Lemma _get_workspaces_by_id_flags (workspace_ids : pyval) :
  preserves same_flags (_get_workspaces_by_id workspace_ids).
Proof. unfold _get_workspaces_by_id. preserves_flags. Qed.

Lemma _get_workspaces_by_name_flags (E : Env) (workspaces : pyval) :
  preserves same_flags (_get_workspaces_by_name E workspaces).
Proof. unfold _get_workspaces_by_name. preserves_flags. Qed.

Lemma _get_workspaces_flags (E : Env) (c : connection_arg)
    (kwargs : gmap string pyval) :
  preserves same_flags (_get_workspaces E c kwargs).
Proof.
  unfold _get_workspaces. cbv zeta.
  preserves_step; [preserves_flags |].
  destruct (truthy _); [apply _get_workspaces_by_name_flags |].
  destruct (truthy _); [apply _get_workspaces_by_id_flags |].
  preserves_flags.
Qed.

Lemma _get_workspace_settings_args_flags (E : Env) :
  preserves same_flags (_get_workspace_settings_args E).
Proof. unfold _get_workspace_settings_args. preserves_flags. Qed.

Lemma _create_query_client_flags (E : Env) (c : connection_arg)
    (kwargs : gmap string pyval) :
  preserves same_flags (_create_query_client E c kwargs).
Proof.
  unfold _create_query_client. cbv zeta.
  repeat first
    [ apply _get_workspaces_flags
    | apply _get_workspace_settings_args_flags
    | preserves_step ].
Qed.

Lemma _get_schema_self (E : Env) : preserves eq (_get_schema E).
Proof.
  unfold _get_schema. preserves_flags.
Qed.

(** ** C1: queries on a driver that is not connected *)

(** C1. For every query string and all keyword arguments, a call of
    [query_with_results] on a driver whose connected flag is false or whose
    query client is [None] raises [MsticpyNotConnectedError] and leaves the
    driver and the trace as they were: nothing is dispatched to the query
    client, and no other call leaves the process. *)
Theorem query_with_results_not_connected
    (E : Env) (w : world) (query_text : string) (kwargs : gmap string pyval) :
  _connected (self w) = false \/ _query_client (self w) = None ->
  exists e,
    query_with_results E query_text kwargs w = (Raise e, w) /\
    exn_class e = MsticpyNotConnectedError.
Proof.
  intros H. exists not_connected_error. split; [| reflexivity].
  unfold query_with_results, mbind, M_bind, get_self.
  destruct H as [H | H]; rewrite H.
  - reflexivity.
  - destruct (_connected (self w)); reflexivity.
Qed.

Lemma query_with_results_not_connected_witness :
  (_connected (self new_world) = false \/
   _query_client (self new_world) = None) /\
  exists e,
    query_with_results sample_env "SecurityAlert | take 1" ∅ new_world
      = (Raise e, new_world) /\
    exn_class e = MsticpyNotConnectedError.
Proof.
  split.
  - left. reflexivity.
  - apply (query_with_results_not_connected sample_env new_world).
    left. reflexivity.
Defined.

(** ** C2: partial results *)

Lemma _get_time_span_value_world (E : Env) (kwargs : gmap string pyval)
    (w : world) :
  snd (_get_time_span_value E kwargs w) = w.
Proof.
  unfold _get_time_span_value, mbind, M_bind, lift. cbv zeta.
  destruct (as_dict (kwargs !! "time_span")) as [time_params | e];
    [| reflexivity].
  destruct (truthy _ || _); [reflexivity |].
  destruct (TimeSpan E _ _) as [time_span | e]; [| reflexivity].
  destruct (TimeSpan_str E time_span); reflexivity.
Qed.

(** A connected driver whose time span computes dispatches exactly one
    query, with that time span, and goes on with the answer. *)
Lemma query_with_results_dispatch
    (E : Env) (w : world) (query_text : string) (kwargs : gmap string pyval)
    (client : LogsQueryClient) (time_span_value : option (pyval * pyval)) :
  _connected (self w) = true ->
  _query_client (self w) = Some client ->
  fst (_get_time_span_value E kwargs w) = Ret time_span_value ->
  query_with_results E query_text kwargs w =
    (result ←
       match service_answer E client (self w) query_text kwargs
               time_span_value with
       | SvcReturn r => mret r
       | SvcHttpResponseError message =>
           _raise_query_failure query_text message
       | SvcException unknown_err => _raise_unknown_error E unknown_err
       end;
     table ←
       match result with
       | LogsQueryPartialResult _ partial_data =>
           if truthy (effective_fail_on_partial (self w) kwargs) then
             raise (mk_exn MsticpyDataQueryError [partial_results_message]
                      (Some "Partial results returned"))
           else
             emit (EvWarn "RuntimeWarning" partial_results_message);;
             lift (first_table partial_data)
       | LogsQueryResult _ tables => lift (first_table tables)
       | OtherResult _ => raise (mk_exn AttributeError [] None)
       end;
     mret ({| df_rows := rows table; df_columns := columns table |},
           _get_query_status result))
      (add_events w
         [dispatch_event (self w) query_text kwargs time_span_value]).
Proof.
  intros Hc Hq Ht.
  pose proof (_get_time_span_value_world E kwargs w) as Hw.
  destruct (_get_time_span_value E kwargs w) as [o w1] eqn:Hts.
  cbn in Ht, Hw. subst o w1.
  unfold query_with_results.
  unfold mbind at 1, M_bind at 1. cbn [get_self].
  rewrite Hc, Hq.
  unfold mbind at 1, M_bind at 1. rewrite Hts. cbv zeta.
  unfold mbind at 1, M_bind at 1. cbn [emit modify].
  reflexivity.
Qed.

(** C2 (amended). For every connected driver and every partial result
    that the service returns to the dispatched query: the setting in force
    is the [fail_if_partial] argument of the call, else its
    [fail_on_partial] argument, else the driver's default; if it is true,
    [query_with_results] raises [MsticpyDataQueryError] (the query failure
    error of the specification) without a warning; if it is false and the
    result holds at least one partial-data table, it emits a
    [RuntimeWarning] and returns the frame of the first partial-data table
    with the status name of the result and the number of partial-data
    tables. *)
Theorem query_with_results_partial
    (E : Env) (w : world) (query_text : string) (kwargs : gmap string pyval)
    (client : LogsQueryClient) (time_span_value : option (pyval * pyval))
    (status_name : string) (partial_data : list LogsTable) :
  _connected (self w) = true ->
  _query_client (self w) = Some client ->
  fst (_get_time_span_value E kwargs w) = Ret time_span_value ->
  service_answer E client (self w) query_text kwargs time_span_value
    = SvcReturn (LogsQueryPartialResult status_name partial_data) ->
  let dispatch := dispatch_event (self w) query_text kwargs time_span_value in
  (kwargs !! "fail_if_partial" = None ->
   effective_fail_on_partial (self w) kwargs
     = default (_fail_on_partial (self w)) (kwargs !! "fail_on_partial")) /\
  (truthy (effective_fail_on_partial (self w) kwargs) = true ->
   exists e,
     query_with_results E query_text kwargs w
       = (Raise e, add_events w [dispatch]) /\
     exn_class e = MsticpyDataQueryError /\
     exn_title e = Some "Partial results returned") /\
  (truthy (effective_fail_on_partial (self w) kwargs) = false ->
   forall table rest,
     partial_data = table :: rest ->
     query_with_results E query_text kwargs w =
       (Ret ({| df_rows := rows table; df_columns := columns table |},
             {| status := status_name;
                tables := length partial_data;
                result := None |}),
        add_events w
          [dispatch; EvWarn "RuntimeWarning" partial_results_message])).
Proof.
  intros Hc Hq Ht Hsvc dispatch.
  split.
  { intros H. unfold effective_fail_on_partial. now rewrite H. }
  rewrite (query_with_results_dispatch E w query_text kwargs client
             time_span_value Hc Hq Ht).
  rewrite Hsvc. unfold mbind, M_bind, mret, M_ret.
  cbn [add_events self].
  split.
  - intros Hf. rewrite Hf. eexists. split; [reflexivity |]. split; reflexivity.
  - intros Hf table rest ->. rewrite Hf. cbn.
    unfold add_events. cbn. rewrite <- app_assoc. reflexivity.
Qed.

Lemma query_with_results_partial_witness :
  let w := connected_world [] in
  _connected (self w) = true /\
  _query_client (self w) = Some sample_client /\
  fst (_get_time_span_value sample_env ∅ w) = Ret None /\
  service_answer sample_env sample_client (self w) "partial1" ∅ None
    = SvcReturn (LogsQueryPartialResult "PARTIAL" [sample_table]) /\
  truthy (effective_fail_on_partial (self w) ∅) = false /\
  query_with_results sample_env "partial1" ∅ w =
    (Ret ({| df_rows := rows sample_table;
             df_columns := columns sample_table |},
          {| status := "PARTIAL"; tables := 1%nat; result := None |}),
     add_events w
       [dispatch_event (self w) "partial1" ∅ None;
        EvWarn "RuntimeWarning" partial_results_message]).
Proof.
  cbv zeta.
  assert (H1 : _connected (self (connected_world [])) = true) by reflexivity.
  assert (H2 : _query_client (self (connected_world []))
               = Some sample_client) by reflexivity.
  assert (H3 : fst (_get_time_span_value sample_env ∅ (connected_world []))
               = Ret None) by reflexivity.
  assert (H4 : service_answer sample_env sample_client
                 (self (connected_world [])) "partial1" ∅ None
               = SvcReturn (LogsQueryPartialResult "PARTIAL" [sample_table]))
    by reflexivity.
  assert (H5 : truthy (effective_fail_on_partial
                         (self (connected_world [])) ∅) = false)
    by reflexivity.
  repeat (split; [assumption |]).
  destruct (query_with_results_partial sample_env (connected_world [])
              "partial1" ∅ sample_client None "PARTIAL" [sample_table]
              H1 H2 H3 H4) as (_ & _ & H).
  exact (H H5 sample_table [] eq_refl).
Defined.

(** The claim as stated fails on a partial result without tables: with
    [fail_on_partial] false the warning is emitted, and then taking the
    first partial-data table raises [IndexError]; no table is returned. *)
Lemma query_with_results_partial_without_tables :
  let w := connected_world [] in
  service_answer sample_env sample_client (self w) "partial" ∅ None
    = SvcReturn (LogsQueryPartialResult "PARTIAL" []) /\
  truthy (effective_fail_on_partial (self w) ∅) = false /\
  (exists e w',
     query_with_results sample_env "partial" ∅ w = (Raise e, w') /\
     exn_class e = IndexError /\
     trace w' = [dispatch_event (self w) "partial" ∅ None;
                 EvWarn "RuntimeWarning" partial_results_message]) /\
  ~ (exists data status_ w',
       query_with_results sample_env "partial" ∅ w
         = (Ret (data, status_), w')).
Proof.
  cbv zeta. split; [reflexivity |]. split; [reflexivity |].
  assert (H : exists e w',
            query_with_results sample_env "partial" ∅ (connected_world [])
              = (Raise e, w') /\
            exn_class e = IndexError /\
            trace w' = [dispatch_event (self (connected_world []))
                          "partial" ∅ None;
                        EvWarn "RuntimeWarning" partial_results_message]).
  { eexists _, _. split; [vm_compute; reflexivity |].
    split; vm_compute; reflexivity. }
  split; [exact H |].
  destruct H as (e & w' & H & _).
  intros (data & status_ & w'' & H'). rewrite H in H'. discriminate H'.
Qed.

(** ** C3: workspace names under different tenants *)

(** C3 (the code at the failing input). The names [A] and [B] are both
    configured for the workspace [W1], under the tenants [T1] and [T2].
    The dict that [_get_workspaces_by_name] builds is keyed by workspace
    ID, so the entry of [A] is replaced by the entry of [B], a single
    tenant is left, no error is raised, and [connect] goes on to the
    credential provider with the tenant [T2]. *)
Theorem connect_mixed_tenants_same_workspace :
  let kwargs : gmap string pyval :=
    {[ "workspaces" := PList [PStr "A"; PStr "B"] ]} in
  (WorkspaceConfig_ctor sample_env (PStr "A")
     ≫= fun c => conf_getitem c CONF_TENANT_ID) = Ret (Some "T1") /\
  (WorkspaceConfig_ctor sample_env (PStr "B")
     ≫= fun c => conf_getitem c CONF_TENANT_ID) = Ret (Some "T2") /\
  workspace_configs_of sample_env [PStr "A"; PStr "B"] []
    = Ret [(Some "W1", Some "T2")] /\
  (exists w',
     _get_workspaces sample_env ConnNone kwargs new_world = (Ret tt, w') /\
     _az_tenant_id (self w') = PStr "T2" /\
     _workspace_ids (self w') = ["W1"] /\
     trace w' = []) /\
  (exists w',
     connect sample_env ConnNone kwargs new_world = (Ret true, w') /\
     existsb is_network_call (trace w') = true).
Proof.
  cbv zeta. split; [reflexivity |]. split; [reflexivity |].
  split; [reflexivity |]. split.
  - eexists. repeat split; vm_compute; reflexivity.
  - eexists. split; vm_compute; reflexivity.
Qed.

(** ** Workspace names that resolve to different workspaces *)

Lemma workspace_configs_of_resolved (E : Env) (names : list pyval)
    (resolved : list (option string * option string)) :
  Forall2
    (fun name kv =>
       exists c, WorkspaceConfig_ctor E name = Ret c /\
                 conf_getitem c CONF_WS_ID = Ret (fst kv) /\
                 conf_getitem c CONF_TENANT_ID = Ret (snd kv))
    names resolved ->
  forall acc,
    workspace_configs_of E names acc
      = Ret (fold_left (fun d kv => okey_set (fst kv) (snd kv) d) resolved acc).
Proof.
  induction 1 as [| name kv names resolved (c & Hc & Hw & Ht) _ IH];
    intros acc; cbn; [reflexivity |].
  rewrite Hc. cbn. rewrite Hw. cbn. rewrite Ht. cbn. apply IH.
Qed.

Lemma two_tenants_counted {A} `{EqDecision A} (tenants : list A) (t1 t2 : A) :
  t1 ∈ tenants -> t2 ∈ tenants -> t1 <> t2 ->
  (1 <? length (remove_dups tenants))%nat = true.
Proof.
  intros H1 H2 Hne.
  apply elem_of_remove_dups in H1, H2.
  pose proof (NoDup_remove_dups tenants) as Hnd.
  destruct (remove_dups tenants) as [| x [| y l]].
  - inversion H1.
  - apply list_elem_of_singleton in H1, H2. congruence.
  - reflexivity.
Qed.

(** When the names resolve to pairwise different workspace IDs and two of
    the resolved configs differ in their tenant ID, resolution during
    [connect] raises [ValueError]; nothing has been sent anywhere and the
    driver is disconnected. *)
Lemma connect_mixed_tenants_distinct_workspaces
    (E : Env) (connection_str : connection_arg) (kwargs : gmap string pyval)
    (w : world) (workspaces : pyval) (names : list pyval)
    (resolved : list (option string * option string))
    (t1 t2 : option string) :
  kwargs !! "workspaces" = Some workspaces ->
  truthy workspaces = true ->
  py_iter workspaces = Ret names ->
  Forall2
    (fun name kv =>
       exists c, WorkspaceConfig_ctor E name = Ret c /\
                 conf_getitem c CONF_WS_ID = Ret (fst kv) /\
                 conf_getitem c CONF_TENANT_ID = Ret (snd kv))
    names resolved ->
  NoDup (map fst resolved) ->
  t1 ∈ map snd resolved -> t2 ∈ map snd resolved -> t1 <> t2 ->
  exists e w',
    connect E connection_str kwargs w = (Raise e, w') /\
    exn_class e = ValueError /\
    trace w' = trace w /\
    _connected (self w') = false.
Proof.
  intros Hws Htruthy Hiter Hres Hnd Ht1 Ht2 Hne.
  unfold connect, _create_query_client, _get_workspaces. cbv zeta.
  unfold mbind, M_bind, update_self, modify, get_self. cbn.
  rewrite !lookup_after_pops by discriminate.
  rewrite Hws. cbn. rewrite Htruthy.
  unfold _get_workspaces_by_name, mbind, M_bind, lift. rewrite Hiter.
  rewrite (workspace_configs_of_resolved E names resolved Hres []).
  rewrite (okey_fold_id resolved []) by exact Hnd. cbn [app].
  rewrite (two_tenants_counted _ t1 t2 Ht1 Ht2 Hne). cbn.
  eexists _, _. repeat split.
Qed.

(** ** C4: a list of workspace IDs without a tenant *)

(** Resolution by ID list on its own: without a tenant ID it raises for
    every value of [workspace_ids] and changes nothing. *)
Lemma _get_workspaces_by_id_without_tenant (workspace_ids : pyval) (w : world) :
  truthy (_az_tenant_id (self w)) = false ->
  exists e,
    _get_workspaces_by_id workspace_ids w = (Raise e, w) /\
    exn_class e = MsticpyKqlConnectionError /\
    exn_title e = Some "No tenant_id supplied.".
Proof.
  intros H. eexists. unfold _get_workspaces_by_id, mbind, M_bind, get_self.
  rewrite H. cbn. repeat split.
Qed.

(** C4 (amended). For every call of [connect] that supplies a non-empty
    list of workspace IDs, no (or an empty) [workspaces] list, and no
    tenant ID under [tenant_id] or [mp_az_tenant_id], workspace resolution
    raises [MsticpyKqlConnectionError] with the title "No tenant_id
    supplied." (the configuration error of the specification); nothing has
    been sent anywhere and the driver is disconnected. *)
Theorem connect_workspace_ids_without_tenant
    (E : Env) (connection_str : connection_arg) (kwargs : gmap string pyval)
    (w : world) (ids : list pyval) :
  truthy (default PNone (kwargs !! "workspaces")) = false ->
  kwargs !! "workspace_ids" = Some (PList ids) ->
  ids <> [] ->
  truthy (default (default PNone (kwargs !! "mp_az_tenant_id"))
                  (kwargs !! "tenant_id")) = false ->
  exists e w',
    connect E connection_str kwargs w = (Raise e, w') /\
    exn_class e = MsticpyKqlConnectionError /\
    exn_title e = Some "No tenant_id supplied." /\
    trace w' = trace w /\
    _connected (self w') = false.
Proof.
  intros Hws Hids Hne Htenant.
  unfold connect, _create_query_client, _get_workspaces. cbv zeta.
  unfold mbind, M_bind, update_self, modify, get_self. cbn.
  rewrite !lookup_after_pops by discriminate.
  rewrite Hws, Hids. cbn.
  destruct ids as [| x ids]; [contradiction |]. cbn.
  unfold _get_workspaces_by_id, mbind, M_bind, get_self. cbn.
  rewrite Htenant. cbn.
  eexists _, _. repeat split.
Qed.

Lemma connect_workspace_ids_without_tenant_witness :
  let kwargs : gmap string pyval :=
    {[ "workspace_ids" := PList [PStr "W1"; PStr "W2"] ]} in
  truthy (default PNone (kwargs !! "workspaces")) = false /\
  kwargs !! "workspace_ids" = Some (PList [PStr "W1"; PStr "W2"]) /\
  [PStr "W1"; PStr "W2"] <> [] /\
  truthy (default (default PNone (kwargs !! "mp_az_tenant_id"))
                  (kwargs !! "tenant_id")) = false /\
  exists e w',
    connect sample_env ConnNone kwargs new_world = (Raise e, w') /\
    exn_class e = MsticpyKqlConnectionError /\
    exn_title e = Some "No tenant_id supplied." /\
    trace w' = trace new_world /\
    _connected (self w') = false.
Proof.
  cbv zeta.
  assert (H1 : truthy (default PNone
                 (({[ "workspace_ids" := PList [PStr "W1"; PStr "W2"] ]}
                     : gmap string pyval) !! "workspaces")) = false)
    by reflexivity.
  assert (H2 : ({[ "workspace_ids" := PList [PStr "W1"; PStr "W2"] ]}
                  : gmap string pyval) !! "workspace_ids"
               = Some (PList [PStr "W1"; PStr "W2"]))
    by reflexivity.
  assert (H3 : [PStr "W1"; PStr "W2"] <> []) by discriminate.
  assert (H4 : truthy (default (default PNone
                 (({[ "workspace_ids" := PList [PStr "W1"; PStr "W2"] ]}
                     : gmap string pyval) !! "mp_az_tenant_id"))
                 (({[ "workspace_ids" := PList [PStr "W1"; PStr "W2"] ]}
                     : gmap string pyval) !! "tenant_id")) = false)
    by reflexivity.
  repeat split; try assumption.
  exact (connect_workspace_ids_without_tenant sample_env ConnNone _
           new_world _ H1 H2 H3 H4).
Defined.

(** The claim as stated fails on an empty list of workspace IDs: the list
    counts as not supplied, resolution goes on to the configured default
    workspace and succeeds, and [connect] returns [True].  It also fails
    when a [workspaces] list comes with the IDs: the names are resolved, the
    IDs are ignored, and the tenant is taken from the settings. *)
Lemma connect_empty_workspace_ids_resolves :
  let kwargs : gmap string pyval := {[ "workspace_ids" := PList [] ]} in
  let kwargs' : gmap string pyval :=
    <[ "workspaces" := PList [PStr "A"] ]>
      {[ "workspace_ids" := PList [PStr "W9"] ]} in
  kwargs !! "tenant_id" = None /\
  kwargs !! "mp_az_tenant_id" = None /\
  (exists w',
     _get_workspaces sample_env ConnNone kwargs new_world = (Ret tt, w') /\
     _workspace_id (self w') = Some "W0") /\
  fst (connect sample_env ConnNone kwargs new_world) = Ret true /\
  ~ (exists e w',
       connect sample_env ConnNone kwargs new_world = (Raise e, w')) /\
  kwargs' !! "tenant_id" = None /\
  kwargs' !! "mp_az_tenant_id" = None /\
  (exists w',
     _get_workspaces sample_env ConnNone kwargs' new_world = (Ret tt, w') /\
     _workspace_ids (self w') = ["W1"] /\
     _az_tenant_id (self w') = PStr "T1") /\
  fst (connect sample_env ConnNone kwargs' new_world) = Ret true.
Proof.
  cbv zeta. split; [reflexivity |]. split; [reflexivity |].
  assert (H : fst (connect sample_env ConnNone
                     ({[ "workspace_ids" := PList [] ]} : gmap string pyval)
                     new_world) = Ret true)
    by (vm_compute; reflexivity).
  split; [| split; [exact H |]].
  - eexists. split; vm_compute; reflexivity.
  - split.
    + intros (e & w' & Hc). rewrite Hc in H. discriminate H.
    + split; [reflexivity |]. split; [reflexivity |]. split.
      * eexists. split; [vm_compute; reflexivity |].
        split; vm_compute; reflexivity.
      * vm_compute. reflexivity.
Qed.

(** ** C5: connect succeeds fully or leaves the driver disconnected *)

#[global] Instance same_schema_preorder : PreOrder same_schema.
Proof.
  split.
  - intros d. reflexivity.
  - intros d1 d2 d3 H1 H2. unfold same_schema in *. congruence.
Qed.

Lemma _create_query_client_schema (E : Env) (c : connection_arg)
    (kwargs : gmap string pyval) :
  preserves same_schema (_create_query_client E c kwargs).
Proof.
  unfold _create_query_client, _get_workspaces, _get_workspaces_by_name,
    _get_workspaces_by_id, _get_workspace_settings_args.
  preserves_flags.
Qed.

(** [connect] from the point where it holds the query client. *)
Lemma connect_from_client (E : Env) (connection_str : connection_arg)
    (kwargs : gmap string pyval) (w w1 : world) (client : LogsQueryClient) :
  _create_query_client E connection_str kwargs (disconnected w)
    = (Ret client, w1) ->
  connect E connection_str kwargs w =
    ((if _try_get_schema (self w1) then
        schema ← _get_schema E;
        update_self (set_schema schema)
      else mret tt);;
     update_self (set_connected true);;
     print E "connected";;
     d ← get_self;
     mret (_connected d)) (before_schema kwargs client w1).
Proof.
  intros H. unfold connect.
  assert (H0 : update_self (set_connected false) w = (Ret tt, disconnected w))
    by reflexivity.
  rewrite (bind_ret _ _ _ _ _ H0), (bind_ret _ _ _ _ _ H).
  reflexivity.
Qed.

(** C5 (amended). For every call of [connect], from any driver state and
    whatever the collaborators do.  If it returns, it returns [True] and the
    driver is fully connected by this call: the client that
    [_create_query_client] built in this call is stored, the schema that
    [_get_schema] returned in this call is stored when schema fetching is
    on, and the connected flag is true.  If it raises while building the
    client or fetching the schema, the connected flag is false.  The only
    other raise is that of the final [print], after the flag is set: the
    exception is the one of the console, and the driver is fully connected
    by this call all the same.  So the flag is never true without the
    client and the schema of this call in place. *)
Theorem connect_all_or_nothing
    (E : Env) (connection_str : connection_arg) (kwargs : gmap string pyval)
    (w : world) :
  match connect E connection_str kwargs w with
  | (Ret r, w') =>
      r = true /\ fully_connected E connection_str kwargs w w'
  | (Raise e, w') =>
      (_connected (self w') = false /\
       failed_before_flag E connection_str kwargs w e) \/
      (print_stdout E "connected" = Raise e /\
       fully_connected E connection_str kwargs w w')
  end.
Proof.
  pose proof (_create_query_client_flags E connection_str kwargs
                (disconnected w)) as [Hc Ht].
  pose proof (_create_query_client_schema E connection_str kwargs
                (disconnected w)) as Hsch.
  unfold fully_connected, failed_before_flag.
  destruct (_create_query_client E connection_str kwargs (disconnected w))
    as [[client | e] w1] eqn:Hclient; cbn in Hc, Ht, Hsch.
  2: { unfold connect.
       assert (H0 : update_self (set_connected false) w
                    = (Ret tt, disconnected w)) by reflexivity.
       rewrite (bind_ret _ _ _ _ _ H0), (bind_raise _ _ _ _ _ Hclient).
       left. split; [exact Hc | left; reflexivity]. }
  rewrite (connect_from_client E connection_str kwargs w w1 client Hclient).
  rewrite Ht. unfold same_schema in Hsch.
  destruct (_try_get_schema (self w)) eqn:Htry.
  - pose proof (_get_schema_self E (before_schema kwargs client w1)) as Hs.
    unfold mbind, M_bind, print, emit, update_self, modify, lift, get_self,
      mret, M_ret.
    destruct (_get_schema E (before_schema kwargs client w1))
      as [[schema | e] w2] eqn:Hschema; cbn in Hs; cbn.
    + destruct (print_stdout E "connected") as [[] | e]; cbn.
      * split; [reflexivity |]. exists client, w1.
        split; [reflexivity |]. split; [reflexivity |].
        split; [rewrite <- Hs; reflexivity |].
        exists schema, w2. split; [exact Hschema |]. split; reflexivity.
      * right. split; [reflexivity |]. exists client, w1.
        split; [reflexivity |]. split; [reflexivity |].
        split; [rewrite <- Hs; reflexivity |].
        exists schema, w2. split; [exact Hschema |]. split; reflexivity.
    + left. split.
      * rewrite <- Hs. cbn. exact Hc.
      * right. exists client, w1.
        split; [reflexivity |]. split; [reflexivity |]. now rewrite Hschema.
  - unfold mbind, M_bind, print, emit, update_self, modify, lift, get_self,
      mret, M_ret.
    cbn.
    destruct (print_stdout E "connected") as [[] | e]; cbn.
    + split; [reflexivity |]. exists client, w1.
      split; [reflexivity |]. split; [reflexivity |].
      split; [reflexivity |]. split; [exact Hsch | reflexivity].
    + right. split; [reflexivity |]. exists client, w1.
      split; [reflexivity |]. split; [reflexivity |].
      split; [reflexivity |]. split; [exact Hsch | reflexivity].
Qed.

(** The claim as stated fails when the console cannot be written to: the
    connected flag is set before the line [connected] is printed, so
    [connect] raises and leaves the flag true. *)
Lemma connect_raises_after_flag :
  exists e w',
    connect broken_console_env (ConnStr "connection-to-W1") ∅ new_world
      = (Raise e, w') /\
    exn_class e = OtherException "BrokenPipeError" /\
    _connected (self w') = true /\
    ~ (_connected (self w') = false).
Proof.
  eexists _, _. split; [vm_compute; reflexivity |].
  split; [reflexivity |]. split; [reflexivity |].
  cbn. discriminate.
Qed.

(** ** C6: schema formatting *)

Lemma _schema_format_columns_sorted_dict (table_schema : raw_schema) :
  _schema_format_columns table_schema
    = sorted_dict (column_items (standardColumns table_schema) ++
                   column_items (customColumns table_schema)).
Proof.
  unfold _schema_format_columns, sorted_dict, column_items.
  do 2 f_equal. unfold dict_of_items. rewrite fold_left_app.
  generalize (fold_left
                (fun d kv => dict_set (fst kv) (snd kv) d)
                (map (fun col => (col_name col, col_type col))
                     (default [] (standardColumns table_schema)))
                ([] : list (string * string))).
  induction (default [] (customColumns table_schema)) as [| col cols IH];
    intros acc; cbn; [reflexivity | apply IH].
Qed.

Lemma _schema_format_tables_sorted_dict (ws_tables : list raw_table) :
  _schema_format_tables ws_tables = sorted_dict (table_items ws_tables).
Proof. reflexivity. Qed.

Lemma _schema_format_columns_get (table_schema : raw_schema) (column : string) :
  dict_get column (_schema_format_columns table_schema) =
    match dict_get column (rev (column_items (customColumns table_schema))) with
    | Some ty => Some ty
    | None =>
        dict_get column (rev (column_items (standardColumns table_schema)))
    end.
Proof.
  rewrite _schema_format_columns_sorted_dict, sorted_dict_get, rev_app_distr.
  apply dict_get_app.
Qed.

Lemma _schema_format_columns_perm (std std' cust cust' : list raw_column) :
  NoDup (map col_name std) -> NoDup (map col_name cust) ->
  std ≡ₚ std' -> cust ≡ₚ cust' ->
  _schema_format_columns
    {| standardColumns := Some std'; customColumns := Some cust' |}
  = _schema_format_columns
      {| standardColumns := Some std; customColumns := Some cust |}.
Proof.
  intros Hs Hc Hps Hpc.
  apply sorted_ext;
    try (rewrite _schema_format_columns_sorted_dict; apply sorted_dict_sorted).
  intros k. rewrite !_schema_format_columns_get.
  cbn [standardColumns customColumns].
  assert (Hget : forall (l l' : list raw_column),
             NoDup (map col_name l) -> l ≡ₚ l' ->
             dict_get k (rev (column_items (Some l')))
               = dict_get k (rev (column_items (Some l)))).
  { intros l l' Hnd Hp. unfold column_items. cbn.
    apply dict_get_perm.
    - assert (Hm : map fst (rev (map (fun col => (col_name col, col_type col)) l'))
                     ≡ₚ map col_name l).
      { rewrite <- Permutation_rev, map_map. cbn.
        apply Permutation_map. now symmetry. }
      now rewrite Hm.
    - rewrite <- !Permutation_rev. apply Permutation_map. now symmetry. }
  rewrite (Hget cust cust' Hc Hpc), (Hget std std' Hs Hps). reflexivity.
Qed.

(** C6 (amended). For every raw table list:
    - the columns of a table map each column name to the type of its last
      entry in the custom list and, failing that, of its last entry in the
      standard list, so a custom column overrides the standard one of the
      same name;
    - the result maps each table name to the columns of the last table of
      that name;
    - table names and, within every table, column names are in strictly
      increasing order;
    - formatting is a function of the list, and sorting its result again
      gives it back;
    - when the table names are pairwise different, every reordering of the
      list is formatted to the identical result, and so is every reordering
      of a standard or custom column list whose names are pairwise
      different. *)
Theorem schema_format_sorted_and_order_independent (ws_tables : list raw_table) :
  (forall (table_schema : raw_schema) (column : string),
     dict_get column (_schema_format_columns table_schema) =
       match
         dict_get column (rev (column_items (customColumns table_schema)))
       with
       | Some ty => Some ty
       | None =>
           dict_get column (rev (column_items (standardColumns table_schema)))
       end) /\
  (forall name,
     dict_get name (_schema_format_tables ws_tables)
       = dict_get name (rev (table_items ws_tables))) /\
  StronglySorted key_lt (_schema_format_tables ws_tables) /\
  Forall (fun entry => StronglySorted key_lt (snd entry))
         (_schema_format_tables ws_tables) /\
  dict_of_items (sorted_items (_schema_format_tables ws_tables))
    = _schema_format_tables ws_tables /\
  (forall ws_tables',
     NoDup (map table_name ws_tables) -> ws_tables ≡ₚ ws_tables' ->
     _schema_format_tables ws_tables' = _schema_format_tables ws_tables) /\
  (forall std std' cust cust',
     NoDup (map col_name std) -> NoDup (map col_name cust) ->
     std ≡ₚ std' -> cust ≡ₚ cust' ->
     _schema_format_columns
       {| standardColumns := Some std'; customColumns := Some cust' |}
     = _schema_format_columns
         {| standardColumns := Some std; customColumns := Some cust |}).
Proof.
  split; [exact _schema_format_columns_get |].
  split; [intros name; apply sorted_dict_get |].
  split; [apply sorted_dict_sorted |].
  split.
  { apply Forall_forall. intros [name cols] Hin.
    apply sorted_dict_elem in Hin. unfold table_items in Hin.
    apply list_elem_of_fmap in Hin as (table & [= -> ->] & _). cbn.
    rewrite _schema_format_columns_sorted_dict. apply sorted_dict_sorted. }
  split; [apply sorted_dict_fixed, sorted_dict_sorted |].
  split; [| exact _schema_format_columns_perm].
  intros ws_tables' Hnd Hp. symmetry.
  rewrite !_schema_format_tables_sorted_dict.
  apply sorted_dict_perm.
  - unfold table_items. rewrite map_map. exact Hnd.
  - unfold table_items. now apply Permutation_map.
Qed.

Lemma schema_format_sorted_and_order_independent_witness :
  NoDup (map table_name [table_named "Syslog"; table_named "Heartbeat"]) /\
  [table_named "Syslog"; table_named "Heartbeat"]
    ≡ₚ [table_named "Heartbeat"; table_named "Syslog"] /\
  _schema_format_tables [table_named "Heartbeat"; table_named "Syslog"]
    = _schema_format_tables [table_named "Syslog"; table_named "Heartbeat"].
Proof.
  assert (Hnd : NoDup (map table_name
                         [table_named "Syslog"; table_named "Heartbeat"])).
  { cbn. apply NoDup_cons. split.
    - intros H. apply list_elem_of_singleton in H. discriminate H.
    - apply NoDup_singleton. }
  assert (Hp : [table_named "Syslog"; table_named "Heartbeat"]
                 ≡ₚ [table_named "Heartbeat"; table_named "Syslog"])
    by apply perm_swap.
  split; [exact Hnd |]. split; [exact Hp |].
  destruct (schema_format_sorted_and_order_independent
              [table_named "Syslog"; table_named "Heartbeat"])
    as (_ & _ & _ & _ & _ & H & _).
  exact (H _ Hnd Hp).
Defined.

(** The claim as stated fails on a table list with a repeated name: the
    later table replaces the earlier one, so the two orders of the same two
    tables are formatted differently. *)
Lemma schema_format_repeated_name_order_dependent :
  [table_T_int; table_T_string] ≡ₚ [table_T_string; table_T_int] /\
  _schema_format_tables [table_T_int; table_T_string]
    = [("T", [("a", "string")])] /\
  _schema_format_tables [table_T_string; table_T_int]
    = [("T", [("a", "int")])] /\
  _schema_format_tables [table_T_int; table_T_string]
    <> _schema_format_tables [table_T_string; table_T_int].
Proof.
  split; [apply perm_swap |].
  split; [reflexivity |]. split; [reflexivity |].
  vm_compute. discriminate.
Qed.

(** ** C7: the time span of a query *)

Lemma _get_time_span_value_eq (E : Env) (kwargs : gmap string pyval)
    (w : world) :
  _get_time_span_value E kwargs w =
    (match as_dict (kwargs !! "time_span") with
     | Raise e => Raise e
     | Ret time_params =>
         let start := default PNone (dict_get "start" time_params) in
         let end_ := default PNone (dict_get "end" time_params) in
         if truthy (default (PBool false) (kwargs !! "default_time_params"))
            || (is_none start || is_none end_)
         then Ret None
         else
           match TimeSpan E start end_ with
           | Ret time_span =>
               match TimeSpan_str E time_span with
               | Ret _ =>
                   Ret (Some (timestamp_to_datetime (fst time_span),
                              timestamp_to_datetime (snd time_span)))
               | Raise e => Raise e
               end
           | Raise e => Raise e
           end
     end, w).
Proof.
  unfold _get_time_span_value, mbind, M_bind, lift. cbv zeta.
  destruct (as_dict (kwargs !! "time_span")) as [time_params | e];
    [| reflexivity].
  destruct (truthy _ || _); [reflexivity |].
  destruct (TimeSpan E _ _) as [time_span | e]; [| reflexivity].
  destruct (TimeSpan_str E time_span); reflexivity.
Qed.

Lemma is_none_true (v : pyval) : is_none v = true <-> v = PNone.
Proof. destruct v; cbn; split; congruence. Qed.

Lemma dispatched_time_spans_cons (d : driver) (query_text : string)
    (kwargs : gmap string pyval) (time_span_value : option (pyval * pyval))
    (tail : list event) :
  dispatched_time_spans
    (dispatch_event d query_text kwargs time_span_value :: tail)
  = time_span_value :: dispatched_time_spans tail.
Proof. reflexivity. Qed.

(** What a call of [query_with_results] adds to the trace: nothing, or one
    dispatch with the computed time span, followed by at most a warning. *)
Lemma query_with_results_new_events
    (E : Env) (w : world) (query_text : string) (kwargs : gmap string pyval) :
  new_events w (snd (query_with_results E query_text kwargs w)) = [] \/
  exists time_span_value tail,
    _get_time_span_value E kwargs w = (Ret time_span_value, w) /\
    new_events w (snd (query_with_results E query_text kwargs w))
      = dispatch_event (self w) query_text kwargs time_span_value :: tail /\
    dispatched_time_spans tail = [].
Proof.
  destruct (_connected (self w)) eqn:Hc.
  2: { left. unfold query_with_results, mbind, M_bind, get_self.
       rewrite Hc. cbn. unfold new_events. apply drop_all. }
  destruct (_query_client (self w)) as [client |] eqn:Hq.
  2: { left. unfold query_with_results, mbind, M_bind, get_self.
       rewrite Hc, Hq. cbn. unfold new_events. apply drop_all. }
  pose proof (_get_time_span_value_world E kwargs w) as Hw.
  destruct (_get_time_span_value E kwargs w) as [[tsv | e] w1] eqn:Hts;
    cbn in Hw; subst w1.
  2: { left. unfold query_with_results, mbind, M_bind, get_self.
       rewrite Hc, Hq. cbn. rewrite Hts. cbn. unfold new_events.
       apply drop_all. }
  right. exists tsv.
  rewrite (query_with_results_dispatch E w query_text kwargs client tsv Hc Hq)
    by now rewrite Hts.
  unfold mbind, M_bind, mret, M_ret, new_events.
  destruct (service_answer E client (self w) query_text kwargs tsv)
    as [[sn tl | sn pd | r] | message | err];
    cbn - [dispatch_event].
  - destruct tl; cbn - [dispatch_event]; rewrite drop_app_length;
      exists []; auto.
  - destruct (truthy (effective_fail_on_partial (self w) kwargs));
      cbn - [dispatch_event].
    + rewrite drop_app_length. exists []. auto.
    + destruct pd; cbn - [dispatch_event];
        rewrite <- app_assoc, drop_app_length; eexists; auto.
  - rewrite drop_app_length. exists []. auto.
  - rewrite drop_app_length. exists []. auto.
  - rewrite drop_app_length. exists []. auto.
Qed.

(** On a connected driver, a time span that is computed is dispatched, once. *)
Lemma query_with_results_dispatches_time_span
    (E : Env) (w : world) (query_text : string) (kwargs : gmap string pyval)
    (client : LogsQueryClient) (time_span_value : option (pyval * pyval)) :
  _connected (self w) = true ->
  _query_client (self w) = Some client ->
  _get_time_span_value E kwargs w = (Ret time_span_value, w) ->
  dispatched_time_spans
    (new_events w (snd (query_with_results E query_text kwargs w)))
  = [time_span_value].
Proof.
  intros Hc Hq Hts.
  destruct (query_with_results_new_events E w query_text kwargs)
    as [Hnil | (tsv' & tail & Hts' & Hnew & Htail)].
  - exfalso.
    rewrite (query_with_results_dispatch E w query_text kwargs client
               time_span_value Hc Hq) in Hnil by now rewrite Hts.
    unfold mbind, M_bind, mret, M_ret, new_events in Hnil.
    destruct (service_answer E client (self w) query_text kwargs
                time_span_value)
      as [[sn tl | sn pd | r] | message | err];
      cbn - [dispatch_event] in Hnil.
    + destruct tl; cbn - [dispatch_event] in Hnil;
        rewrite drop_app_length in Hnil; discriminate.
    + destruct (truthy (effective_fail_on_partial (self w) kwargs));
        cbn - [dispatch_event] in Hnil.
      * rewrite drop_app_length in Hnil. discriminate.
      * destruct pd; cbn - [dispatch_event] in Hnil;
          rewrite <- app_assoc, drop_app_length in Hnil; discriminate.
    + rewrite drop_app_length in Hnil. discriminate.
    + rewrite drop_app_length in Hnil. discriminate.
    + rewrite drop_app_length in Hnil. discriminate.
  - rewrite Hts in Hts'. injection Hts' as <-.
    now rewrite Hnew, dispatched_time_spans_cons, Htail.
Qed.

(** On a connected driver, an error while the time span is computed is the
    error of the query, and nothing is dispatched. *)
Lemma query_with_results_time_span_error
    (E : Env) (w : world) (query_text : string) (kwargs : gmap string pyval)
    (client : LogsQueryClient) (error : exn) :
  _connected (self w) = true ->
  _query_client (self w) = Some client ->
  _get_time_span_value E kwargs w = (Raise error, w) ->
  query_with_results E query_text kwargs w = (Raise error, w).
Proof.
  intros Hc Hq Hts.
  unfold query_with_results, mbind, M_bind, get_self.
  rewrite Hc, Hq. cbn. now rewrite Hts.
Qed.

(** What [to_pydatetime] keeps of a timestamp and what it drops. *)
Lemma to_pydatetime_spec (t : Timestamp) :
  tzinfo (to_pydatetime t) = ts_tzinfo t /\
  fold (to_pydatetime t) = ts_fold t /\
  0 <= nanosecond t < 1000 /\
  timestamp_ns t = datetime_ns (to_pydatetime t) + nanosecond t /\
  (datetime_ns (to_pydatetime t) = timestamp_ns t <-> nanosecond t = 0).
Proof.
  unfold timestamp_ns, datetime_ns, nanosecond, to_pydatetime. cbn.
  pose proof (Z.div_mod (wall_ns t) 1000 ltac:(lia)) as Hdm.
  pose proof (Z.mod_pos_bound (wall_ns t) 1000 ltac:(lia)) as Hb.
  repeat split; lia.
Qed.

(** C7 (amended). For every query call, every time span that the call
    dispatches is determined as follows.  If [default_time_params] is true,
    or [start] or [end] is missing from [time_span] or [None], it is
    [None].  Otherwise [TimeSpan(start, end)] and its [str] have returned,
    and it is the pair of the [start] and [end] of that [TimeSpan] - the
    caller's own [start] and [end] whenever [TimeSpan] holds them as they
    are given - with each [pd.Timestamp] among them replaced by its
    [to_pydatetime(warn=False)] and any other value passed on unchanged.
    On a connected driver with a dict (or no) [time_span], exactly that one
    time span is dispatched; when [str(time_span)] raises, the query raises
    the same error and dispatches nothing.  The replacement keeps the time
    zone, the fold and the date and time fields down to the microsecond and
    drops the nanosecond field: the datetime is earlier than the timestamp
    by exactly that field, less than a microsecond, and is the same instant
    only when the field is zero. *)
Theorem dispatched_time_span_spec
    (E : Env) (w : world) (query_text : string) (kwargs : gmap string pyval) :
  let dispatched :=
    dispatched_time_spans
      (new_events w (snd (query_with_results E query_text kwargs w))) in
  let default_time_params :=
    default (PBool false) (kwargs !! "default_time_params") in
  (forall time_span_value,
     time_span_value ∈ dispatched ->
     exists time_params,
       as_dict (kwargs !! "time_span") = Ret time_params /\
       let start := default PNone (dict_get "start" time_params) in
       let end_ := default PNone (dict_get "end" time_params) in
       (truthy default_time_params = true \/ start = PNone \/ end_ = PNone ->
        time_span_value = None) /\
       (truthy default_time_params = false ->
        start <> PNone -> end_ <> PNone ->
        exists time_span text,
          TimeSpan E start end_ = Ret time_span /\
          TimeSpan_str E time_span = Ret text /\
          time_span_value
            = Some (timestamp_to_datetime (fst time_span),
                    timestamp_to_datetime (snd time_span)) /\
          (time_span = (start, end_) ->
           time_span_value
             = Some (timestamp_to_datetime start,
                     timestamp_to_datetime end_)))) /\
  (forall client time_params,
     _connected (self w) = true ->
     _query_client (self w) = Some client ->
     as_dict (kwargs !! "time_span") = Ret time_params ->
     let start := default PNone (dict_get "start" time_params) in
     let end_ := default PNone (dict_get "end" time_params) in
     (truthy default_time_params = true \/ start = PNone \/ end_ = PNone ->
      dispatched = [None]) /\
     (truthy default_time_params = false ->
      start <> PNone -> end_ <> PNone ->
      TimeSpan E start end_ = Ret (start, end_) ->
      (forall text,
         TimeSpan_str E (start, end_) = Ret text ->
         dispatched
           = [Some (timestamp_to_datetime start,
                    timestamp_to_datetime end_)]) /\
      (forall error,
         TimeSpan_str E (start, end_) = Raise error ->
         dispatched = [] /\
         fst (query_with_results E query_text kwargs w) = Raise error))) /\
  (forall t : Timestamp,
     timestamp_to_datetime (PTimestamp t) = PDatetime (to_pydatetime t) /\
     tzinfo (to_pydatetime t) = ts_tzinfo t /\
     fold (to_pydatetime t) = ts_fold t /\
     0 <= nanosecond t < 1000 /\
     timestamp_ns t = datetime_ns (to_pydatetime t) + nanosecond t /\
     (datetime_ns (to_pydatetime t) = timestamp_ns t <-> nanosecond t = 0)) /\
  (forall v, (forall t, v <> PTimestamp t) -> timestamp_to_datetime v = v).
Proof.
  intros dispatched default_time_params.
  split; [| split; [| split]].
  - intros tsv Hin. subst dispatched.
    destruct (query_with_results_new_events E w query_text kwargs)
      as [Hnil | (tsv' & tail & Hts & Hnew & Htail)].
    { rewrite Hnil in Hin. inversion Hin. }
    rewrite Hnew, dispatched_time_spans_cons, Htail in Hin.
    apply list_elem_of_singleton in Hin. subst tsv'.
    rewrite _get_time_span_value_eq in Hts.
    destruct (as_dict (kwargs !! "time_span")) as [time_params | e];
      [| discriminate].
    exists time_params. split; [reflexivity |]. cbv zeta in *.
    fold default_time_params in Hts.
    split.
    + intros Hcond.
      assert (Hb : truthy default_time_params
                   || (is_none (default PNone (dict_get "start" time_params))
                       || is_none (default PNone (dict_get "end" time_params)))
                   = true).
      { destruct Hcond as [H | [H | H]]; rewrite H; cbn;
          rewrite ?orb_true_r; reflexivity. }
      rewrite Hb in Hts. congruence.
    + intros Hd Hs He. rewrite Hd in Hts. cbn in Hts.
      destruct (is_none (default PNone (dict_get "start" time_params)))
        eqn:Hs'; [apply is_none_true in Hs'; contradiction |].
      destruct (is_none (default PNone (dict_get "end" time_params)))
        eqn:He'; [apply is_none_true in He'; contradiction |].
      cbn in Hts.
      destruct (TimeSpan E _ _) as [time_span | err]; [| discriminate].
      destruct (TimeSpan_str E time_span) as [text | err] eqn:Hstr;
        [| discriminate].
      exists time_span, text.
      split; [reflexivity |]. split; [exact Hstr |].
      assert (Htsv : tsv = Some (timestamp_to_datetime (fst time_span),
                                 timestamp_to_datetime (snd time_span)))
        by congruence.
      split; [exact Htsv |].
      intros ->. exact Htsv.
  - intros client time_params Hc Hq Hd. cbv zeta. split.
    + intros Hcond.
      apply (query_with_results_dispatches_time_span E w query_text kwargs
               client None Hc Hq).
      rewrite _get_time_span_value_eq, Hd. cbv zeta.
      fold default_time_params.
      destruct Hcond as [H | [H | H]]; rewrite H; cbn;
        rewrite ?orb_true_r; reflexivity.
    + intros Hdt Hs He Hts.
      assert (Heq : forall outcome_of_str,
                TimeSpan_str E
                  (default PNone (dict_get "start" time_params),
                   default PNone (dict_get "end" time_params))
                  = outcome_of_str ->
                _get_time_span_value E kwargs w
                = (match outcome_of_str with
                   | Ret _ =>
                       Ret (Some
                              (timestamp_to_datetime
                                 (default PNone (dict_get "start" time_params)),
                               timestamp_to_datetime
                                 (default PNone (dict_get "end" time_params))))
                   | Raise error => Raise error
                   end, w)).
      { intros o Ho.
        rewrite _get_time_span_value_eq, Hd. cbv zeta.
        fold default_time_params. rewrite Hdt, Hts, Ho.
        destruct (default PNone (dict_get "start" time_params));
          try congruence;
          destruct (default PNone (dict_get "end" time_params));
          try congruence; reflexivity. }
      split.
      * intros text Hstr.
        apply (query_with_results_dispatches_time_span E w query_text kwargs
                 client _ Hc Hq).
        exact (Heq _ Hstr).
      * intros error Hstr. subst dispatched.
        rewrite (query_with_results_time_span_error E w query_text kwargs
                   client error Hc Hq (Heq _ Hstr)).
        split; [| reflexivity].
        cbn. unfold new_events. now rewrite drop_all.
  - intros t. split; [reflexivity |]. apply to_pydatetime_spec.
  - intros v Hv. destruct v; try reflexivity. now destruct (Hv t).
Qed.

Lemma dispatched_time_span_spec_witness :
  let w := connected_world [] in
  let kwargs := odd_time_span (PDatetime (to_pydatetime odd_timestamp)) in
  _connected (self w) = true /\
  _query_client (self w) = Some sample_client /\
  as_dict (kwargs !! "time_span")
    = Ret [("start", PTimestamp odd_timestamp);
           ("end", PDatetime (to_pydatetime odd_timestamp))] /\
  TimeSpan sample_env (PTimestamp odd_timestamp)
      (PDatetime (to_pydatetime odd_timestamp))
    = Ret (PTimestamp odd_timestamp,
           PDatetime (to_pydatetime odd_timestamp)) /\
  dispatched_time_spans
    (new_events w
       (snd (query_with_results sample_env "SecurityAlert" kwargs w)))
    = [Some (PDatetime (to_pydatetime odd_timestamp),
             PDatetime (to_pydatetime odd_timestamp))].
Proof.
  cbv zeta.
  assert (H1 : _connected (self (connected_world [])) = true) by reflexivity.
  assert (H2 : _query_client (self (connected_world []))
               = Some sample_client) by reflexivity.
  assert (H3 : as_dict
                 (odd_time_span (PDatetime (to_pydatetime odd_timestamp))
                    !! "time_span")
               = Ret [("start", PTimestamp odd_timestamp);
                      ("end", PDatetime (to_pydatetime odd_timestamp))])
    by reflexivity.
  assert (H4 : TimeSpan sample_env (PTimestamp odd_timestamp)
                 (PDatetime (to_pydatetime odd_timestamp))
               = Ret (PTimestamp odd_timestamp,
                      PDatetime (to_pydatetime odd_timestamp)))
    by reflexivity.
  repeat (split; [assumption |]).
  destruct (dispatched_time_span_spec sample_env (connected_world [])
              "SecurityAlert"
              (odd_time_span (PDatetime (to_pydatetime odd_timestamp))))
    as (_ & H & _).
  destruct (H sample_client _ H1 H2 H3) as [_ H'].
  refine (proj1 (H' _ _ _ H4) "TimeSpan(start=..., end=..., period=...)" _);
    [reflexivity | discriminate | discriminate | vm_compute; reflexivity].
Defined.

(** The claim as stated fails on a timestamp with a nanosecond part: the
    datetime that is dispatched for it is one nanosecond short of it. *)
Lemma time_span_drops_nanoseconds :
  let w := connected_world [] in
  let kwargs := odd_time_span (PTimestamp odd_timestamp) in
  exists d,
    dispatched_time_spans
      (new_events w
         (snd (query_with_results sample_env "SecurityAlert" kwargs w)))
      = [Some (PDatetime d, PDatetime d)] /\
    tzinfo d = ts_tzinfo odd_timestamp /\
    timestamp_ns odd_timestamp = 1700000000000000001 /\
    datetime_ns d = 1700000000000000000 /\
    datetime_ns d <> timestamp_ns odd_timestamp.
Proof.
  cbv zeta. exists (to_pydatetime odd_timestamp).
  split; [vm_compute; reflexivity |].
  split; [reflexivity |]. split; [reflexivity |]. split; [reflexivity |].
  vm_compute. discriminate.
Qed.

(** ** C8: the table check before a query *)

Lemma dict_mem_elem {V} (k : string) (d : list (string * V)) :
  dict_mem k d = true <-> k ∈ map fst d.
Proof.
  unfold dict_mem. destruct (dict_get k d) eqn:H.
  - split; [intros _ | reflexivity].
    apply dict_get_Some_elem in H.
    apply list_elem_of_fmap. exists (k, v). auto.
  - apply dict_get_None in H. split; [discriminate | contradiction].
Qed.

Lemma _check_table_exists_no_schema (query_source : QuerySource) (w : world) :
  _schema (self w) = [] -> _check_table_exists query_source w = (Ret tt, w).
Proof.
  intros H. unfold _check_table_exists, mbind, M_bind, get_self.
  now rewrite H.
Qed.

Lemma _check_table_exists_declared
    (query_source : QuerySource) (w : world)
    (table_param : list (string * pyval)) (table : string) :
  _schema (self w) <> [] ->
  params query_source !! "table" = Some (PDict table_param) ->
  dict_get "default" table_param = Some (PStr table) ->
  table <> "" ->
  _check_table_exists query_source w =
    if dict_mem (table_key table) (_schema (self w)) then (Ret tt, w)
    else (Raise (no_data_source_error (table_key table)), w).
Proof.
  intros Hs Hp Ht Hne.
  unfold _check_table_exists, mbind, M_bind, get_self, lift.
  destruct (_schema (self w)) as [| entry schema] eqn:Hschema;
    [contradiction |].
  rewrite Hp. cbn [as_dict]. rewrite Ht. cbn [default from_option id truthy].
  destruct (String.eqb_spec table ""); [contradiction |]. cbn [negb].
  destruct (dict_mem (table_key table) (entry :: schema)); reflexivity.
Qed.

(** The table check as the code performs it, for a [query_source] on a
    connected driver whose declared table name is a non-empty string: the
    name that is looked up is the part of the trimmed name before its first
    space when the trimmed name contains a space, and the declared name as
    it stands, untrimmed, when it does not.  With a non-empty cached schema,
    the lookup is by exact (case-sensitive) equality with a table name of
    the schema; a name that is not there makes [query] raise
    [MsticpyNoDataSourceError] before anything is dispatched, and a name
    that is there passes the check and the query runs as it does without a
    [query_source].  With an empty schema the check is skipped for every
    [query_source]. *)
Lemma query_checks_declared_table
    (E : Env) (w : world) (query_text : string) (query_source : QuerySource)
    (kwargs : gmap string pyval) (client : LogsQueryClient)
    (table_param : list (string * pyval)) (table : string) :
  _connected (self w) = true ->
  _query_client (self w) = Some client ->
  params query_source !! "table" = Some (PDict table_param) ->
  dict_get "default" table_param = Some (PStr table) ->
  table <> "" ->
  (table_key table =
     if contains_char " " (strip table) then split_head " " (strip table)
     else table) /\
  (_schema (self w) <> [] ->
   table_key table ∉ map fst (_schema (self w)) ->
   exists e,
     query E query_text (Some query_source) kwargs w = (Raise e, w) /\
     exn_class e = MsticpyNoDataSourceError) /\
  (_schema (self w) <> [] ->
   table_key table ∈ map fst (_schema (self w)) ->
   _check_table_exists query_source w = (Ret tt, w) /\
   query E query_text (Some query_source) kwargs w
     = query E query_text None kwargs w) /\
  (_schema (self w) = [] ->
   forall any_source,
     _check_table_exists any_source w = (Ret tt, w) /\
     query E query_text (Some any_source) kwargs w
       = query E query_text None kwargs w).
Proof.
  intros Hc Hq Hp Ht Hne.
  split; [reflexivity |].
  assert (Hquery : forall qs,
            _check_table_exists qs w = (Ret tt, w) ->
            query E query_text (Some qs) kwargs w
              = query E query_text None kwargs w).
  { intros qs H. unfold query.
    unfold mbind at 1 4, M_bind at 1 4. cbn [get_self]. rewrite Hc, Hq.
    unfold mbind at 1 3, M_bind at 1 3. now rewrite H. }
  split; [| split].
  - intros Hs Hnot.
    pose proof (_check_table_exists_declared query_source w table_param
                  table Hs Hp Ht Hne) as Hcheck.
    destruct (dict_mem (table_key table) (_schema (self w))) eqn:Hmem.
    + apply dict_mem_elem in Hmem. contradiction.
    + exists (no_data_source_error (table_key table)).
      split; [| reflexivity].
      unfold query.
      unfold mbind at 1, M_bind at 1. cbn [get_self]. rewrite Hc, Hq.
      unfold mbind at 1, M_bind at 1. now rewrite Hcheck.
  - intros Hs Hin.
    pose proof (_check_table_exists_declared query_source w table_param
                  table Hs Hp Ht Hne) as Hcheck.
    apply dict_mem_elem in Hin. rewrite Hin in Hcheck. auto.
  - intros Hs qs.
    pose proof (_check_table_exists_no_schema qs w Hs). auto.
Qed.

Lemma query_checks_declared_table_witness :
  let w := connected_world alert_schema in
  _connected (self w) = true /\
  _query_client (self w) = Some sample_client /\
  params (source_for "NoSuchTable") !! "table"
    = Some (PDict [("default", PStr "NoSuchTable")]) /\
  dict_get "default" [("default", PStr "NoSuchTable")]
    = Some (PStr "NoSuchTable") /\
  "NoSuchTable" <> "" /\
  _schema (self w) <> [] /\
  (table_key "NoSuchTable" ∉ map fst (_schema (self w))) /\
  exists e,
    query sample_env "NoSuchTable | take 1" (Some (source_for "NoSuchTable"))
      ∅ w = (Raise e, w) /\
    exn_class e = MsticpyNoDataSourceError.
Proof.
  cbv zeta.
  assert (H1 : _connected (self (connected_world alert_schema)) = true)
    by reflexivity.
  assert (H2 : _query_client (self (connected_world alert_schema))
               = Some sample_client) by reflexivity.
  assert (H3 : params (source_for "NoSuchTable") !! "table"
               = Some (PDict [("default", PStr "NoSuchTable")]))
    by reflexivity.
  assert (H4 : dict_get "default" [("default", PStr "NoSuchTable")]
               = Some (PStr "NoSuchTable")) by reflexivity.
  assert (H5 : "NoSuchTable" <> "") by discriminate.
  assert (H6 : _schema (self (connected_world alert_schema)) <> [])
    by discriminate.
  assert (H7 : table_key "NoSuchTable"
                 ∉ map fst (_schema (self (connected_world alert_schema)))).
  { intros H. apply dict_mem_elem in H. discriminate H. }
  repeat (split; [assumption |]).
  destruct (query_checks_declared_table sample_env
              (connected_world alert_schema) "NoSuchTable | take 1"
              (source_for "NoSuchTable") ∅ sample_client
              [("default", PStr "NoSuchTable")] "NoSuchTable"
              H1 H2 H3 H4 H5) as (_ & H & _).
  exact (H H6 H7).
Defined.

(** A declared [SecurityAlert] passes the check against a schema with that
    table; the same name in lower case does not. *)
Lemma check_table_exact_name :
  let w := connected_world alert_schema in
  _check_table_exists (source_for "SecurityAlert") w = (Ret tt, w) /\
  _check_table_exists (source_for "SecurityAlert | where Severity > 1") w
    = (Ret tt, w) /\
  exists e,
    _check_table_exists (source_for "securityalert") w = (Raise e, w) /\
    exn_class e = MsticpyNoDataSourceError.
Proof.
  cbv zeta. split; [reflexivity |]. split; [reflexivity |].
  eexists. split; reflexivity.
Qed.

(** C8. The code does not do what the claim says for a declared table name
    with white space around it and no space inside.  On a connected driver
    whose cached schema has the table [SecurityAlert], the declared name
    [SecurityAlert] followed by one space is, after trimming and cutting at
    the first space, the table [SecurityAlert] of the schema, and yet
    [query] raises [MsticpyNoDataSourceError] for it and dispatches nothing:
    the name is looked up untrimmed.  The branch next to it does trim: the
    same name followed by a query clause, with the same white space around
    it, passes the check. *)
Theorem check_table_untrimmed_name :
  let w := connected_world alert_schema in
  trimmed_table_name "SecurityAlert " = "SecurityAlert" /\
  (trimmed_table_name "SecurityAlert " ∈ map fst (_schema (self w))) /\
  (exists e,
     query sample_env "SecurityAlert | take 1"
       (Some (source_for "SecurityAlert ")) ∅ w = (Raise e, w) /\
     exn_class e = MsticpyNoDataSourceError) /\
  table_key "SecurityAlert " = "SecurityAlert " /\
  table_key "SecurityAlert " <> trimmed_table_name "SecurityAlert " /\
  _check_table_exists (source_for " SecurityAlert | take 1 ") w = (Ret tt, w) /\
  _check_table_exists (source_for "SecurityAlert") w = (Ret tt, w).
Proof.
  cbv zeta. split; [reflexivity |]. split.
  - apply dict_mem_elem. reflexivity.
  - split.
    + eexists. split; [vm_compute; reflexivity | reflexivity].
    + split; [reflexivity |]. split; [vm_compute; discriminate |].
      split; reflexivity.
Qed.

(** ** C9: the abuse-list lookup never raises *)

Lemma in_abuse_list_total (E : DomEnv) (url_domain : string) (v : validator) :
  in_abuse_list E url_domain v =
    match in_abuse_list_try E url_domain v with
    | (Ret (found, cert), v') => (Ret (found, Some cert), v')
    | (Raise _, v') => (Ret (false, None), v')
    end.
Proof.
  unfold in_abuse_list, try_except, mbind, M_bind.
  destruct (in_abuse_list_try E url_domain v) as [[[found cert] | e] v'];
    reflexivity.
Qed.




(** ** C10: the name of the current connection *)

Lemma or_else_nonempty (a : option string) (b : string) :
  b <> "" -> or_else a b <> "".
Proof.
  intros Hb. unfold or_else. destruct a as [s |]; [| exact Hb].
  destruct (String.eqb_spec s ""); assumption.
Qed.

Lemma or_else_empty (b : string) : or_else (Some "") b = b.
Proof. reflexivity. Qed.

Lemma or_else_head (l : list string) (b : string) :
  or_else (Some (hd "" l)) b = or_else (head l) b.
Proof. destruct l; reflexivity. Qed.

Lemma or_else_set (a : option string) (b n : string) :
  a = Some n -> n <> "" -> or_else a b = n.
Proof.
  intros -> Hn. unfold or_else.
  destruct (String.eqb_spec n ""); [contradiction | reflexivity].
Qed.

Lemma or_else_unset (a : option string) (b : string) :
  unset a -> or_else a b = b.
Proof. intros [-> | ->]; reflexivity. Qed.

(** The value of [current_connection], as one chain of [or]. *)
Lemma current_connection_chain (d : driver) :
  current_connection d =
    Ret (or_else (_ws_name d)
           (or_else (config_workspace_name d)
              (or_else (_def_connection_str d)
                 (or_else (_workspace_id d)
                    (or_else (head (_workspace_ids d)) "AzureMonitor"))))).
Proof.
  unfold current_connection, config_workspace_name.
  rewrite or_else_head.
  destruct (_ws_config d) as [c |]; cbn.
  - unfold conf_contains, conf_getitem. cbn.
    destruct (_ws_name d) as [n |]; cbn.
    + destruct (String.eqb_spec n ""); cbn.
      * subst n. destruct c as [? ? [| | ?] ? ? ? ? ?]; reflexivity.
      * unfold or_else at 1 3.
        destruct (String.eqb_spec n ""); [contradiction | reflexivity].
    + destruct c as [? ? [| | ?] ? ? ? ? ?]; reflexivity.
  - destruct (_ws_name d) as [n |]; reflexivity.
Qed.

(** C10. In every driver state, connected or not, [current_connection]
    returns a string that is not empty: the workspace name if set (not
    [None] and not empty), else the workspace name of the config, else the
    default connection string, else the single workspace ID, else the first
    entry of the workspace-ID list, else the literal [AzureMonitor]; and
    assigning to the property returns normally and leaves the driver, hence
    this value, unchanged. *)
Theorem current_connection_spec (d : driver) :
  exists name,
    current_connection d = Ret name /\
    name <> "" /\
    (forall n, _ws_name d = Some n -> n <> "" -> name = n) /\
    (unset (_ws_name d) ->
     (forall n, config_workspace_name d = Some n -> n <> "" -> name = n) /\
     (unset (config_workspace_name d) ->
      (forall n, _def_connection_str d = Some n -> n <> "" -> name = n) /\
      (unset (_def_connection_str d) ->
       (forall n, _workspace_id d = Some n -> n <> "" -> name = n) /\
       (unset (_workspace_id d) ->
        (forall n, head (_workspace_ids d) = Some n -> n <> "" -> name = n) /\
        (unset (head (_workspace_ids d)) -> name = "AzureMonitor"))))) /\
    forall (value : pyval) (tr : list event),
      current_connection_setter value {| self := d; trace := tr |}
        = (Ret tt, {| self := d; trace := tr |}) /\
      current_connection
        (self (snd (current_connection_setter value
                      {| self := d; trace := tr |})))
        = Ret name.
Proof.
  eexists. split; [apply current_connection_chain |].
  split; [repeat apply or_else_nonempty; discriminate |].
  split; [intros n H Hn; now apply or_else_set |].
  split.
  - intros H1. rewrite (or_else_unset _ _ H1).
    split; [intros n H Hn; now apply or_else_set |].
    intros H2. rewrite (or_else_unset _ _ H2).
    split; [intros n H Hn; now apply or_else_set |].
    intros H3. rewrite (or_else_unset _ _ H3).
    split; [intros n H Hn; now apply or_else_set |].
    intros H4. rewrite (or_else_unset _ _ H4).
    split; [intros n H Hn; now apply or_else_set |].
    intros H5. now rewrite (or_else_unset _ _ H5).
  - intros value tr. split; [reflexivity |]. cbn.
    apply current_connection_chain.
Qed.

(** ** The life cycle on the sample environment *)

(** Connecting with a connection string that resolves to workspace [W1]
    under tenant [T1], with a schema request answered by 404: the schema is
    empty, the driver is connected, and a query without [query_source]
    returns the rows and columns of the service with the status of one
    table. *)
Lemma connect_then_query_example :
  exists w1 w2,
    connect sample_env (ConnStr "connection-to-W1") ∅ new_world
      = (Ret true, w1) /\
    _connected (self w1) = true /\
    _schema (self w1) = [] /\
    _workspace_id (self w1) = Some "W1" /\
    _az_tenant_id (self w1) = PStr "T1" /\
    existsb (fun ev => match ev with EvHttpGet _ => true | _ => false end)
            (trace w1) = true /\
    query_with_results sample_env "SecurityAlert | take 1" ∅ w1
      = (Ret ({| df_rows := rows sample_table;
                 df_columns := columns sample_table |},
              {| status := "SUCCESS"; tables := 1%nat; result := None |}),
         w2) /\
    fst (query sample_env "SecurityAlert | take 1" None ∅ w1)
      = Ret {| df_rows := rows sample_table;
               df_columns := columns sample_table |}.
Proof.
  eexists _, _.
  split; [vm_compute; reflexivity |].
  repeat split; vm_compute; reflexivity.
Qed.

(** A connection string that cannot be parsed: [connect] raises before
    any call leaves the process, and a query afterwards is refused. *)
Lemma connect_failure_example :
  exists e w1,
    connect sample_env (ConnStr "not a connection string") ∅ new_world
      = (Raise e, w1) /\
    exn_class e = MsticpyKqlConnectionError /\
    exn_title e = Some "No connection details" /\
    _connected (self w1) = false /\
    trace w1 = [] /\
    raises (fst (query_with_results sample_env "SecurityAlert" ∅ w1))
           MsticpyNotConnectedError.
Proof.
  eexists _, _.
  split; [vm_compute; reflexivity |].
  repeat split; try (vm_compute; reflexivity).
  eexists. split; vm_compute; reflexivity.
Qed.

(** * Further properties of the driver *)

(** ** What a computation does to the whole world *)

Section WPreserves.

Context (R : relation world) `{!PreOrder R}.

Lemma wpreserves_ret {A} (a : A) : wpreserves R (mret a).
Proof. intros w. reflexivity. Qed.

Lemma wpreserves_raise {A} (e : exn) : wpreserves R (@raise world A e).
Proof. intros w. reflexivity. Qed.

Lemma wpreserves_lift {A} (o : outcome A) : wpreserves R (lift o).
Proof. intros w. reflexivity. Qed.

Lemma wpreserves_get_self : wpreserves R get_self.
Proof. intros w. reflexivity. Qed.

Lemma wpreserves_bind {A B} (m : M world A) (k : A -> M world B) :
  wpreserves R m -> (forall a, wpreserves R (k a)) -> wpreserves R (m ≫= k).
Proof.
  intros Hm Hk w. unfold mbind, M_bind.
  specialize (Hm w). destruct (m w) as [[a | e] w1]; cbn in *.
  - etransitivity; [exact Hm | apply Hk].
  - exact Hm.
Qed.

End WPreserves.

#[global] Instance same_trace_preorder : PreOrder same_trace.
Proof.
  split.
  - intros w. reflexivity.
  - intros w1 w2 w3 H1 H2. unfold same_trace in *. congruence.
Qed.

Lemma same_trace_update (f : driver -> driver) :
  wpreserves same_trace (update_self f).
Proof. intros w. reflexivity. Qed.

Ltac silent_step :=
  match goal with
  | |- wpreserves _ (mret _) => apply wpreserves_ret; tc_solve
  | |- wpreserves _ (raise _) => apply wpreserves_raise; tc_solve
  | |- wpreserves _ (lift _) => apply wpreserves_lift; tc_solve
  | |- wpreserves _ get_self => apply wpreserves_get_self; tc_solve
  | |- wpreserves same_trace (update_self _) => apply same_trace_update
  | |- wpreserves _ (_ ≫= _) =>
      apply wpreserves_bind; [tc_solve | | intros ?]
  | |- wpreserves _ (if ?b then _ else _) => destruct b
  | |- wpreserves _ (match ?x with _ => _ end) => destruct x
  end.

Ltac silent := cbv zeta; repeat silent_step.

(** ** Workspace resolution stays inside the process *)

Lemma _get_workspaces_by_id_silent (workspace_ids : pyval) :
  wpreserves same_trace (_get_workspaces_by_id workspace_ids).
Proof. unfold _get_workspaces_by_id. silent. Qed.

Lemma _get_workspaces_by_name_silent (E : Env) (workspaces : pyval) :
  wpreserves same_trace (_get_workspaces_by_name E workspaces).
Proof. unfold _get_workspaces_by_name. silent. Qed.

Lemma _get_workspaces_silent (E : Env) (c : connection_arg)
    (kwargs : gmap string pyval) :
  wpreserves same_trace (_get_workspaces E c kwargs).
Proof.
  unfold _get_workspaces. cbv zeta.
  silent_step; [silent |].
  destruct (truthy _); [apply _get_workspaces_by_name_silent |].
  destruct (truthy _); [apply _get_workspaces_by_id_silent |].
  silent.
Qed.

Lemma _get_workspace_settings_args_silent (E : Env) :
  wpreserves same_trace (_get_workspace_settings_args E).
Proof. unfold _get_workspace_settings_args. silent. Qed.

Lemma _get_workspace_settings_args_self (E : Env) :
  preserves eq (_get_workspace_settings_args E).
Proof. unfold _get_workspace_settings_args. preserves_flags. Qed.

(** X1. Workspace resolution, by name list, by ID list or for a single
    workspace, and whether it returns or raises, adds nothing to the trace:
    it makes no network call, prints nothing and issues no
    [warnings.warn].  (What it writes to the log, the two [logger.warning]
    records of a failing single-workspace resolution among it, is not part
    of the trace.) *)
Theorem workspace_resolution_is_local
    (E : Env) (connection_str : connection_arg) (kwargs : gmap string pyval)
    (w : world) :
  trace (snd (_get_workspaces E connection_str kwargs w)) = trace w /\
  (forall workspaces,
     trace (snd (_get_workspaces_by_name E workspaces w)) = trace w) /\
  (forall workspace_ids,
     trace (snd (_get_workspaces_by_id workspace_ids w)) = trace w).
Proof.
  split; [apply _get_workspaces_silent |].
  split; intros v.
  - apply _get_workspaces_by_name_silent.
  - apply _get_workspaces_by_id_silent.
Qed.

(** ** The steps of connect *)

Lemma popped_proxies (kwargs : gmap string pyval) :
  popped kwargs !! "proxies" = None.
Proof. unfold popped. apply lookup_delete_eq. Qed.

(** [connect] is the preparation of the driver, then workspace
    resolution, then the remaining steps. *)
Lemma connect_steps (E : Env) (connection_str : connection_arg)
    (kwargs : gmap string pyval) (w : world) :
  connect E connection_str kwargs w =
    (_get_workspaces E connection_str (popped kwargs);;
     connect_after_resolution E kwargs) (before_resolution kwargs w).
Proof.
  unfold connect, _create_query_client, connect_after_resolution,
    connect_after_client, before_resolution, connect_args_of, auth_types_of.
  cbv zeta. fold (popped kwargs).
  unfold mbind, M_bind, update_self, modify, get_self, emit, lift, mret,
    M_ret.
  cbn [self trace].
  rewrite popped_proxies.
  rewrite !lookup_delete_ne by discriminate.
  destruct (_get_workspaces E connection_str (popped kwargs) _)
    as [[[] | e] w1]; [| reflexivity].
  destruct (_get_workspace_settings_args E w1) as [[settings | e] w2];
    [| reflexivity].
  destruct (az_connect E _) as [credentials | e]; reflexivity.
Qed.

(** ** What a successful workspace resolution leaves behind *)

Lemma remove_dups_single {A} `{EqDecision A} (l : list A) (x y : A) :
  (1 <? length (remove_dups l))%nat = false -> x ∈ l -> y ∈ l -> x = y.
Proof.
  intros Hlen Hx Hy.
  destruct (decide (x = y)) as [| Hne]; [assumption |].
  rewrite (two_tenants_counted l x y Hx Hy Hne) in Hlen. discriminate.
Qed.

Lemma workspace_configs_of_keys (E : Env) (names : list pyval) :
  forall acc cfgs,
    workspace_configs_of E names acc = Ret cfgs ->
    NoDup (map fst acc) ->
    NoDup (map fst cfgs) /\
    (length cfgs <= length acc + length names)%nat /\
    (length acc <= length cfgs)%nat.
Proof.
  induction names as [| name names IH]; intros acc cfgs H Hnd; cbn in H.
  - injection H as <-. repeat split; [assumption | lia | lia].
  - destruct (WorkspaceConfig_ctor E name) as [c |]; [| discriminate].
    cbn in H.
    destruct (conf_getitem c CONF_WS_ID) as [k |]; [| discriminate].
    cbn in H.
    destruct (conf_getitem c CONF_TENANT_ID) as [v |]; [| discriminate].
    cbn in H.
    destruct (IH _ _ H (okey_set_NoDup k v acc Hnd)) as (H1 & H2 & H3).
    pose proof (okey_set_length k v acc) as Hlen.
    cbn. repeat split; [assumption | lia | lia].
Qed.

Lemma mapM_id_Some {A} (l : list (option A)) (keys : list A) :
  mapM id l = Some keys -> l = map Some keys.
Proof.
  intros H. apply mapM_Some in H.
  induction H as [| x y l k Hxy _ IH]; [reflexivity |].
  cbn in *. now rewrite Hxy, IH.
Qed.

(** X2. When resolution by name list returns, every key of the resolved
    dict is a string, and the stored workspace IDs are those keys, once
    each, in an order that is left open: not empty, pairwise different and
    no more than the names given.  The stored tenant is the one tenant
    value that every entry of the dict carries, a string or [None]. *)
Theorem _get_workspaces_by_name_result
    (E : Env) (workspaces : pyval) (w w' : world) :
  _get_workspaces_by_name E workspaces w = (Ret tt, w') ->
  exists names workspace_configs keys tenant,
    py_iter workspaces = Ret names /\
    workspace_configs_of E names [] = Ret workspace_configs /\
    map fst workspace_configs = map Some keys /\
    _workspace_ids (self w') ≡ₚ keys /\
    _workspace_ids (self w') <> [] /\
    NoDup (_workspace_ids (self w')) /\
    (length (_workspace_ids (self w')) <= length names)%nat /\
    _az_tenant_id (self w') = of_str_or_none tenant /\
    Forall (fun entry => snd entry = tenant) workspace_configs.
Proof.
  unfold _get_workspaces_by_name, mbind, M_bind, lift.
  destruct (py_iter workspaces) as [names | e]; [| discriminate].
  destruct (workspace_configs_of E names []) as [cfgs | e] eqn:Hcfgs;
    [| discriminate].
  destruct (1 <? length (remove_dups (map snd cfgs)))%nat eqn:Hlen;
    [discriminate |].
  destruct cfgs as [| [k t] cfgs]; [discriminate |].
  cbn [map snd fst]. unfold update_self, modify.
  destruct (mapM id (k :: map fst cfgs)) as [keys |] eqn:Hkeys;
    [| discriminate].
  cbn. intros [= <-]. cbn.
  destruct (workspace_configs_of_keys E names [] _ Hcfgs (NoDup_nil_2))
    as (Hnd & Hle & _).
  apply mapM_id_Some in Hkeys.
  assert (Hndk : NoDup keys).
  { apply (NoDup_fmap_1 Some). change (NoDup (map Some keys)).
    rewrite <- Hkeys. exact Hnd. }
  pose proof (list_of_set_perm E keys Hndk) as Hperm.
  assert (Hlk : length keys = S (length cfgs)).
  { apply (f_equal length) in Hkeys. cbn in Hkeys.
    rewrite !length_map in Hkeys. congruence. }
  exists names, ((k, t) :: cfgs), keys, t.
  split; [reflexivity |]. split; [exact Hcfgs |].
  split; [exact Hkeys |]. split; [exact Hperm |].
  split.
  { intros Hnil. rewrite Hnil in Hperm.
    apply Permutation_length in Hperm. cbn in Hperm. lia. }
  split; [now rewrite Hperm |].
  split.
  { rewrite (Permutation_length Hperm). cbn in Hle. lia. }
  split; [reflexivity |].
  apply Forall_forall. intros [k' t'] Hin. cbn.
  apply (remove_dups_single _ t' t Hlen).
  - apply list_elem_of_fmap. exists (k', t'). auto.
  - cbn. left.
Qed.

Lemma _get_workspaces_by_name_result_witness :
  let w' :=
    {| self := set_workspace_ids ["W0"]
                 (set_az_tenant_id (PStr "T0") (self new_world));
       trace := [] |} in
  _get_workspaces_by_name sample_env (PList [PStr "C"; PStr "D"]) new_world
    = (Ret tt, w') /\
  exists names workspace_configs keys tenant,
    py_iter (PList [PStr "C"; PStr "D"]) = Ret names /\
    workspace_configs_of sample_env names [] = Ret workspace_configs /\
    map fst workspace_configs = map Some keys /\
    _workspace_ids (self w') ≡ₚ keys /\
    _workspace_ids (self w') <> [] /\
    NoDup (_workspace_ids (self w')) /\
    (length (_workspace_ids (self w')) <= length names)%nat /\
    _az_tenant_id (self w') = of_str_or_none tenant /\
    Forall (fun entry => snd entry = tenant) workspace_configs.
Proof.
  cbv zeta.
  assert (H : _get_workspaces_by_name sample_env
                (PList [PStr "C"; PStr "D"]) new_world
              = (Ret tt,
                 {| self := set_workspace_ids ["W0"]
                              (set_az_tenant_id (PStr "T0") (self new_world));
                    trace := [] |}))
    by (vm_compute; reflexivity).
  split; [exact H |].
  exact (_get_workspaces_by_name_result _ _ _ _ H).
Defined.

(** Resolution of a single workspace, read off [_get_workspaces]: the
    config it settles on. *)
Lemma _get_workspaces_single_result
    (E : Env) (connection_str : connection_arg) (kwargs : gmap string pyval)
    (w w' : world) :
  truthy (default PNone (kwargs !! "workspaces")) = false ->
  truthy (default PNone (kwargs !! "workspace_ids")) = false ->
  _get_workspaces E connection_str kwargs w = (Ret tt, w') ->
  exists ws_config workspace tenant,
    _ws_config (self w') = Some ws_config /\
    workspace_id ws_config = Val workspace /\
    tenant_id ws_config = Val tenant /\
    _workspace_id (self w') = Some workspace /\
    _az_tenant_id (self w') =
      (let given := default (default PNone (kwargs !! "mp_az_tenant_id"))
                            (kwargs !! "tenant_id") in
       if truthy given then given else PStr tenant) /\
    _workspace_ids (self w') = _workspace_ids (self w) /\
    _query_client (self w') = _query_client (self w) /\
    _schema (self w') = _schema (self w).
Proof.
  intros Hws Hids.
  unfold _get_workspaces. cbv zeta.
  unfold mbind at 1, M_bind at 1. cbn [update_self modify].
  rewrite Hws, Hids. cbv zeta.
  unfold mbind at 1, M_bind at 1. cbn [get_self self].
  set (given := default (default PNone (kwargs !! "mp_az_tenant_id"))
                        (kwargs !! "tenant_id")).
  set (w0 := {| self := set_az_tenant_id given (self w); trace := trace w |}).
  unfold mbind at 1, M_bind at 1.
  match goal with
  | |- context [let (o, s') := ?m w0 in _] =>
      assert (Hm : self (snd (m w0)) = self w0 \/
                   exists s, self (snd (m w0))
                             = set_def_connection_str (Some s) (self w0));
      [| destruct (m w0) as [[cfg | e] w1] eqn:Hcfg]
  end.
  { destruct (connection_or_default connection_str
                (_def_connection_str (set_az_tenant_id given (self w))));
      cbn.
    - unfold mbind, M_bind, lift.
      destruct (WorkspaceConfig_ctor E _); cbn; auto.
    - destruct (truthy (default PNone (kwargs !! "workspace")));
        unfold mbind, M_bind, lift, update_self, modify.
      + destruct (WorkspaceConfig_ctor E _); cbn; auto.
      + cbn. destruct (from_connection_string E s) as [c0 | e0]; cbn.
        * right. eauto.
        * destruct (exn_class e0); cbn; right; eauto.
    - destruct (truthy (default PNone (kwargs !! "workspace")));
        unfold mbind, M_bind, lift.
      + destruct (WorkspaceConfig_ctor E _); cbn; auto.
      + destruct (conf_getattr (workspace_id c)); cbn; auto. }
  2: { discriminate. }
  cbn in Hm.
  destruct cfg as [cfg |]; [| discriminate].
  destruct (workspace_id cfg) as [| | workspace] eqn:Hw;
    [unfold mbind, M_bind, lift; cbn; discriminate
    | unfold mbind, M_bind, lift; cbn; discriminate |].
  destruct (tenant_id cfg) as [| | tenant] eqn:Ht;
    [unfold mbind, M_bind, lift; cbn; discriminate
    | unfold mbind, M_bind, lift; cbn; discriminate |].
  unfold mbind, M_bind, update_self, modify, get_self, lift, conf_contains,
    conf_getitem.
  cbn. rewrite ?Ht, ?Hw. cbn.
  assert (Hgiven : _az_tenant_id (self w1) = given)
    by (destruct Hm as [-> | [s ->]]; reflexivity).
  assert (Hids' : _workspace_ids (self w1) = _workspace_ids (self w))
    by (destruct Hm as [-> | [s ->]]; reflexivity).
  assert (Hq : _query_client (self w1) = _query_client (self w))
    by (destruct Hm as [-> | [s ->]]; reflexivity).
  assert (Hs : _schema (self w1) = _schema (self w))
    by (destruct Hm as [-> | [s ->]]; reflexivity).
  destruct (default PNone (kwargs !! "workspace")) as [| | | ws_name | | | |];
    try (destruct (String.eqb ws_name ""));
    cbn; rewrite ?Hw; cbn; rewrite ?Hgiven;
    destruct (truthy given) eqn:Hg; cbn; rewrite ?Ht; cbn;
    intros [= <-]; cbn;
    exists cfg, workspace, tenant; repeat split; assumption.
Qed.

(** After a successful resolution that is not by a name list, the stored
    tenant is never [None]. *)
Lemma _get_workspaces_tenant
    (E : Env) (connection_str : connection_arg) (kwargs : gmap string pyval)
    (w w' : world) :
  truthy (default PNone (kwargs !! "workspaces")) = false ->
  _get_workspaces E connection_str kwargs w = (Ret tt, w') ->
  _az_tenant_id (self w') <> PNone.
Proof.
  intros Hws H.
  destruct (truthy (default PNone (kwargs !! "workspace_ids"))) eqn:Hids.
  - unfold _get_workspaces in H. cbv zeta in H.
    unfold mbind at 1, M_bind at 1 in H. cbn [update_self modify] in H.
    rewrite Hws, Hids in H.
    unfold _get_workspaces_by_id, mbind, M_bind, get_self, lift,
      update_self, modify in H.
    cbn in H.
    destruct (truthy (default (default PNone (kwargs !! "mp_az_tenant_id"))
                        (kwargs !! "tenant_id"))) eqn:Ht;
      [| discriminate].
    cbn in H.
    destruct (as_str_list _) as [ids |]; [| discriminate].
    injection H as <-. cbn. intros Hn. rewrite Hn in Ht. discriminate.
  - destruct (_get_workspaces_single_result E connection_str kwargs w w'
                Hws Hids H) as (c & ws & t & _ & _ & _ & _ & -> & _).
    cbv zeta.
    destruct (truthy (default (default PNone (kwargs !! "mp_az_tenant_id"))
                        (kwargs !! "tenant_id"))) eqn:Ht.
    + intros Hn. rewrite Hn in Ht. discriminate.
    + discriminate.
Qed.

(** X3. When resolution of a single workspace returns (no [workspaces] and
    no [workspace_ids] given), the driver holds a config with a workspace ID
    and a tenant ID, that workspace ID as [_workspace_id], and as tenant the
    one given by the caller if it is not empty and the one of the config
    otherwise.  The workspace-ID list is left as it was: a list remaining
    from an earlier [connect] whose first entry is not empty keeps being
    the target of queries, and only with an empty list is the resolved
    workspace the target. *)
Theorem single_workspace_resolution
    (E : Env) (connection_str : connection_arg) (kwargs : gmap string pyval)
    (w w' : world) :
  truthy (default PNone (kwargs !! "workspaces")) = false ->
  truthy (default PNone (kwargs !! "workspace_ids")) = false ->
  _get_workspaces E connection_str kwargs w = (Ret tt, w') ->
  exists ws_config workspace tenant,
    _ws_config (self w') = Some ws_config /\
    workspace_id ws_config = Val workspace /\
    tenant_id ws_config = Val tenant /\
    _workspace_id (self w') = Some workspace /\
    _az_tenant_id (self w') =
      (let given := default (default PNone (kwargs !! "mp_az_tenant_id"))
                            (kwargs !! "tenant_id") in
       if truthy given then given else PStr tenant) /\
    _workspace_ids (self w') = _workspace_ids (self w) /\
    (forall first,
       head (_workspace_ids (self w)) = Some first -> first <> "" ->
       primary_workspace (self w') = Some first) /\
    (_workspace_ids (self w) = [] ->
     primary_workspace (self w') = Some workspace).
Proof.
  intros Hws Hids H.
  destruct (_get_workspaces_single_result E connection_str kwargs w w'
              Hws Hids H)
    as (cfg & workspace & tenant & H1 & H2 & H3 & H4 & H5 & H6 & _).
  exists cfg, workspace, tenant.
  repeat (split; [assumption |]).
  unfold primary_workspace. rewrite H6, H4. split.
  - intros first Hfirst Hne. rewrite Hfirst. unfold str_or, str_truthy.
    destruct (String.eqb_spec first ""); [contradiction | reflexivity].
  - intros ->. reflexivity.
Qed.

Lemma single_workspace_resolution_witness :
  truthy (default PNone ((∅ : gmap string pyval) !! "workspaces")) = false /\
  truthy (default PNone ((∅ : gmap string pyval) !! "workspace_ids")) = false /\
  (exists w',
     _get_workspaces sample_env ConnNone ∅ stale_world = (Ret tt, w') /\
     _workspace_id (self w') = Some "W0" /\
     primary_workspace (self w') = Some "OLD1").
Proof.
  assert (H1 : truthy (default PNone
                         ((∅ : gmap string pyval) !! "workspaces")) = false)
    by reflexivity.
  assert (H2 : truthy (default PNone
                         ((∅ : gmap string pyval) !! "workspace_ids")) = false)
    by reflexivity.
  split; [exact H1 |]. split; [exact H2 |].
  assert (H : _get_workspaces sample_env ConnNone ∅ stale_world
              = (Ret tt, snd (_get_workspaces sample_env ConnNone ∅
                                stale_world)))
    by (vm_compute; reflexivity).
  eexists. split; [exact H |].
  destruct (single_workspace_resolution sample_env ConnNone ∅ stale_world _
              H1 H2 H)
    as (cfg & workspace & tenant & _ & _ & _ & _ & _ & _ & H7 & _).
  split.
  - vm_compute. reflexivity.
  - apply (H7 "OLD1"); [reflexivity | discriminate].
Defined.

(** ** The trace only grows *)

#[global] Instance trace_grows_preorder : PreOrder trace_grows.
Proof.
  split.
  - intros w. exists []. now rewrite app_nil_r.
  - intros w1 w2 w3 [l1 H1] [l2 H2]. exists (l1 ++ l2).
    now rewrite H2, H1, app_assoc.
Qed.

Lemma trace_grows_update (f : driver -> driver) :
  wpreserves trace_grows (update_self f).
Proof. intros w. exists []. cbn. now rewrite app_nil_r. Qed.

Lemma trace_grows_emit (ev : event) : wpreserves trace_grows (emit ev).
Proof. intros w. exists [ev]. reflexivity. Qed.

Ltac grows_step :=
  match goal with
  | |- wpreserves trace_grows (update_self _) => apply trace_grows_update
  | |- wpreserves trace_grows (emit _) => apply trace_grows_emit
  | |- wpreserves trace_grows (print _ _) => unfold print
  | _ => silent_step
  end.

Ltac grows := cbv zeta; repeat grows_step.

Lemma _get_schema_grows (E : Env) : wpreserves trace_grows (_get_schema E).
Proof. unfold _get_schema. grows. Qed.

Lemma connect_after_client_grows (E : Env) (kwargs : gmap string pyval)
    (client : LogsQueryClient) :
  wpreserves trace_grows (connect_after_client E kwargs client).
Proof.
  unfold connect_after_client. cbv zeta.
  repeat first [apply _get_schema_grows | grows_step].
Qed.

Lemma _get_workspace_settings_args_world (E : Env) (w : world) :
  snd (_get_workspace_settings_args E w) = w.
Proof.
  unfold _get_workspace_settings_args, mbind, M_bind, get_self, lift.
  destruct (_ws_config (self w)) as [c |]; [| reflexivity].
  destruct (negb (str_truthy (settings_path c))); reflexivity.
Qed.

(** ** connect, step by step *)

(** X4. Whatever makes workspace resolution fail inside [connect], the
    call raises that very exception, nothing has been added to the trace
    (no credential request, no HTTP request), and the driver is left
    disconnected. *)
Theorem connect_stops_at_resolution_failure
    (E : Env) (connection_str : connection_arg) (kwargs : gmap string pyval)
    (w w1 : world) (e : exn) :
  _get_workspaces E connection_str (popped kwargs) (before_resolution kwargs w)
    = (Raise e, w1) ->
  connect E connection_str kwargs w = (Raise e, w1) /\
  trace w1 = trace w /\
  _connected (self w1) = false.
Proof.
  intros H. rewrite connect_steps.
  split; [now apply bind_raise |].
  pose proof (_get_workspaces_silent E connection_str (popped kwargs)
                (before_resolution kwargs w)) as Ht.
  pose proof (_get_workspaces_flags E connection_str (popped kwargs)
                (before_resolution kwargs w)) as [Hc _].
  rewrite H in Ht, Hc. cbn in Ht, Hc. split; assumption.
Qed.

Lemma connect_stops_at_resolution_failure_witness :
  exists e w1,
    _get_workspaces sample_env (ConnStr "not a connection string") (popped ∅)
      (before_resolution ∅ new_world) = (Raise e, w1) /\
    connect sample_env (ConnStr "not a connection string") ∅ new_world
      = (Raise e, w1) /\
    trace w1 = trace new_world /\
    _connected (self w1) = false.
Proof.
  eexists _, _.
  assert (H : _get_workspaces sample_env (ConnStr "not a connection string")
                (popped ∅) (before_resolution ∅ new_world)
              = (Raise (no_connection_details
                          ["A workspace name, config or connection string is needed to connect to a workspace."]),
                 snd (_get_workspaces sample_env
                        (ConnStr "not a connection string") (popped ∅)
                        (before_resolution ∅ new_world))))
    by (vm_compute; reflexivity).
  split; [exact H |].
  exact (connect_stops_at_resolution_failure _ _ _ _ _ _ H).
Defined.

(** X5. Once workspace resolution has succeeded inside [connect], the next
    event is the credential request.  Its arguments carry the resolved
    tenant under [tenant_id] and the normalised authentication types under
    [auth_methods], whatever the caller or the settings say under these two
    names; unless the workspaces were given as a name list (whose configs
    may all have the tenant [None]), that tenant is not [None].  Every
    other argument of the caller
    except the consumed [auth_types], [timeout] and [proxies] is passed on
    and wins over the protected setting of the same name; names the caller
    did not give come from the protected settings. *)
Theorem connect_credential_request
    (E : Env) (connection_str : connection_arg) (kwargs : gmap string pyval)
    (w w1 : world) (settings : gmap string pyval) :
  _get_workspaces E connection_str (popped kwargs) (before_resolution kwargs w)
    = (Ret tt, w1) ->
  fst (_get_workspace_settings_args E w1) = Ret settings ->
  let args := connect_args_of kwargs settings (self w1) in
  (exists rest,
     trace (snd (connect E connection_str kwargs w))
       = trace w ++ EvAzConnect args :: rest) /\
  args !! "tenant_id" = Some (_az_tenant_id (self w1)) /\
  (truthy (default PNone (kwargs !! "workspaces")) = false ->
   _az_tenant_id (self w1) <> PNone) /\
  args !! "auth_methods" = Some (auth_types_of kwargs) /\
  (forall k,
     k <> "tenant_id" -> k <> "auth_methods" ->
     k <> "auth_types" -> k <> "timeout" -> k <> "proxies" ->
     args !! k = match kwargs !! k with
                 | Some v => Some v
                 | None => settings !! k
                 end) /\
  (forall k,
     k = "auth_types" \/ k = "timeout" \/ k = "proxies" ->
     args !! k = settings !! k).
Proof.
  intros Hres Hset args.
  split; [| split; [| split; [| split; [| split]]]].
  - rewrite connect_steps, (bind_ret _ _ _ _ _ Hres).
    unfold connect_after_resolution.
    pose proof (_get_workspace_settings_args_world E w1) as Hw.
    destruct (_get_workspace_settings_args E w1) as [o w2] eqn:Hs.
    cbn in Hset, Hw. subst o w2.
    rewrite (bind_ret _ _ _ _ _ Hs).
    unfold mbind at 1, M_bind at 1. cbn [get_self].
    unfold mbind at 1, M_bind at 1. cbn [emit modify].
    fold args.
    pose proof (_get_workspaces_silent E connection_str (popped kwargs)
                  (before_resolution kwargs w)) as Ht.
    rewrite Hres in Ht. cbn in Ht. unfold same_trace in Ht. cbn in Ht.
    unfold mbind, M_bind, lift.
    destruct (az_connect E args) as [credentials | e]; cbn [snd trace].
    + match goal with
      | |- context [connect_after_client E kwargs ?c ?w0] =>
          destruct (connect_after_client_grows E kwargs c w0) as [evs Hevs]
      end.
      cbn [trace] in Hevs. rewrite Hevs, Ht, <- app_assoc. eauto.
    + rewrite Ht. eauto.
  - unfold args, connect_args_of. apply lookup_insert_eq.
  - intros Hws. eapply _get_workspaces_tenant; [| exact Hres].
    unfold popped. rewrite !lookup_delete_ne by discriminate. exact Hws.
  - unfold args, connect_args_of.
    rewrite lookup_insert_ne by discriminate. apply lookup_insert_eq.
  - intros k H1 H2 H3 H4 H5. unfold args, connect_args_of.
    rewrite !lookup_insert_ne by congruence.
    rewrite lookup_union. unfold popped.
    rewrite !lookup_delete_ne by congruence.
    destruct (kwargs !! k), (settings !! k); reflexivity.
  - intros k Hk. unfold args, connect_args_of.
    rewrite !lookup_insert_ne
      by (destruct Hk as [-> | [-> | ->]]; discriminate).
    rewrite lookup_union. unfold popped.
    destruct Hk as [-> | [-> | ->]].
    + rewrite !lookup_delete_ne by discriminate. rewrite lookup_delete_eq.
      destruct (settings !! "auth_types"); reflexivity.
    + rewrite lookup_delete_ne by discriminate. rewrite lookup_delete_eq.
      destruct (settings !! "timeout"); reflexivity.
    + rewrite lookup_delete_eq.
      destruct (settings !! "proxies"); reflexivity.
Qed.

Lemma connect_credential_request_witness :
  let kwargs : gmap string pyval := {[ "client_id" := PStr "app-1" ]} in
  let w1 := snd (_get_workspaces sample_env ConnNone (popped kwargs)
                   (before_resolution kwargs new_world)) in
  _get_workspaces sample_env ConnNone (popped kwargs)
    (before_resolution kwargs new_world) = (Ret tt, w1) /\
  fst (_get_workspace_settings_args sample_env w1) = Ret ∅ /\
  connect_args_of kwargs ∅ (self w1) !! "tenant_id" = Some (PStr "T0") /\
  connect_args_of kwargs ∅ (self w1) !! "client_id" = Some (PStr "app-1").
Proof.
  cbv zeta.
  assert (H1 : _get_workspaces sample_env ConnNone
                 (popped {[ "client_id" := PStr "app-1" ]})
                 (before_resolution {[ "client_id" := PStr "app-1" ]}
                    new_world)
               = (Ret tt,
                  snd (_get_workspaces sample_env ConnNone
                         (popped {[ "client_id" := PStr "app-1" ]})
                         (before_resolution {[ "client_id" := PStr "app-1" ]}
                            new_world))))
    by (vm_compute; reflexivity).
  assert (H2 : fst (_get_workspace_settings_args sample_env
                      (snd (_get_workspaces sample_env ConnNone
                              (popped {[ "client_id" := PStr "app-1" ]})
                              (before_resolution
                                 {[ "client_id" := PStr "app-1" ]}
                                 new_world))))
               = Ret ∅)
    by (vm_compute; reflexivity).
  split; [exact H1 |]. split; [exact H2 |].
  destruct (connect_credential_request sample_env ConnNone _ new_world _ ∅
              H1 H2) as (_ & Ht & _ & _ & Hk & _).
  split.
  - rewrite Ht. vm_compute. reflexivity.
  - rewrite Hk by discriminate. reflexivity.
Defined.

(** X6. When the schema step of [connect] raises (the credential request,
    the token request, the HTTP request or the decoding of its answer), so
    does [connect], with the same exception: the query client of this call
    is already stored, but the connected flag is false. *)
Theorem connect_stops_at_schema_failure
    (E : Env) (connection_str : connection_arg) (kwargs : gmap string pyval)
    (w w1 w2 : world) (client : LogsQueryClient) (e : exn) :
  _create_query_client E connection_str kwargs
    {| self := set_connected false (self w); trace := trace w |}
    = (Ret client, w1) ->
  _try_get_schema (self w) = true ->
  _get_schema E (before_schema kwargs client w1) = (Raise e, w2) ->
  connect E connection_str kwargs w = (Raise e, w2) /\
  _connected (self w2) = false /\
  _query_client (self w2) = Some client.
Proof.
  intros Hclient Htry Hschema.
  pose proof (_create_query_client_flags E connection_str kwargs
                {| self := set_connected false (self w); trace := trace w |})
    as [Hc Ht].
  rewrite Hclient in Hc, Ht. cbn in Hc, Ht.
  pose proof (_get_schema_self E (before_schema kwargs client w1)) as Hs.
  rewrite Hschema in Hs. cbn in Hs.
  split; [| split; rewrite <- Hs; [exact Hc | reflexivity]].
  unfold connect.
  unfold mbind at 1, M_bind at 1. cbn [update_self modify].
  rewrite (bind_ret _ _ _ _ _ Hclient).
  unfold mbind at 1, M_bind at 1. cbn [update_self modify].
  unfold mbind at 1, M_bind at 1. cbn [get_self self].
  unfold mbind at 1, M_bind at 1. cbn [update_self modify self trace].
  cbn [set_query_client _try_get_schema _fail_on_partial].
  rewrite Ht, Htry.
  fold (set_query_client (Some client) (self w1)).
  change {| self := set_fail_on_partial _ _; trace := trace w1 |}
    with (before_schema kwargs client w1).
  unfold mbind, M_bind. now rewrite Hschema.
Qed.

Lemma connect_stops_at_schema_failure_witness :
  let start := {| self := set_connected false (self new_world);
                  trace := trace new_world |} in
  let w1 := snd (_create_query_client token_down_env
                   (ConnStr "connection-to-W1") ∅ start) in
  let w2 := snd (_get_schema token_down_env (before_schema ∅ sample_client w1)) in
  let e := mk_exn (OtherException "ClientAuthenticationError") [] None in
  _create_query_client token_down_env (ConnStr "connection-to-W1") ∅ start
    = (Ret sample_client, w1) /\
  _try_get_schema (self new_world) = true /\
  _get_schema token_down_env (before_schema ∅ sample_client w1)
    = (Raise e, w2) /\
  connect token_down_env (ConnStr "connection-to-W1") ∅ new_world
    = (Raise e, w2) /\
  _connected (self w2) = false /\
  _query_client (self w2) = Some sample_client.
Proof.
  cbv zeta.
  assert (H1 : _create_query_client token_down_env
                 (ConnStr "connection-to-W1") ∅
                 {| self := set_connected false (self new_world);
                    trace := trace new_world |}
               = (Ret sample_client,
                  snd (_create_query_client token_down_env
                         (ConnStr "connection-to-W1") ∅
                         {| self := set_connected false (self new_world);
                            trace := trace new_world |})))
    by (vm_compute; reflexivity).
  assert (H2 : _try_get_schema (self new_world) = true) by reflexivity.
  assert (H3 : _get_schema token_down_env
                 (before_schema ∅ sample_client
                    (snd (_create_query_client token_down_env
                            (ConnStr "connection-to-W1") ∅
                            {| self := set_connected false (self new_world);
                               trace := trace new_world |})))
               = (Raise (mk_exn (OtherException "ClientAuthenticationError")
                           [] None),
                  snd (_get_schema token_down_env
                         (before_schema ∅ sample_client
                            (snd (_create_query_client token_down_env
                                    (ConnStr "connection-to-W1") ∅
                                    {| self := set_connected false
                                                 (self new_world);
                                       trace := trace new_world |}))))))
    by (vm_compute; reflexivity).
  split; [exact H1 |]. split; [exact H2 |]. split; [exact H3 |].
  exact (connect_stops_at_schema_failure _ _ _ _ _ _ _ _ H1 H2 H3).
Defined.

(** ** Fetching the schema *)

(** X7. [_get_schema] gives the empty schema without any call leaving the
    process when there is no workspace config; when the workspace name of
    the config is [None], empty or [Default]; when the config has no
    workspace name at all but a workspace key; or when it has a workspace
    name and its subscription ID or resource group is not there at all.  A
    subscription ID or resource group that is there with the value [None]
    does not stop the request: with a workspace name that is not [Default],
    the URL is built with the text [None] in its place and the credential
    request goes out.  In every case, and whatever it returns or raises,
    [_get_schema] leaves all attributes of the driver as they are. *)
Theorem _get_schema_incomplete_config (E : Env) (w : world) :
  (_ws_config (self w) = None -> _get_schema E w = (Ret [], w)) /\
  (forall ws_config,
     _ws_config (self w) = Some ws_config ->
     workspace_name ws_config = Null \/
     workspace_name ws_config = Val "" \/
     workspace_name ws_config = Val "Default" \/
     (workspace_name ws_config = Absent /\
      workspace_key ws_config <> Absent) \/
     (workspace_name ws_config <> Absent /\
      (subscription_id ws_config = Absent \/
       resource_group ws_config = Absent)) ->
     _get_schema E w = (Ret [], w)) /\
  (forall ws_config name,
     _ws_config (self w) = Some ws_config ->
     workspace_name ws_config = Val name ->
     name <> "" -> name <> "Default" ->
     subscription_id ws_config <> Absent ->
     resource_group ws_config <> Absent ->
     exists sub_id res_group,
       conf_getattr (subscription_id ws_config) = Ret sub_id /\
       conf_getattr (resource_group ws_config) = Ret res_group /\
       format_field None = "None" /\
       format_url_tables (resource_manager E) ws_config
         = Ret (url_tables (resource_manager E) (format_field sub_id)
                  (format_field res_group) name) /\
       exists rest,
         trace (snd (_get_schema E w))
           = trace w ++
             EvAzConnect
               (<["tenant_id" := _az_tenant_id (self w)]>
                  (<["auth_methods" := _connect_auth_types (self w)]> ∅))
             :: rest) /\
  self (snd (_get_schema E w)) = self w.
Proof.
  split; [| split; [| split]].
  - intros H. unfold _get_schema, mbind, M_bind, get_self. now rewrite H.
  - intros c Hc Hcases.
    unfold _get_schema. unfold mbind at 1, M_bind at 1. cbn [get_self].
    rewrite Hc. cbv zeta.
    unfold format_url_tables, conf_getattr, mbind, M_bind, lift.
    destruct Hcases as [H | [H | [H | [[H1 H2] | [H1 H2]]]]].
    + rewrite !H. reflexivity.
    + rewrite !H. reflexivity.
    + rewrite !H. reflexivity.
    + rewrite !H1. cbn.
      destruct (workspace_key c) as [| | key]; [contradiction | reflexivity |].
      cbn.
      match goal with
      | |- context [if ?b then mret [] else _] => destruct b
      end; [reflexivity |].
      destruct (subscription_id c), (resource_group c); reflexivity.
    + destruct (workspace_name c) as [| | name];
        [contradiction | reflexivity |].
      cbn.
      match goal with
      | |- context [if ?b then mret [] else _] => destruct b
      end; [reflexivity |].
      destruct H2 as [H2 | H2]; rewrite H2.
      * reflexivity.
      * destruct (subscription_id c); reflexivity.
  - intros c name Hc Hn Hne Hne' Hsub Hgroup.
    assert (Hsub' : exists sub_id,
              conf_getattr (subscription_id c) = Ret sub_id)
      by (destruct (subscription_id c); [contradiction | |]; eexists;
          reflexivity).
    assert (Hgroup' : exists res_group,
              conf_getattr (resource_group c) = Ret res_group)
      by (destruct (resource_group c); [contradiction | |]; eexists;
          reflexivity).
    destruct Hsub' as [sub_id Hs], Hgroup' as [res_group Hg].
    assert (Hfmt : format_url_tables (resource_manager E) c
                   = Ret (url_tables (resource_manager E) (format_field sub_id)
                            (format_field res_group) name)).
    { unfold format_url_tables. rewrite Hs, Hg, Hn. reflexivity. }
    exists sub_id, res_group.
    split; [exact Hs |]. split; [exact Hg |]. split; [reflexivity |].
    split; [exact Hfmt |].
    unfold _get_schema. unfold mbind at 1, M_bind at 1. cbn [get_self].
    rewrite Hc. cbv zeta. rewrite Hfmt, Hn.
    unfold mbind at 1, M_bind at 1. cbn [lift conf_getattr conf_read].
    unfold str_truthy.
    destruct (String.eqb_spec name ""); [contradiction |].
    rewrite bool_decide_eq_false_2 by congruence.
    cbn [negb orb].
    unfold mbind, M_bind, emit, modify, lift, mret, M_ret. cbn.
    destruct (az_connect E _) as [credentials |]; cbn;
      [| rewrite <- ?app_assoc; eexists; reflexivity].
    destruct (get_token E _ _) as [token |]; cbn;
      [| rewrite <- ?app_assoc; eexists; reflexivity].
    destruct (httpx_get E _ _ _) as [response |]; cbn;
      [| rewrite <- ?app_assoc; eexists; reflexivity].
    destruct (negb (status_code response =? 200)); cbn;
      [rewrite <- ?app_assoc; eexists; reflexivity |].
    destruct (json response) as [[value |] |]; cbn;
      rewrite <- ?app_assoc; eexists; reflexivity.
  - symmetry. apply (_get_schema_self E w).
Qed.

Lemma _get_schema_incomplete_config_witness :
  let w := {| self := set_ws_config (Some (sample_config "W0" "T0"))
                        (init None ∅);
              trace := [] |} in
  _ws_config (self w) = Some (sample_config "W0" "T0") /\
  workspace_name (sample_config "W0" "T0") = Null /\
  _get_schema sample_env w = (Ret [], w).
Proof.
  cbv zeta.
  assert (H1 : _ws_config
                 (self {| self := set_ws_config
                                    (Some (sample_config "W0" "T0"))
                                    (init None ∅);
                          trace := [] |})
               = Some (sample_config "W0" "T0")) by reflexivity.
  assert (H2 : workspace_name (sample_config "W0" "T0") = Null)
    by reflexivity.
  split; [exact H1 |]. split; [exact H2 |].
  destruct (_get_schema_incomplete_config sample_env
              {| self := set_ws_config (Some (sample_config "W0" "T0"))
                           (init None ∅);
                 trace := [] |}) as (_ & H & _).
  exact (H _ H1 (or_introl H2)).
Defined.

(** X8. With a config that names the workspace (not [Default]), the
    subscription and the resource group, and collaborators that answer,
    [_get_schema] makes exactly three calls, in this order: the credential
    request with the stored authentication types and tenant, the token
    request for the management scope, and one GET of the tables URL built
    from the management endpoint, the subscription, the resource group and
    the workspace name.  Any status other than 200 gives the empty schema;
    status 200 gives the formatted tables of the answer. *)
Theorem _get_schema_request
    (E : Env) (w : world) (ws_config : WorkspaceConfig)
    (name subscription group token : string)
    (credentials : AzCredentials) (response : Response) :
  _ws_config (self w) = Some ws_config ->
  workspace_name ws_config = Val name ->
  name <> "" -> name <> "Default" ->
  subscription_id ws_config = Val subscription ->
  resource_group ws_config = Val group ->
  let args : gmap string pyval :=
    <["tenant_id" := _az_tenant_id (self w)]>
      (<["auth_methods" := _connect_auth_types (self w)]> ∅) in
  let scope := resource_manager E +:+ "/.default" in
  let url := url_tables (resource_manager E) subscription group name in
  az_connect E args = Ret credentials ->
  get_token E credentials scope = Ret token ->
  httpx_get E url token (py_or (_def_proxies (self w)) (PDict []))
    = Ret response ->
  trace (snd (_get_schema E w))
    = trace w ++ [EvAzConnect args; EvGetToken scope; EvHttpGet url] /\
  (status_code response <> 200 -> fst (_get_schema E w) = Ret []) /\
  (status_code response = 200 ->
   forall value,
     json response = Ret (Some value) ->
     fst (_get_schema E w) = Ret (_schema_format_tables value)).
Proof.
  intros Hc Hn Hne Hne' Hs Hg args scope url Haz Htok Hget.
  assert (Hrun : _get_schema E w =
            (if negb (status_code response =? 200) then mret []
             else
               tables ← lift (json response);
               match tables with
               | None => raise (mk_exn TypeError [] None)
               | Some value => mret (_schema_format_tables value)
               end)
              (add_events w [EvAzConnect args; EvGetToken scope;
                             EvHttpGet url])).
  { assert (Hfmt : format_url_tables (resource_manager E) ws_config
                   = Ret url).
    { unfold format_url_tables. rewrite Hs, Hg, Hn. reflexivity. }
    unfold _get_schema. unfold mbind at 1, M_bind at 1. cbn [get_self].
    rewrite Hc. cbv zeta. rewrite Hfmt, Hn.
    unfold mbind at 1, M_bind at 1. cbn [lift conf_getattr conf_read].
    unfold str_truthy.
    destruct (String.eqb_spec name ""); [contradiction |].
    rewrite bool_decide_eq_false_2 by congruence.
    cbn [negb orb].
    fold args scope.
    unfold mbind at 1, M_bind at 1. cbn [emit modify].
    unfold mbind at 1, M_bind at 1. cbn [lift]. rewrite Haz.
    unfold mbind at 1, M_bind at 1. cbn [emit modify self trace].
    unfold mbind at 1, M_bind at 1. cbn [lift]. rewrite Htok.
    unfold mbind at 1, M_bind at 1. cbn [emit modify self trace].
    unfold mbind at 1, M_bind at 1. cbn [lift]. rewrite Hget.
    unfold add_events. rewrite <- !app_assoc. reflexivity. }
  rewrite Hrun. split; [| split].
  - destruct (negb (status_code response =? 200)); [reflexivity |].
    unfold mbind, M_bind, lift.
    destruct (json response) as [[value |] | e]; reflexivity.
  - intros H. apply Z.eqb_neq in H. now rewrite H.
  - intros H value Hjson. apply Z.eqb_eq in H. rewrite H. cbn [negb].
    unfold mbind, M_bind, lift. now rewrite Hjson.
Qed.

Lemma _get_schema_request_witness :
  let w := {| self := set_ws_config (Some named_config) (init None ∅);
              trace := [] |} in
  let args : gmap string pyval :=
    <["tenant_id" := PNone]> (<["auth_methods" := PNone]> ∅) in
  let url :=
    url_tables "https://management.azure.com/" "S1" "RG1" "Workspace1" in
  url = "https://management.azure.com/subscriptions/S1/resourcegroups/RG1/providers/Microsoft.OperationalInsights/workspaces/Workspace1/tables?api-version=2021-12-01-preview" /\
  trace (snd (_get_schema sample_env w))
    = [EvAzConnect args;
       EvGetToken "https://management.azure.com//.default";
       EvHttpGet url] /\
  fst (_get_schema sample_env w) = Ret [].
Proof.
  cbv zeta. split; [reflexivity |].
  destruct (_get_schema_request sample_env
              {| self := set_ws_config (Some named_config) (init None ∅);
                 trace := [] |}
              named_config "Workspace1" "S1" "RG1" "token"
              {| modern := "credential" |}
              {| status_code := 404; json := Ret None |})
    as (Ht & Hs & _);
    try reflexivity; try discriminate.
  split; [exact Ht |]. apply Hs. discriminate.
Defined.

(** ** Queries and the driver *)

Lemma _get_time_span_value_self (E : Env) (kwargs : gmap string pyval) :
  preserves eq (_get_time_span_value E kwargs).
Proof. unfold _get_time_span_value. preserves_flags. Qed.

Lemma _check_table_exists_self (query_source : QuerySource) :
  preserves eq (_check_table_exists query_source).
Proof. unfold _check_table_exists. preserves_flags. Qed.

Lemma query_with_results_self (E : Env) (query_text : string)
    (kwargs : gmap string pyval) :
  preserves eq (query_with_results E query_text kwargs).
Proof.
  unfold query_with_results, _raise_query_failure, _raise_unknown_error.
  cbv zeta.
  repeat first [apply _get_time_span_value_self | preserves_step].
Qed.

Lemma _check_table_exists_world (query_source : QuerySource) (w : world) :
  snd (_check_table_exists query_source w) = w.
Proof.
  unfold _check_table_exists, mbind, M_bind, get_self, lift.
  destruct (_schema (self w)); [reflexivity |].
  destruct (as_dict _) as [d |]; [| reflexivity]. cbv zeta.
  destruct (truthy _); [| reflexivity].
  destruct (default PNone (dict_get "default" d)); try reflexivity.
  destruct (negb _); reflexivity.
Qed.

(** X9. No query changes the driver: after [query_with_results] or
    [query], whether they return or raise (not connected, unknown table,
    bad time span, service error, partial or empty result), every
    attribute is what it was, so a connected driver is still connected with
    the same client, workspaces and schema. *)
Theorem queries_leave_driver_unchanged
    (E : Env) (w : world) (query_text : string)
    (query_source : option QuerySource) (kwargs : gmap string pyval) :
  self (snd (query_with_results E query_text kwargs w)) = self w /\
  self (snd (query E query_text query_source kwargs w)) = self w.
Proof.
  split.
  - symmetry. apply (query_with_results_self E query_text kwargs w).
  - unfold query. unfold mbind at 1, M_bind at 1. cbn [get_self].
    destruct (_connected (self w)); [| reflexivity].
    destruct (_query_client (self w)); [| reflexivity].
    unfold mbind at 1, M_bind at 1.
    assert (Hcheck : exists o,
              (match query_source with
               | Some qs => _check_table_exists qs
               | None => mret tt
               end) w = (o, w)).
    { destruct query_source as [qs |]; [| eexists; reflexivity].
      pose proof (_check_table_exists_world qs w) as H.
      destruct (_check_table_exists qs w) as [o w1]. cbn in H. subst w1.
      eauto. }
    destruct Hcheck as [o ->]. destruct o as [[] | e]; [| reflexivity].
    unfold mbind, M_bind.
    pose proof (query_with_results_self E query_text kwargs w) as H.
    destruct (query_with_results E query_text kwargs w) as [[r | e] w1];
      cbn in H |- *; congruence.
Qed.

(** What a dispatched query adds to the trace. *)
Lemma query_with_results_dispatched_events
    (E : Env) (w : world) (query_text : string) (kwargs : gmap string pyval)
    (client : LogsQueryClient) (time_span_value : option (pyval * pyval)) :
  _connected (self w) = true ->
  _query_client (self w) = Some client ->
  fst (_get_time_span_value E kwargs w) = Ret time_span_value ->
  new_events w (snd (query_with_results E query_text kwargs w))
    = [dispatch_event (self w) query_text kwargs time_span_value] \/
  new_events w (snd (query_with_results E query_text kwargs w))
    = [dispatch_event (self w) query_text kwargs time_span_value;
       EvWarn "RuntimeWarning" partial_results_message].
Proof.
  intros Hc Hq Hts.
  rewrite (query_with_results_dispatch E w query_text kwargs client
             time_span_value Hc Hq Hts).
  unfold mbind, M_bind, mret, M_ret, new_events.
  destruct (service_answer E client (self w) query_text kwargs
              time_span_value)
    as [[sn tl | sn pd | r] | message | err];
    cbn - [dispatch_event].
  - destruct tl; cbn - [dispatch_event]; rewrite drop_app_length; auto.
  - destruct (truthy (effective_fail_on_partial (self w) kwargs));
      cbn - [dispatch_event].
    + rewrite drop_app_length. auto.
    + destruct pd; cbn - [dispatch_event];
        rewrite <- app_assoc, drop_app_length; auto.
  - rewrite drop_app_length. auto.
  - rewrite drop_app_length. auto.
  - rewrite drop_app_length. auto.
Qed.

(** What a call of [query_with_results] adds to the trace, in full. *)
Lemma query_with_results_events
    (E : Env) (w : world) (query_text : string) (kwargs : gmap string pyval) :
  new_events w (snd (query_with_results E query_text kwargs w)) = [] \/
  exists time_span_value,
    _connected (self w) = true /\
    is_Some (_query_client (self w)) /\
    _get_time_span_value E kwargs w = (Ret time_span_value, w) /\
    (new_events w (snd (query_with_results E query_text kwargs w))
       = [dispatch_event (self w) query_text kwargs time_span_value] \/
     new_events w (snd (query_with_results E query_text kwargs w))
       = [dispatch_event (self w) query_text kwargs time_span_value;
          EvWarn "RuntimeWarning" partial_results_message]).
Proof.
  destruct (_connected (self w)) eqn:Hc.
  2: { left. unfold query_with_results, mbind, M_bind, get_self.
       rewrite Hc. cbn. unfold new_events. apply drop_all. }
  destruct (_query_client (self w)) as [client |] eqn:Hq.
  2: { left. unfold query_with_results, mbind, M_bind, get_self.
       rewrite Hc, Hq. cbn. unfold new_events. apply drop_all. }
  pose proof (_get_time_span_value_world E kwargs w) as Hw.
  destruct (_get_time_span_value E kwargs w) as [[tsv | e] w1] eqn:Hts;
    cbn in Hw; subst w1.
  2: { left. unfold query_with_results, mbind, M_bind, get_self.
       rewrite Hc, Hq. cbn. rewrite Hts. cbn. unfold new_events.
       apply drop_all. }
  right. exists tsv. split; [reflexivity |]. split; [eauto |].
  split; [reflexivity |].
  apply (query_with_results_dispatched_events E w query_text kwargs client
           tsv Hc Hq).
  now rewrite Hts.
Qed.

Lemma network_calls_dispatch (d : driver) (query_text : string)
    (kwargs : gmap string pyval) (time_span_value : option (pyval * pyval))
    (warnings : list event) :
  Forall (fun ev => is_network_call ev = false) warnings ->
  network_calls (dispatch_event d query_text kwargs time_span_value :: warnings)
  = [dispatch_event d query_text kwargs time_span_value].
Proof.
  intros Hw. unfold network_calls.
  rewrite filter_cons_True by reflexivity. f_equal.
  induction Hw as [| ev evs Hev _ IH]; [reflexivity |].
  rewrite filter_cons_False by (rewrite Hev; discriminate). exact IH.
Qed.

(** X10. A call of [query_with_results] makes at most one network call,
    and that call is the dispatch of the given query text to the primary
    workspace with the additional workspaces and the timeout in force; it
    never asks for credentials or a token and makes no HTTP request of its
    own.  Nothing at all is sent unless the driver is connected and the
    time span could be computed. *)
Theorem query_with_results_single_dispatch
    (E : Env) (w : world) (query_text : string) (kwargs : gmap string pyval) :
  let added := new_events w (snd (query_with_results E query_text kwargs w)) in
  (length (network_calls added) <= 1)%nat /\
  (forall ev,
     ev ∈ network_calls added ->
     exists time_span_value,
       ev = EvQueryWorkspace (primary_workspace (self w)) query_text
              time_span_value
              (default (_def_timeout (self w)) (kwargs !! "timeout"))
              (additional_workspaces_of (self w)) /\
       _get_time_span_value E kwargs w = (Ret time_span_value, w) /\
       _connected (self w) = true /\
       is_Some (_query_client (self w))).
Proof.
  cbv zeta.
  destruct (query_with_results_events E w query_text kwargs)
    as [-> | (tsv & Hc & Hq & Hts & [-> | ->])].
  - split; [cbn; lia |]. intros ev Hin. inversion Hin.
  - rewrite network_calls_dispatch by constructor.
    split; [cbn; lia |]. intros ev Hin.
    apply list_elem_of_singleton in Hin. subst ev. exists tsv. auto.
  - rewrite network_calls_dispatch by (repeat constructor).
    split; [cbn; lia |]. intros ev Hin.
    apply list_elem_of_singleton in Hin. subst ev. exists tsv. auto.
Qed.

(** ** What a query gives back *)

Lemma split_char_nonempty (sep : ascii) (s : string) : split_char sep s <> [].
Proof.
  destruct s as [| c s']; cbn; [discriminate |].
  destruct (Ascii.eqb c sep); [discriminate |].
  destruct (split_char sep s'); discriminate.
Qed.

Lemma join_split_char (sep : ascii) (s : string) :
  join (String sep "") (split_char sep s) = s.
Proof.
  induction s as [| c s' IH]; [reflexivity |].
  cbn [split_char].
  destruct (Ascii.eqb c sep) eqn:Hc.
  - apply Ascii.eqb_eq in Hc. subst c.
    pose proof (split_char_nonempty sep s') as Hne.
    destruct (split_char sep s') as [| x l]; [congruence |].
    change (join (String sep "") ("" :: x :: l))
      with (String sep (join (String sep "") (x :: l))).
    now rewrite IH.
  - pose proof (split_char_nonempty sep s') as Hne.
    destruct (split_char sep s') as [| x l]; [congruence |].
    destruct l as [| y l].
    + cbn in IH |- *. now rewrite IH.
    + change (join (String sep "") (String c x :: y :: l))
        with (String c (join (String sep "") (x :: y :: l))).
      now rewrite IH.
Qed.

Lemma split_char_no_sep (sep : ascii) (s : string) :
  Forall (fun line => contains_char sep line = false) (split_char sep s).
Proof.
  induction s as [| c s' IH]; [repeat constructor |].
  cbn [split_char].
  destruct (Ascii.eqb c sep) eqn:Hc.
  - constructor; [reflexivity | exact IH].
  - destruct (split_char sep s') as [| x l].
    + constructor; [| constructor]. cbn.
      rewrite Ascii.eqb_sym, Hc. reflexivity.
    + inversion IH as [| ? ? Hx Hl]; subst.
      constructor; [| exact Hl]. cbn.
      rewrite Ascii.eqb_sym, Hc. exact Hx.
Qed.

(** X11. When the service does not answer a dispatched query with a result,
    [query_with_results] raises [MsticpyDataQueryError] whatever the class
    of the service's exception, after exactly that one dispatch.  For an
    HTTP error the arguments are the lines of the error message, none with
    a line break and joined by line breaks they give the message back,
    followed by the query text; there is always at least one line, so the
    text [Unknown query error] is never used.  For any other exception the
    arguments are a fixed first line, the exception's own arguments in
    order, and a last one that holds [str(exception)], the text that the
    class of the exception gives it. *)
Theorem query_with_results_service_failure
    (E : Env) (w : world) (query_text : string) (kwargs : gmap string pyval)
    (client : LogsQueryClient) (time_span_value : option (pyval * pyval)) :
  _connected (self w) = true ->
  _query_client (self w) = Some client ->
  fst (_get_time_span_value E kwargs w) = Ret time_span_value ->
  (forall r, service_answer E client (self w) query_text kwargs
               time_span_value <> SvcReturn r) ->
  exists e,
    fst (query_with_results E query_text kwargs w) = Raise e /\
    exn_class e = MsticpyDataQueryError /\
    new_events w (snd (query_with_results E query_text kwargs w))
      = [dispatch_event (self w) query_text kwargs time_span_value] /\
    match service_answer E client (self w) query_text kwargs
            time_span_value with
    | SvcHttpResponseError message =>
        exn_title e = Some "Query Failure" /\
        exists lines,
          exn_args e = lines ++ ["Query:" +:+ "
" +:+ query_text] /\
          lines <> [] /\
          Forall (fun line => contains_char "010" line = false) lines /\
          join "
" lines = message
    | SvcException unknown_err =>
        exn_title e = Some "connection failed" /\
        exn_args e =
          "An unknown exception was returned by the service"
          :: exn_args unknown_err
          ++ ["Full exception:" +:+ "
" +:+ exception_str E unknown_err]
    | SvcReturn _ => False
    end.
Proof.
  intros Hc Hq Ht Hfail.
  rewrite (query_with_results_dispatch E w query_text kwargs client
             time_span_value Hc Hq Ht).
  destruct (service_answer E client (self w) query_text kwargs
              time_span_value) as [r | message | err].
  - exfalso. exact (Hfail r eq_refl).
  - eexists. split; [reflexivity |]. split; [reflexivity |]. split.
    { unfold new_events. cbn - [dispatch_event]. apply drop_app_length. }
    split; [reflexivity |].
    exists (split_char "010" message). split; [reflexivity |].
    split; [apply split_char_nonempty |].
    split; [apply split_char_no_sep |].
    apply (join_split_char "010").
  - eexists. split; [reflexivity |]. split; [reflexivity |]. split.
    { unfold new_events. cbn - [dispatch_event]. apply drop_app_length. }
    split; reflexivity.
Qed.

Lemma query_with_results_service_failure_witness :
  let w := connected_world [] in
  (exists e,
     fst (query_with_results failing_query_env "bad" ∅ w) = Raise e /\
     exn_class e = MsticpyDataQueryError /\
     exn_args e =
       ["(BadArgumentError) The request had some invalid properties";
        "Code: BadArgumentError";
        "Query:" +:+ "
" +:+ "bad"]) /\
  (exists e,
     fst (query_with_results failing_query_env "odd" ∅ w) = Raise e /\
     exn_class e = MsticpyDataQueryError /\
     exn_title e = Some "connection failed" /\
     exn_args e =
       ["An unknown exception was returned by the service";
        "tables";
        "Full exception:" +:+ "
" +:+ "'tables'"]).
Proof.
  cbv zeta.
  assert (Hc : _connected (self (connected_world [])) = true) by reflexivity.
  assert (Hq : _query_client (self (connected_world [])) = Some sample_client)
    by reflexivity.
  assert (Ht : fst (_get_time_span_value failing_query_env ∅
                      (connected_world [])) = Ret None)
    by (vm_compute; reflexivity).
  split.
  - assert (Hf : forall r,
               service_answer failing_query_env sample_client
                 (self (connected_world [])) "bad" ∅ None <> SvcReturn r)
      by (intros r; vm_compute; discriminate).
    destruct (query_with_results_service_failure failing_query_env
                (connected_world []) "bad" ∅ sample_client None Hc Hq Ht Hf)
      as (e & He & Hcl & _ & _).
    exists e. split; [exact He |]. split; [exact Hcl |].
    vm_compute in He. injection He as <-. reflexivity.
  - assert (Hf : forall r,
               service_answer failing_query_env sample_client
                 (self (connected_world [])) "odd" ∅ None <> SvcReturn r)
      by (intros r; vm_compute; discriminate).
    destruct (query_with_results_service_failure failing_query_env
                (connected_world []) "odd" ∅ sample_client None Hc Hq Ht Hf)
      as (e & He & Hcl & _ & _).
    exists e. split; [exact He |]. split; [exact Hcl |].
    vm_compute in He. injection He as <-. split; reflexivity.
Defined.

(** X12. When the service answers a dispatched query with a full result,
    the frame that [query_with_results] returns holds the rows and columns
    of the first table only, while the status counts all tables; a full
    result without tables makes the call raise [IndexError] after the
    dispatch, and no warning is issued either way. *)
Theorem query_with_results_first_table
    (E : Env) (w : world) (query_text : string) (kwargs : gmap string pyval)
    (client : LogsQueryClient) (time_span_value : option (pyval * pyval))
    (status_name : string) (result_tables : list LogsTable) :
  _connected (self w) = true ->
  _query_client (self w) = Some client ->
  fst (_get_time_span_value E kwargs w) = Ret time_span_value ->
  service_answer E client (self w) query_text kwargs time_span_value
    = SvcReturn (LogsQueryResult status_name result_tables) ->
  new_events w (snd (query_with_results E query_text kwargs w))
    = [dispatch_event (self w) query_text kwargs time_span_value] /\
  match result_tables with
  | [] =>
      exists e,
        fst (query_with_results E query_text kwargs w) = Raise e /\
        exn_class e = IndexError
  | table :: others =>
      fst (query_with_results E query_text kwargs w)
        = Ret ({| df_rows := rows table; df_columns := columns table |},
               {| status := status_name;
                  tables := S (length others);
                  result := None |})
  end.
Proof.
  intros Hc Hq Ht Hans.
  rewrite (query_with_results_dispatch E w query_text kwargs client
             time_span_value Hc Hq Ht), Hans.
  unfold mbind, M_bind, mret, M_ret, new_events.
  destruct result_tables as [| table others]; cbn - [dispatch_event];
    rewrite drop_app_length; eauto.
Qed.

Lemma query_with_results_first_table_witness :
  fst (query_with_results sample_env "SecurityAlert" ∅ (connected_world []))
    = Ret ({| df_rows := rows sample_table;
              df_columns := columns sample_table |},
           {| status := "SUCCESS"; tables := 1; result := None |}).
Proof.
  assert (Hc : _connected (self (connected_world [])) = true) by reflexivity.
  assert (Hq : _query_client (self (connected_world [])) = Some sample_client)
    by reflexivity.
  assert (Ht : fst (_get_time_span_value sample_env ∅ (connected_world []))
               = Ret None)
    by (vm_compute; reflexivity).
  assert (Ha : service_answer sample_env sample_client
                 (self (connected_world [])) "SecurityAlert" ∅ None
               = SvcReturn (LogsQueryResult "SUCCESS" [sample_table]))
    by (vm_compute; reflexivity).
  exact (proj2 (query_with_results_first_table sample_env (connected_world [])
                  "SecurityAlert" ∅ sample_client None "SUCCESS"
                  [sample_table] Hc Hq Ht Ha)).
Defined.

(** X13. [query] is [query_with_results] without the status: when no
    query source is given, or the table check passes for the one given,
    [query] returns the frame that [query_with_results] returns, raises what
    it raises, and leaves the same trace, in every driver state. *)
Theorem query_is_query_with_results_frame
    (E : Env) (w : world) (query_text : string)
    (query_source : option QuerySource) (kwargs : gmap string pyval) :
  match query_source with
  | Some source => _check_table_exists source w = (Ret tt, w)
  | None => True
  end ->
  query E query_text query_source kwargs w =
    (match fst (query_with_results E query_text kwargs w) with
     | Ret data_result => Ret (fst data_result)
     | Raise e => Raise e
     end,
     snd (query_with_results E query_text kwargs w)).
Proof.
  intros Hcheck. unfold query.
  unfold mbind at 1, M_bind at 1. cbn [get_self].
  assert (Hnot : _connected (self w) = false \/ _query_client (self w) = None ->
                 query_with_results E query_text kwargs w
                   = (Raise not_connected_error, w)).
  { intros H. unfold query_with_results, mbind, M_bind, get_self.
    destruct H as [-> | H]; [reflexivity |].
    rewrite H. destruct (_connected (self w)); reflexivity. }
  destruct (_connected (self w)) eqn:Hc; [| rewrite Hnot by auto; reflexivity].
  destruct (_query_client (self w)) eqn:Hq; [| rewrite Hnot by auto; reflexivity].
  unfold mbind at 1, M_bind at 1.
  assert (H : (match query_source with
               | Some qs => _check_table_exists qs
               | None => mret tt
               end) w = (Ret tt, w))
    by (destruct query_source; [exact Hcheck | reflexivity]).
  rewrite H. unfold mbind, M_bind.
  destruct (query_with_results E query_text kwargs w) as [[r | e] w1];
    reflexivity.
Qed.

Lemma query_is_query_with_results_frame_witness :
  let w := connected_world alert_schema in
  _check_table_exists (source_for "SecurityAlert") w = (Ret tt, w) /\
  fst (query sample_env "SecurityAlert" (Some (source_for "SecurityAlert")) ∅ w)
    = Ret {| df_rows := rows sample_table;
             df_columns := columns sample_table |}.
Proof.
  cbv zeta.
  assert (H : _check_table_exists (source_for "SecurityAlert")
                (connected_world alert_schema)
              = (Ret tt, connected_world alert_schema))
    by (vm_compute; reflexivity).
  split; [exact H |].
  rewrite (query_is_query_with_results_frame sample_env
             (connected_world alert_schema) "SecurityAlert"
             (Some (source_for "SecurityAlert")) ∅ H).
  vm_compute. reflexivity.
Defined.

(** ** From connect to the queries *)

#[global] Instance same_query_settings_preorder : PreOrder same_query_settings.
Proof.
  split.
  - intros d. split; reflexivity.
  - intros d1 d2 d3 [H1 H2] [H3 H4]. split; congruence.
Qed.

Lemma _get_workspaces_settings (E : Env) (c : connection_arg)
    (kwargs : gmap string pyval) :
  preserves same_query_settings (_get_workspaces E c kwargs).
Proof.
  unfold _get_workspaces. cbv zeta.
  preserves_step; [preserves_flags |].
  destruct (truthy _);
    [unfold _get_workspaces_by_name; preserves_flags |].
  destruct (truthy _);
    [unfold _get_workspaces_by_id; preserves_flags |].
  preserves_flags.
Qed.

(** What a [connect] that returns leaves in the driver for the queries. *)
Lemma connect_returned (E : Env) (connection_str : connection_arg)
    (kwargs : gmap string pyval) (w w1 : world) (r : bool) :
  connect E connection_str kwargs w = (Ret r, w1) ->
  _connected (self w1) = true /\
  is_Some (_query_client (self w1)) /\
  _def_timeout (self w1) = default _DEFAULT_TIMEOUT (kwargs !! "timeout") /\
  _fail_on_partial (self w1)
    = default (_fail_on_partial (self w)) (kwargs !! "fail_on_partial").
Proof.
  rewrite connect_steps. intros H.
  unfold mbind at 1, M_bind at 1 in H.
  pose proof (_get_workspaces_settings E connection_str (popped kwargs)
                (before_resolution kwargs w)) as [Ht Hf].
  destruct (_get_workspaces E connection_str (popped kwargs)
              (before_resolution kwargs w)) as [[[] | e] w2];
    [| discriminate H].
  cbn in Ht, Hf.
  unfold connect_after_resolution in H.
  unfold mbind at 1, M_bind at 1 in H.
  pose proof (_get_workspace_settings_args_world E w2) as Hw.
  destruct (_get_workspace_settings_args E w2) as [[settings | e] w3];
    cbn in Hw; subst w3; [| discriminate H].
  unfold mbind at 1, M_bind at 1 in H. cbn [get_self] in H.
  unfold mbind at 1, M_bind at 1 in H. cbn [emit modify] in H.
  unfold mbind at 1, M_bind at 1 in H. unfold lift at 1 in H.
  destruct (az_connect E _) as [credentials | e]; [| discriminate H].
  unfold connect_after_client in H.
  unfold mbind at 1, M_bind at 1 in H. cbn [update_self modify] in H.
  unfold mbind at 1, M_bind at 1 in H. cbn [get_self self] in H.
  unfold mbind at 1, M_bind at 1 in H. cbn [update_self modify self trace] in H.
  cbn [set_query_client _try_get_schema _fail_on_partial] in H.
  destruct (_try_get_schema (self w2)).
  - unfold mbind, M_bind, print, emit, modify, lift in H.
    match type of H with
    | context [_get_schema E ?w0] =>
        pose proof (_get_schema_self E w0) as Hs;
        destruct (_get_schema E w0) as [[schema | e] w4]
    end; cbn in Hs, H; [| discriminate H].
    destruct (print_stdout E "connected") as [[] | e]; [| discriminate H].
    injection H as _ <-. cbn. rewrite <- Hs. cbn.
    rewrite Ht, Hf. eauto.
  - unfold mbind, M_bind, print, emit, modify, lift in H. cbn in H.
    destruct (print_stdout E "connected") as [[] | e]; [| discriminate H].
    injection H as _ <-. cbn. rewrite Ht, Hf. eauto.
Qed.

(** X14. After a [connect] that returned, every query whose time span can
    be computed is dispatched exactly once, to the primary and additional
    workspaces of the driver as that [connect] left it.  Its timeout is the query's own [timeout] keyword, else the
    one given to that [connect], else 300 seconds: a timeout given to the
    constructor or to an earlier [connect] is not used.  The partial-result
    setting, by contrast, is the one given to that [connect] or, without
    one, the one the driver had before. *)
Theorem connect_settings_reach_queries
    (E : Env) (connection_str : connection_arg)
    (connect_kwargs : gmap string pyval) (w w1 : world) (r : bool) :
  connect E connection_str connect_kwargs w = (Ret r, w1) ->
  _def_timeout (self w1)
    = default _DEFAULT_TIMEOUT (connect_kwargs !! "timeout") /\
  _fail_on_partial (self w1)
    = default (_fail_on_partial (self w))
              (connect_kwargs !! "fail_on_partial") /\
  forall (query_text : string) (kwargs : gmap string pyval)
         (time_span_value : option (pyval * pyval)),
    _get_time_span_value E kwargs w1 = (Ret time_span_value, w1) ->
    network_calls
      (new_events w1 (snd (query_with_results E query_text kwargs w1)))
    = [EvQueryWorkspace (primary_workspace (self w1)) query_text
         time_span_value
         (default (default _DEFAULT_TIMEOUT (connect_kwargs !! "timeout"))
                  (kwargs !! "timeout"))
         (additional_workspaces_of (self w1))] /\
    effective_fail_on_partial (self w1) kwargs
    = default (default (default (_fail_on_partial (self w))
                                (connect_kwargs !! "fail_on_partial"))
                       (kwargs !! "fail_on_partial"))
              (kwargs !! "fail_if_partial").
Proof.
  intros Hconnect.
  destruct (connect_returned E connection_str connect_kwargs w w1 r Hconnect)
    as (Hc & Hq & Ht & Hf).
  split; [exact Ht |]. split; [exact Hf |].
  intros query_text kwargs tsv Hts. split.
  - destruct Hq as [client Hq].
    assert (Hts' : fst (_get_time_span_value E kwargs w1) = Ret tsv)
      by now rewrite Hts.
    rewrite <- Ht.
    destruct (query_with_results_dispatched_events E w1 query_text kwargs
                client tsv Hc Hq Hts') as [-> | ->].
    + now rewrite network_calls_dispatch by constructor.
    + now rewrite network_calls_dispatch by (repeat constructor).
  - unfold effective_fail_on_partial. now rewrite Hf.
Qed.

Lemma connect_settings_reach_queries_witness :
  let w := {| self := init None {[ "timeout" := PInt 60 ]}; trace := [] |} in
  let w1 := snd (connect sample_env ConnNone ∅ w) in
  _def_timeout (self w) = PInt 60 /\
  connect sample_env ConnNone ∅ w = (Ret true, w1) /\
  _def_timeout (self w1) = PInt 300.
Proof.
  cbv zeta.
  assert (H : connect sample_env ConnNone ∅
                {| self := init None {[ "timeout" := PInt 60 ]}; trace := [] |}
              = (Ret true,
                 snd (connect sample_env ConnNone ∅
                        {| self := init None {[ "timeout" := PInt 60 ]};
                           trace := [] |})))
    by (vm_compute; reflexivity).
  split; [reflexivity |]. split; [exact H |].
  destruct (connect_settings_reach_queries sample_env ConnNone ∅ _ _ true H)
    as (Ht & _).
  rewrite Ht. reflexivity.
Defined.

(** ** From the management response to the table check *)

Lemma _schema_format_tables_names (ws_tables : list raw_table) (name : string) :
  dict_mem name (_schema_format_tables ws_tables) = true
  <-> name ∈ map table_name ws_tables.
Proof.
  unfold dict_mem.
  rewrite _schema_format_tables_sorted_dict, sorted_dict_get.
  assert (Hkeys : map fst (rev (table_items ws_tables))
                    ≡ₚ map table_name ws_tables).
  { rewrite <- Permutation_rev. unfold table_items.
    rewrite map_map. reflexivity. }
  destruct (dict_get name (rev (table_items ws_tables))) eqn:H.
  - split; [intros _ | reflexivity].
    rewrite <- Hkeys. apply dict_get_Some_elem in H.
    apply list_elem_of_fmap. exists (name, l). auto.
  - apply dict_get_None in H. rewrite Hkeys in H.
    split; [discriminate | contradiction].
Qed.

Lemma split_head_spec (sep : ascii) (s : string) :
  contains_char sep s = true ->
  exists rest,
    s = split_head sep s +:+ String sep rest /\
    contains_char sep (split_head sep s) = false.
Proof.
  unfold split_head.
  induction s as [| c s IH]; [discriminate |].
  cbn [contains_char split_char].
  destruct (Ascii.eqb c sep) eqn:Hc.
  - intros _. apply Ascii.eqb_eq in Hc. subst c. exists s. split; reflexivity.
  - rewrite Ascii.eqb_sym, Hc. intros H.
    destruct (IH H) as (rest & Hs & Hno).
    pose proof (split_char_nonempty sep s) as Hne.
    destruct (split_char sep s) as [| first others]; [congruence |].
    exists rest. split.
    + change (String c s = String c (first +:+ String sep rest)).
      now rewrite <- Hs.
    + cbn. now rewrite Ascii.eqb_sym, Hc.
Qed.

(** X15. With the schema that [_schema_format_tables] makes of a
    non-empty table list of the management endpoint, the table check of
    [query] passes exactly for the names in that list, compared as they
    stand: a declared table whose looked-up name is the [name] of one of the
    listed tables passes, and any other name raises
    [MsticpyNoDataSourceError].  The looked-up name is the declared name
    as it stands or, when the declared name has a space inside once all the
    white space of [str.strip()] around it is removed, the part of the
    stripped name before its first space. *)
Theorem check_accepts_listed_tables
    (w : world) (query_source : QuerySource) (ws_tables : list raw_table)
    (table_param : list (string * pyval)) (table : string) :
  _schema (self w) = _schema_format_tables ws_tables ->
  ws_tables <> [] ->
  params query_source !! "table" = Some (PDict table_param) ->
  dict_get "default" table_param = Some (PStr table) ->
  table <> "" ->
  (_check_table_exists query_source w = (Ret tt, w)
   <-> table_key table ∈ map table_name ws_tables) /\
  (table_key table ∉ map table_name ws_tables ->
   exists e,
     _check_table_exists query_source w = (Raise e, w) /\
     exn_class e = MsticpyNoDataSourceError) /\
  (contains_char " " (strip table) = false -> table_key table = table) /\
  (contains_char " " (strip table) = true ->
   exists clause,
     strip table = table_key table +:+ " " +:+ clause /\
     contains_char " " (table_key table) = false).
Proof.
  intros Hschema Hne Hp Ht Htable.
  apply and_assoc.
  split; [| split; [unfold table_key; now intros -> |]].
  2: { unfold table_key. intros Hsp. rewrite Hsp. now apply split_head_spec. }
  assert (Hs : _schema (self w) <> []).
  { rewrite Hschema. destruct ws_tables as [| t ts]; [contradiction |].
    assert (Hm : dict_mem (table_name t) (_schema_format_tables (t :: ts))
                 = true)
      by (apply _schema_format_tables_names; cbn; left).
    intros Hnil. rewrite Hnil in Hm. discriminate Hm. }
  rewrite (_check_table_exists_declared query_source w table_param table
             Hs Hp Ht Htable), Hschema.
  pose proof (_schema_format_tables_names ws_tables (table_key table)) as Hn.
  destruct (dict_mem (table_key table) (_schema_format_tables ws_tables)).
  - split; [split; [intros _; now apply Hn | reflexivity] |].
    intros Hnot. exfalso. apply Hnot. now apply Hn.
  - split.
    + split; [discriminate |]. intros Hin. apply Hn in Hin. discriminate Hin.
    + intros _. eexists. split; reflexivity.
Qed.

Lemma check_accepts_listed_tables_witness :
  let ws_tables := [table_named "Syslog"; table_named "Heartbeat"] in
  let w := connected_world (_schema_format_tables ws_tables) in
  _check_table_exists (source_for "Heartbeat") w = (Ret tt, w) /\
  _check_table_exists
    (source_for (no_break_space +:+ "Heartbeat | take 1" +:+ ideographic_space))
    w = (Ret tt, w) /\
  exists e,
    _check_table_exists (source_for "heartbeat") w = (Raise e, w) /\
    exn_class e = MsticpyNoDataSourceError.
Proof.
  cbv zeta.
  set (ws_tables := [table_named "Syslog"; table_named "Heartbeat"]).
  set (w := connected_world (_schema_format_tables ws_tables)).
  assert (H1 : _schema (self w) = _schema_format_tables ws_tables)
    by reflexivity.
  assert (H2 : ws_tables <> []) by discriminate.
  assert (H3 : forall table,
             params (source_for table) !! "table"
             = Some (PDict [("default", PStr table)]))
    by (intros table; unfold source_for; cbn; apply lookup_singleton_eq).
  assert (H4 : forall table,
             dict_get "default" [("default", PStr table)] = Some (PStr table))
    by reflexivity.
  split; [| split].
  - apply (check_accepts_listed_tables w (source_for "Heartbeat") ws_tables
             _ "Heartbeat" H1 H2 (H3 _) (H4 _)); [discriminate |].
    vm_compute. right. left.
  - apply (check_accepts_listed_tables w (source_for _) ws_tables
             _ _ H1 H2 (H3 _) (H4 _)); [discriminate |].
    vm_compute. right. left.
  - apply (check_accepts_listed_tables w (source_for "heartbeat") ws_tables
             _ "heartbeat" H1 H2 (H3 _) (H4 _)); [discriminate |].
    vm_compute. intros H.
    apply elem_of_cons in H as [H | H]; [discriminate H |].
    apply list_elem_of_singleton in H. discriminate H.
Defined.

(** ** Formatting a list parameter *)

Lemma str_app_assoc (a b c : string) : (a +:+ b) +:+ c = a +:+ (b +:+ c).
Proof.
  induction a as [| x a IH]; [reflexivity |].
  change (String x ((a +:+ b) +:+ c) = String x (a +:+ (b +:+ c))).
  now f_equal.
Qed.

Lemma join_cons (sep x y : string) (l : list string) :
  join sep (x :: y :: l) = x +:+ sep +:+ join sep (y :: l).
Proof. reflexivity. Qed.

Lemma join_app (sep x y : string) (l1 l2 : list string) :
  join sep ((x :: l1) ++ y :: l2)
  = join sep (x :: l1) +:+ sep +:+ join sep (y :: l2).
Proof.
  revert x. induction l1 as [| z l1 IH]; intros x.
  - reflexivity.
  - change ((x :: z :: l1) ++ y :: l2) with (x :: ((z :: l1) ++ y :: l2)).
    change ((z :: l1) ++ y :: l2) with (z :: (l1 ++ y :: l2)).
    rewrite join_cons.
    change (z :: (l1 ++ y :: l2)) with ((z :: l1) ++ y :: l2).
    rewrite IH, join_cons, !str_app_assoc. reflexivity.
Qed.

(** X16. [_format_list] puts each string item between single quotes as it
    stands, formats the other items as they print, and joins the pieces
    with a comma and a space; the empty list gives the empty string, and
    formatting two non-empty lists one after the other and joining the
    results is formatting their concatenation.  Nothing inside a string is
    escaped: one string with a quote, comma, space and quote inside is
    formatted to the same text as the two strings around them. *)
Theorem _format_list_spec (format_value : pyval -> string) :
  _format_list format_value [] = "" /\
  (forall item : string, _format_list format_value [PStr item]
                         = "'" +:+ item +:+ "'") /\
  (forall x l1 y l2,
     _format_list format_value ((x :: l1) ++ y :: l2)
     = _format_list format_value (x :: l1) +:+ ", " +:+
       _format_list format_value (y :: l2)) /\
  (forall a b : string,
     _format_list format_value [PStr (a +:+ "', '" +:+ b)]
     = _format_list format_value [PStr a; PStr b]).
Proof.
  split; [reflexivity |]. split; [reflexivity |]. split.
  - intros x l1 y l2. unfold _format_list. cbv zeta.
    rewrite map_app. cbn [map]. apply join_app.
  - intros a b. unfold _format_list. cbn [map join].
    rewrite !str_app_assoc. reflexivity.
Qed.

(** ** The abuse list *)

Lemma contains_str_length (sub s : string) :
  contains_str sub s = true -> (String.length sub <= String.length s)%nat.
Proof.
  revert sub. induction s as [| c s IH]; intros sub H.
  - destruct sub; [cbn; lia | discriminate H].
  - cbn [contains_str] in H. apply orb_true_iff in H as [H | H].
    + clear IH. revert s c H. induction sub as [| a sub IHs]; intros s c H.
      * cbn. lia.
      * cbn in H. apply andb_true_iff in H as [_ H].
        destruct s as [| c' s]; [destruct sub; [cbn; lia | discriminate H] |].
        specialize (IHs s c' H). cbn in *. lia.
    + specialize (IH sub H). cbn. lia.
Qed.

Lemma is_prefix_same_length (sub s : string) :
  is_prefix sub s = true -> String.length sub = String.length s -> sub = s.
Proof.
  revert s. induction sub as [| a sub IH]; intros s H Hl.
  - destruct s; [reflexivity | discriminate Hl].
  - destruct s as [| c s]; [discriminate H |].
    cbn in H. apply andb_true_iff in H as [Ha H].
    apply Ascii.eqb_eq in Ha. subst c. f_equal.
    apply IH; [exact H | cbn in Hl; lia].
Qed.

Lemma is_prefix_refl (s : string) : is_prefix s s = true.
Proof.
  induction s as [| c s IH]; [reflexivity |].
  cbn. now rewrite Ascii.eqb_refl.
Qed.

Lemma contains_str_same_length (sub s : string) :
  String.length sub = String.length s ->
  contains_str sub s = true <-> sub = s.
Proof.
  intros Hl. split.
  - intros H. destruct s as [| c s].
    + destruct sub; [reflexivity | discriminate Hl].
    + cbn [contains_str] in H. apply orb_true_iff in H as [H | H].
      * now apply is_prefix_same_length.
      * apply contains_str_length in H. cbn in Hl. lia.
  - intros ->. destruct s; cbn; [reflexivity |].
    now rewrite Ascii.eqb_refl, is_prefix_refl.
Qed.

Lemma hex_length (data : list ascii) :
  String.length (hex data) = (2 * length data)%nat.
Proof. induction data as [| b data IH]; cbn in *; lia. Qed.


(** X18. When the certificate of a domain is retrieved, parsed and
    fingerprinted and the abuse list has a [SHA1] column of text values
    (one with the [.str] accessor), the verdict of [in_abuse_list] is
    whether some entry of that column contains the hexadecimal text of the
    fingerprint, two characters per byte, as a substring; the certificate
    comes with the verdict either way.  Against entries of exactly that
    length, the verdict is whether the fingerprint text is one of the
    entries. *)
Theorem in_abuse_list_verdict
    (E : DomEnv) (url_domain : string) (v v' : validator)
    (pem : string) (cert : Certificate) (sha1 : list ascii)
    (abuse_list : Frame) (column : Column) (sha1_texts : list string) :
  get_server_certificate E url_domain 443 = Ret pem ->
  encode_ascii pem = Ret pem ->
  load_pem_x509_certificate E pem = Ret cert ->
  fingerprint_SHA1 E cert = Ret sha1 ->
  ssl_abuse_list E v = (Ret abuse_list, v') ->
  frame_getitem "SHA1" abuse_list = Ret column ->
  str_accessor column = Ret sha1_texts ->
  column = StrColumn sha1_texts /\
  in_abuse_list E url_domain v
    = (Ret (existsb (contains_str (hex sha1)) sha1_texts, Some cert), v') /\
  String.length (hex sha1) = (2 * length sha1)%nat /\
  (Forall (fun entry => String.length entry = (2 * length sha1)%nat)
          sha1_texts ->
   (existsb (contains_str (hex sha1)) sha1_texts = true
    <-> hex sha1 ∈ sha1_texts)).
Proof.
  intros H1 H2 H3 H4 H5 H6 H7.
  split; [| split; [| split; [apply hex_length |]]].
  - destruct column; [| discriminate H7]. cbn in H7. congruence.
  - rewrite in_abuse_list_total.
    unfold in_abuse_list_try, mbind, M_bind, lift.
    now rewrite H1, H2, H3, H4, H5, H6, H7.
  - intros Hall. rewrite existsb_exists. split.
    + intros (entry & Hin & Hc).
      apply list_elem_of_In in Hin.
      assert (Hl : String.length (hex sha1) = String.length entry).
      { rewrite hex_length. symmetry.
        rewrite Forall_forall in Hall. now apply Hall. }
      apply (contains_str_same_length _ _ Hl) in Hc. now subst entry.
    + intros Hin. exists (hex sha1). split.
      * now apply list_elem_of_In.
      * now apply contains_str_same_length.
Qed.

Lemma in_abuse_list_verdict_witness :
  exists v',
    in_abuse_list listed_dom_env "bad.example" {| _ssl_abuse_list := None |}
      = (Ret (true, Some {| cert_handle := "-----BEGIN CERTIFICATE-----" |}),
         v').
Proof.
  eexists.
  assert (H1 : get_server_certificate listed_dom_env "bad.example" 443
               = Ret "-----BEGIN CERTIFICATE-----") by reflexivity.
  assert (H2 : encode_ascii "-----BEGIN CERTIFICATE-----"
               = Ret "-----BEGIN CERTIFICATE-----") by reflexivity.
  assert (H3 : load_pem_x509_certificate listed_dom_env
                 "-----BEGIN CERTIFICATE-----"
               = Ret {| cert_handle := "-----BEGIN CERTIFICATE-----" |})
    by reflexivity.
  assert (H4 : fingerprint_SHA1 listed_dom_env
                 {| cert_handle := "-----BEGIN CERTIFICATE-----" |}
               = Ret ["171"%char; "205"%char]) by reflexivity.
  assert (H5 : ssl_abuse_list listed_dom_env {| _ssl_abuse_list := None |}
               = (Ret {| frame_columns :=
                           [("Listingdate", StrColumn ["2024-01-01 00:00:00"]);
                            ("SHA1", StrColumn ["abcd"]);
                            ("Listingreason", StrColumn ["C&C"])] |},
                  {| _ssl_abuse_list :=
                       Some {| frame_columns :=
                                 [("Listingdate",
                                   StrColumn ["2024-01-01 00:00:00"]);
                                  ("SHA1", StrColumn ["abcd"]);
                                  ("Listingreason", StrColumn ["C&C"])] |} |}))
    by reflexivity.
  assert (H6 : frame_getitem "SHA1"
                 {| frame_columns :=
                      [("Listingdate", StrColumn ["2024-01-01 00:00:00"]);
                       ("SHA1", StrColumn ["abcd"]);
                       ("Listingreason", StrColumn ["C&C"])] |}
               = Ret (StrColumn ["abcd"])) by reflexivity.
  assert (H7 : str_accessor (StrColumn ["abcd"]) = Ret ["abcd"])
    by reflexivity.
  exact (proj1 (proj2 (in_abuse_list_verdict listed_dom_env "bad.example"
                         _ _ _ _ _ _ _ _ H1 H2 H3 H4 H5 H6 H7))).
Defined.

(** ** Several workspaces after a single one *)

Lemma preserves_eq_weaken {A} (R : relation driver) `{!Reflexive R}
    (m : M world A) :
  preserves eq m -> preserves R m.
Proof. intros H w. rewrite <- (H w). reflexivity. Qed.

#[global] Instance same_single_workspace_preorder :
  PreOrder same_single_workspace.
Proof.
  split.
  - intros d. reflexivity.
  - intros d1 d2 d3 H1 H2. unfold same_single_workspace in *. congruence.
Qed.

Lemma _get_workspaces_several (E : Env) (c : connection_arg)
    (kwargs : gmap string pyval) :
  names_workspaces kwargs ->
  preserves same_single_workspace (_get_workspaces E c kwargs).
Proof.
  intros Hnames. unfold _get_workspaces. cbv zeta.
  preserves_step; [preserves_flags |].
  destruct (truthy (default PNone (kwargs !! "workspaces"))) eqn:Hws;
    [unfold _get_workspaces_by_name; preserves_flags |].
  destruct Hnames as [H | H]; [congruence |]. rewrite H.
  unfold _get_workspaces_by_id. preserves_flags.
Qed.

Lemma connect_several (E : Env) (c : connection_arg)
    (kwargs : gmap string pyval) :
  names_workspaces kwargs ->
  preserves same_single_workspace (connect E c kwargs).
Proof.
  intros Hnames.
  assert (Hpopped : names_workspaces (popped kwargs)).
  { unfold names_workspaces, popped in *.
    now rewrite !lookup_delete_ne by discriminate. }
  unfold connect, _create_query_client. cbv zeta. fold (popped kwargs).
  repeat first
    [ apply (_get_workspaces_several E c (popped kwargs) Hpopped)
    | apply (preserves_eq_weaken _ _ (_get_workspace_settings_args_self E))
    | apply (preserves_eq_weaken _ _ (_get_schema_self E))
    | preserves_step ].
Qed.

(** X23. A [connect] that names several workspaces, by [workspaces] or by
    [workspace_ids], never touches what the driver holds of a single
    workspace: the workspace config, name and ID and the connection string
    are afterwards what they were, whether the call returns or raises.  So
    the connection name is computed from the earlier single workspace and
    the new ID list. *)
Theorem connect_several_keeps_single_workspace
    (E : Env) (connection_str : connection_arg) (kwargs : gmap string pyval)
    (w : world) :
  names_workspaces kwargs ->
  let d' := self (snd (connect E connection_str kwargs w)) in
  _ws_config d' = _ws_config (self w) /\
  _ws_name d' = _ws_name (self w) /\
  _workspace_id d' = _workspace_id (self w) /\
  _def_connection_str d' = _def_connection_str (self w) /\
  current_connection d'
    = current_connection (set_workspace_ids (_workspace_ids d') (self w)).
Proof.
  intros Hnames d'.
  pose proof (connect_several E connection_str kwargs Hnames w) as H.
  fold d' in H. unfold same_single_workspace in H.
  injection H as H1 H2 H3 H4.
  repeat split; try assumption.
  unfold current_connection. cbn [_ws_name _ws_config _def_connection_str
    _workspace_id _workspace_ids set_workspace_ids].
  now rewrite H1, H2, H3, H4.
Qed.

Lemma connect_several_keeps_single_workspace_witness :
  let w1 := snd (connect sample_env (ConnStr "connection-to-W1") ∅ new_world) in
  let kwargs : gmap string pyval :=
    {[ "workspace_ids" := PList [PStr "W9"]; "tenant_id" := PStr "T9" ]} in
  let w2 := snd (connect sample_env ConnNone kwargs w1) in
  names_workspaces kwargs /\
  current_connection (self w1) = Ret "W1" /\
  current_connection (self w2) = Ret "W1" /\
  primary_workspace (self w2) = Some "W9".
Proof.
  cbv zeta.
  assert (Hn : names_workspaces
                 {[ "workspace_ids" := PList [PStr "W9"];
                    "tenant_id" := PStr "T9" ]})
    by (right; vm_compute; reflexivity).
  split; [exact Hn |]. split; [vm_compute; reflexivity |].
  split; [| vm_compute; reflexivity].
  destruct (connect_several_keeps_single_workspace sample_env ConnNone _
              (snd (connect sample_env (ConnStr "connection-to-W1") ∅
                      new_world)) Hn) as (_ & _ & _ & _ & ->).
  vm_compute. reflexivity.
Defined.

(** * Further properties of the screenshot function *)

Section Screenshot_facts.

Context {duration : Type} (E : ShotEnv duration).

Lemma shot_requests_get (url : string) (ua : bool) (l : list shot_event) :
  shot_requests (ShotGet url ua :: l) = ShotGet url ua :: shot_requests l.
Proof. unfold shot_requests. now rewrite filter_cons_True by reflexivity. Qed.

Lemma shot_requests_sleep (l : list shot_event) :
  shot_requests (ShotSleep :: l) = shot_requests l.
Proof. unfold shot_requests. now rewrite filter_cons_False by discriminate. Qed.

Lemma shot_requests_warn (message : string) (l : list shot_event) :
  shot_requests (ShotWarn message :: l) = shot_requests l.
Proof. unfold shot_requests. now rewrite filter_cons_False by discriminate. Qed.

Lemma shot_requests_app (l1 l2 : list shot_event) :
  shot_requests (l1 ++ l2) = shot_requests l1 ++ shot_requests l2.
Proof. apply filter_app. Qed.

Lemma shot_sleeps_get (url : string) (ua : bool) (l : list shot_event) :
  shot_sleeps (ShotGet url ua :: l) = shot_sleeps l.
Proof. unfold shot_sleeps. now rewrite filter_cons_False by discriminate. Qed.

Lemma shot_sleeps_sleep (l : list shot_event) :
  shot_sleeps (ShotSleep :: l) = ShotSleep :: shot_sleeps l.
Proof. unfold shot_sleeps. now rewrite filter_cons_True by reflexivity. Qed.

Lemma shot_sleeps_warn (message : string) (l : list shot_event) :
  shot_sleeps (ShotWarn message :: l) = shot_sleeps l.
Proof. unfold shot_sleeps. now rewrite filter_cons_False by discriminate. Qed.

Lemma shot_sleeps_app (l1 l2 : list shot_event) :
  shot_sleeps (l1 ++ l2) = shot_sleeps l1 ++ shot_sleeps l2.
Proof. apply filter_app. Qed.

Lemma shot_requests_nil : shot_requests [] = [].
Proof. reflexivity. Qed.

Lemma shot_sleeps_nil : shot_sleeps [] = [].
Proof. reflexivity. Qed.

Lemma shot_counts (create_url : string) (polls rest : list shot_event) :
  length (shot_requests (ShotGet create_url true :: polls ++ rest))
    = S (length (shot_requests polls) + length (shot_requests rest)) /\
  length (shot_sleeps (ShotGet create_url true :: polls ++ rest))
    = (length (shot_sleeps polls) + length (shot_sleeps rest))%nat.
Proof.
  rewrite shot_requests_get, shot_sleeps_get, shot_requests_app,
    shot_sleeps_app.
  cbn [length]. now rewrite !length_app.
Qed.

(** One round of the waiting loop. *)
Lemma wait_until_ready_step (status_url : string) (sleep : duration)
    (steps_left : nat) (done : list shot_event) :
  wait_until_ready E status_url sleep (S steps_left) done =
    match httpx_get_after E done status_url true with
    | Raise e => (Raise e, done ++ [ShotGet status_url true])
    | Ret status_data =>
        match json_field status_data "status" with
        | Raise e => (Raise e, done ++ [ShotGet status_url true])
        | Ret status_value =>
            if is_finished status_value
            then (Ret tt, done ++ [ShotGet status_url true])
            else
              match time_sleep E sleep with
              | Raise e =>
                  (Raise e, done ++ [ShotGet status_url true; ShotSleep])
              | Ret _ =>
                  wait_until_ready E status_url sleep steps_left
                    (done ++ [ShotGet status_url true; ShotSleep])
              end
        end
    end.
Proof.
  cbn [wait_until_ready].
  unfold mbind at 1, M_bind at 1, httpx_get_at.
  destruct (httpx_get_after E done status_url true) as [status_data | e];
    [| reflexivity].
  unfold mbind at 1, M_bind at 1, lift.
  destruct (json_field status_data "status") as [status_value | e];
    [| reflexivity].
  destruct (is_finished status_value); [reflexivity |].
  unfold mbind, M_bind, sleep_for.
  rewrite <- app_assoc. cbn [app].
  destruct (time_sleep E sleep) as [[] | e]; reflexivity.
Qed.

(** What the waiting loop does: status requests, each but possibly the last
    followed by a sleep, and never more rounds than steps. *)
Lemma wait_until_ready_polls (status_url : string) (sleep : duration)
    (steps_left : nat) :
  forall done,
  exists polls,
    snd (wait_until_ready E status_url sleep steps_left done) = done ++ polls /\
    Forall (fun ev => ev = ShotGet status_url true \/ ev = ShotSleep) polls /\
    (length (shot_requests polls) <= steps_left)%nat /\
    (length (shot_sleeps polls) <= length (shot_requests polls))%nat.
Proof.
  induction steps_left as [| n IH]; intros done.
  - exists []. cbn. rewrite app_nil_r. repeat split; auto.
  - rewrite wait_until_ready_step.
    assert (Hone : exists polls,
              done ++ [ShotGet status_url true] = done ++ polls /\
              Forall (fun ev => ev = ShotGet status_url true \/ ev = ShotSleep)
                     polls /\
              (length (shot_requests polls) <= S n)%nat /\
              (length (shot_sleeps polls) <= length (shot_requests polls))%nat).
    { exists [ShotGet status_url true]. split; [reflexivity |].
      split; [repeat constructor |].
      rewrite shot_requests_get, shot_sleeps_get. cbn. lia. }
    assert (Htwo : exists polls,
              done ++ [ShotGet status_url true; ShotSleep] = done ++ polls /\
              Forall (fun ev => ev = ShotGet status_url true \/ ev = ShotSleep)
                     polls /\
              (length (shot_requests polls) <= S n)%nat /\
              (length (shot_sleeps polls) <= length (shot_requests polls))%nat).
    { exists [ShotGet status_url true; ShotSleep]. split; [reflexivity |].
      split; [constructor; [auto | constructor; [auto | constructor]] |].
      rewrite shot_requests_get, shot_sleeps_get, shot_requests_sleep,
        shot_sleeps_sleep.
      cbn. lia. }
    destruct (httpx_get_after E done status_url true) as [status_data | e];
      [| exact Hone].
    destruct (json_field status_data "status") as [status_value | e];
      [| exact Hone].
    destruct (is_finished status_value); [exact Hone |].
    destruct (time_sleep E sleep) as [[] | e]; [| exact Htwo].
    destruct (IH (done ++ [ShotGet status_url true; ShotSleep]))
      as (polls & Hp & Hall & Hr & Hs).
    exists (ShotGet status_url true :: ShotSleep :: polls).
    split; [rewrite Hp, <- app_assoc; reflexivity |].
    split; [constructor; [auto | constructor; [auto | exact Hall]] |].
    rewrite shot_requests_get, shot_sleeps_get, shot_requests_sleep,
      shot_sleeps_sleep.
    cbn [length]. lia.
Qed.

(** [screenshot], step by step. *)
Lemma screenshot_steps (url : string) (api_key : option string)
    (sleep : duration) (max_progress : nat) (done : list shot_event) :
  screenshot E url api_key sleep max_progress done =
    match browshot_key E api_key with
    | Raise e => (Raise e, done)
    | Ret bs_api_key =>
        if is_none bs_api_key then (Raise no_browshot_config, done)
        else
          let created := done ++ [ShotGet (id_string E url bs_api_key) true] in
          match httpx_get_after E done (id_string E url bs_api_key) true with
          | Raise e => (Raise e, created)
          | Ret id_data =>
              match json_field id_data "id" with
              | Raise e => (Raise e, created)
              | Ret bs_id =>
                  match wait_until_ready E (status_string E bs_id bs_api_key)
                          sleep max_progress created with
                  | (Raise e, waited) => (Raise e, waited)
                  | (Ret _, waited) =>
                      let image :=
                        ShotGet (image_string E bs_id bs_api_key) false in
                      match httpx_get_after E waited
                              (image_string E bs_id bs_api_key) false with
                      | Raise e => (Raise e, waited ++ [image])
                      | Ret image_data =>
                          (Ret image_data,
                           waited ++ image ::
                             (if is_success image_data then []
                              else [ShotWarn request_problem]))
                      end
                  end
              end
          end
    end.
Proof.
  unfold screenshot.
  unfold mbind at 1, M_bind at 1, lift at 1.
  destruct (browshot_key E api_key) as [bs_api_key | e]; [| reflexivity].
  destruct (is_none bs_api_key); [reflexivity |]. cbv zeta.
  unfold mbind at 1, M_bind at 1, httpx_get_at at 1.
  destruct (httpx_get_after E done (id_string E url bs_api_key) true)
    as [id_data | e]; [| reflexivity].
  unfold mbind at 1, M_bind at 1, lift at 1.
  destruct (json_field id_data "id") as [bs_id | e]; [| reflexivity].
  unfold mbind at 1, M_bind at 1.
  destruct (wait_until_ready E (status_string E bs_id bs_api_key) sleep
              max_progress _) as [[[] | e] waited]; [| reflexivity].
  unfold mbind at 1, M_bind at 1, httpx_get_at.
  destruct (httpx_get_after E waited (image_string E bs_id bs_api_key) false)
    as [image_data | e]; [| reflexivity].
  unfold mbind, M_bind, modify, mret, M_ret.
  destruct (is_success image_data); cbn [negb].
  - reflexivity.
  - rewrite <- app_assoc. reflexivity.
Qed.

(** X19. Without an API key [screenshot] sends nothing: when neither the
    argument nor the configuration gives a key that is not [None], or
    reading the key out of the configuration raises, the call raises with
    no request made, and with a missing key the exception is the
    configuration error.  With no Browshot section in the configuration and
    no [api_key] argument the key is missing; an [api_key] argument is used
    as it is, whatever the configuration holds. *)
Theorem screenshot_without_key
    (url : string) (api_key : option string) (sleep : duration)
    (max_progress : nat) (done : list shot_event) :
  (forall bs_api_key,
     browshot_key E api_key = Ret bs_api_key -> bs_api_key = PNone) ->
  (exists e,
     screenshot E url api_key sleep max_progress done = (Raise e, done) /\
     (browshot_key E api_key = Ret PNone -> e = no_browshot_config)) /\
  (get_config E "DataProviders.Browshot" = None ->
   get_config E "Browshot" = None ->
   browshot_key E None = Ret PNone) /\
  (forall key, browshot_key E (Some key) = Ret (PStr key)).
Proof.
  intros Hkey. split; [| split].
  - rewrite screenshot_steps.
    destruct (browshot_key E api_key) as [bs_api_key | e].
    + rewrite (Hkey bs_api_key eq_refl). cbn. eauto.
    + eexists. split; [reflexivity | discriminate].
  - intros H1 H2. unfold browshot_key. rewrite H1, H2. reflexivity.
  - reflexivity.
Qed.

(** X20. Whatever the service answers, a call of [screenshot] extends the
    record of what was done by at most [max_progress + 2] requests and at
    most [max_progress] sleeps, and with fewer sleeps than requests. *)
Theorem screenshot_request_bound
    (url : string) (api_key : option string) (sleep : duration)
    (max_progress : nat) (done : list shot_event) :
  exists evs,
    snd (screenshot E url api_key sleep max_progress done) = done ++ evs /\
    (length (shot_requests evs) <= max_progress + 2)%nat /\
    (length (shot_sleeps evs) <= max_progress)%nat /\
    (S (length (shot_sleeps evs)) <= length (shot_requests evs)
     \/ evs = [])%nat.
Proof.
  rewrite screenshot_steps.
  assert (Hnil : exists evs : list shot_event,
            done = done ++ evs /\
            (length (shot_requests evs) <= max_progress + 2)%nat /\
            (length (shot_sleeps evs) <= max_progress)%nat /\
            (S (length (shot_sleeps evs)) <= length (shot_requests evs)
             \/ evs = [])%nat).
  { exists []. rewrite app_nil_r. cbn. repeat split; auto; lia. }
  destruct (browshot_key E api_key) as [bs_api_key | e]; [| exact Hnil].
  destruct (is_none bs_api_key); [exact Hnil |]. cbv zeta.
  assert (Hone : exists evs : list shot_event,
            done ++ [ShotGet (id_string E url bs_api_key) true] = done ++ evs /\
            (length (shot_requests evs) <= max_progress + 2)%nat /\
            (length (shot_sleeps evs) <= max_progress)%nat /\
            (S (length (shot_sleeps evs)) <= length (shot_requests evs)
             \/ evs = [])%nat).
  { eexists. split; [reflexivity |].
    rewrite shot_requests_get, shot_sleeps_get. cbn.
    repeat split; try lia; try (left; lia). }
  destruct (httpx_get_after E done (id_string E url bs_api_key) true)
    as [id_data | e]; [| exact Hone].
  destruct (json_field id_data "id") as [bs_id | e]; [| exact Hone].
  destruct (wait_until_ready_polls (status_string E bs_id bs_api_key) sleep
              max_progress
              (done ++ [ShotGet (id_string E url bs_api_key) true]))
    as (polls & Hp & _ & Hr & Hs).
  destruct (wait_until_ready E (status_string E bs_id bs_api_key) sleep
              max_progress _) as [[[] | e] waited]; cbn [snd] in Hp;
    subst waited.
  - destruct (httpx_get_after E _ (image_string E bs_id bs_api_key) false)
      as [image_data | e].
    + exists (ShotGet (id_string E url bs_api_key) true :: polls ++
              ShotGet (image_string E bs_id bs_api_key) false ::
              (if is_success image_data then []
               else [ShotWarn request_problem])).
      split; [rewrite <- !app_assoc; reflexivity |].
      destruct (shot_counts (id_string E url bs_api_key) polls
                  (ShotGet (image_string E bs_id bs_api_key) false ::
                   (if is_success image_data then []
                    else [ShotWarn request_problem]))) as [-> ->].
      rewrite shot_requests_get, shot_sleeps_get.
      destruct (is_success image_data);
        rewrite ?shot_requests_warn, ?shot_sleeps_warn,
          shot_requests_nil, shot_sleeps_nil;
        cbn [length]; repeat split; try lia; try (left; lia).
    + exists (ShotGet (id_string E url bs_api_key) true :: polls ++
              [ShotGet (image_string E bs_id bs_api_key) false]).
      split; [rewrite <- !app_assoc; reflexivity |].
      destruct (shot_counts (id_string E url bs_api_key) polls
                  [ShotGet (image_string E bs_id bs_api_key) false])
        as [-> ->].
      rewrite shot_requests_get, shot_sleeps_get, shot_requests_nil,
        shot_sleeps_nil.
      cbn [length]. repeat split; try lia; try (left; lia).
  - exists (ShotGet (id_string E url bs_api_key) true :: polls ++ []).
    split; [rewrite app_nil_r, <- !app_assoc; reflexivity |].
    destruct (shot_counts (id_string E url bs_api_key) polls []) as [-> ->].
    rewrite shot_requests_nil, shot_sleeps_nil.
    cbn [length]. repeat split; try lia; try (left; lia).
Qed.

(** X21. When [screenshot] returns, what it returns is the answer to the
    thumbnail request, successful or not, and that request, sent without
    the user-agent header, is the last one: before it came the request that
    created the screenshot and then only status requests and sleeps; after
    it comes at most the warning, logged exactly when the answer is not a
    success. *)
Theorem screenshot_returns_thumbnail
    (url : string) (api_key : option string) (sleep : duration)
    (max_progress : nat) (done done' : list shot_event)
    (image_data : HttpResponse) :
  screenshot E url api_key sleep max_progress done = (Ret image_data, done') ->
  exists bs_api_key bs_id polls,
    browshot_key E api_key = Ret bs_api_key /\
    bs_api_key <> PNone /\
    Forall (fun ev =>
              ev = ShotGet (status_string E bs_id bs_api_key) true \/
              ev = ShotSleep) polls /\
    httpx_get_after E
      (done ++ ShotGet (id_string E url bs_api_key) true :: polls)
      (image_string E bs_id bs_api_key) false = Ret image_data /\
    done' =
      done ++ ShotGet (id_string E url bs_api_key) true :: polls ++
      ShotGet (image_string E bs_id bs_api_key) false ::
      (if is_success image_data then [] else [ShotWarn request_problem]).
Proof.
  rewrite screenshot_steps. intros H.
  destruct (browshot_key E api_key) as [bs_api_key | e]; [| discriminate H].
  destruct (is_none bs_api_key) eqn:Hnone; [discriminate H |].
  cbv zeta in H.
  destruct (httpx_get_after E done (id_string E url bs_api_key) true)
    as [id_data | e]; [| discriminate H].
  destruct (json_field id_data "id") as [bs_id | e]; [| discriminate H].
  destruct (wait_until_ready_polls (status_string E bs_id bs_api_key) sleep
              max_progress
              (done ++ [ShotGet (id_string E url bs_api_key) true]))
    as (polls & Hp & Hall & _).
  destruct (wait_until_ready E (status_string E bs_id bs_api_key) sleep
              max_progress _) as [[[] | e] waited]; cbn [snd] in Hp;
    [| discriminate H].
  subst waited. rewrite <- app_assoc in H. cbn [app] in H.
  destruct (httpx_get_after E _ (image_string E bs_id bs_api_key) false)
    as [r | e] eqn:Himage; [| discriminate H].
  injection H as -> <-.
  exists bs_api_key, bs_id, polls.
  split; [reflexivity |].
  split; [intros ->; discriminate Hnone |].
  split; [exact Hall |].
  split; [exact Himage |].
  rewrite <- !app_assoc. reflexivity.
Qed.

(** The waiting loop when the status is never [finished]. *)
Lemma wait_until_ready_never_finished (status_url : string) (sleep : duration)
    (steps_left : nat) :
  (forall done,
     exists status_data status_value,
       httpx_get_after E done status_url true = Ret status_data /\
       json_field status_data "status" = Ret status_value /\
       is_finished status_value = false) ->
  time_sleep E sleep = Ret tt ->
  forall done,
    wait_until_ready E status_url sleep steps_left done =
      (Ret tt,
       done ++
       concat (replicate steps_left [ShotGet status_url true; ShotSleep])).
Proof.
  intros Hstatus Hsleep.
  induction steps_left as [| n IH]; intros done.
  - cbn. now rewrite app_nil_r.
  - rewrite wait_until_ready_step.
    destruct (Hstatus done) as (status_data & status_value & -> & -> & ->).
    rewrite Hsleep, IH, <- app_assoc. reflexivity.
Qed.

(** X22. When the service never reports the screenshot as finished and
    sleeping does not fail, [screenshot] asks for the status exactly
    [max_progress] times, sleeps after each of them, the last included, and
    then requests the thumbnail all the same: running out of progress steps
    raises nothing, and the outcome of the call is the outcome of the
    thumbnail request. *)
Theorem screenshot_never_finished
    (url : string) (api_key : option string) (sleep : duration)
    (max_progress : nat) (done : list shot_event)
    (bs_api_key bs_id : pyval) (id_data : HttpResponse) :
  browshot_key E api_key = Ret bs_api_key ->
  bs_api_key <> PNone ->
  httpx_get_after E done (id_string E url bs_api_key) true = Ret id_data ->
  json_field id_data "id" = Ret bs_id ->
  (forall done0,
     exists status_data status_value,
       httpx_get_after E done0 (status_string E bs_id bs_api_key) true
         = Ret status_data /\
       json_field status_data "status" = Ret status_value /\
       is_finished status_value = false) ->
  time_sleep E sleep = Ret tt ->
  let waited :=
    done ++ ShotGet (id_string E url bs_api_key) true ::
    concat (replicate max_progress
              [ShotGet (status_string E bs_id bs_api_key) true; ShotSleep]) in
  let image := ShotGet (image_string E bs_id bs_api_key) false in
  screenshot E url api_key sleep max_progress done =
    match httpx_get_after E waited (image_string E bs_id bs_api_key) false with
    | Raise e => (Raise e, waited ++ [image])
    | Ret image_data =>
        (Ret image_data,
         waited ++ image ::
           (if is_success image_data then []
            else [ShotWarn request_problem]))
    end.
Proof.
  intros Hkey Hnone Hid Hfield Hstatus Hsleep waited image.
  rewrite screenshot_steps, Hkey.
  destruct (is_none bs_api_key) eqn:Hn;
    [destruct bs_api_key; try discriminate Hn; contradiction |].
  cbv zeta. rewrite Hid, Hfield.
  rewrite (wait_until_ready_never_finished _ sleep max_progress Hstatus Hsleep).
  rewrite <- app_assoc. reflexivity.
Qed.

End Screenshot_facts.

Lemma screenshot_without_key_witness :
  exists e,
    screenshot sample_shot_env "example.com" None 50 100%nat [] = (Raise e, []) /\
    exn_class e = OtherException "MsticpyUserConfigError".
Proof.
  assert (H : forall bs_api_key,
             browshot_key sample_shot_env None = Ret bs_api_key ->
             bs_api_key = PNone)
    by (intros k Hk; vm_compute in Hk; congruence).
  destruct (screenshot_without_key sample_shot_env "example.com" None 50
              100%nat [] H) as ((e & He & Hcfg) & _).
  exists e. split; [exact He |].
  rewrite Hcfg by reflexivity. reflexivity.
Defined.

Lemma screenshot_returns_thumbnail_witness :
  let done' :=
    snd (screenshot sample_shot_env "example.com" (Some "KEY") 50 100%nat []) in
  exists bs_id polls,
    done' =
      ShotGet (id_string sample_shot_env "example.com" (PStr "KEY")) true ::
      polls ++
      [ShotGet (image_string sample_shot_env bs_id (PStr "KEY")) false].
Proof.
  cbv zeta.
  assert (H : screenshot sample_shot_env "example.com" (Some "KEY") 50
                100%nat []
              = (Ret {| content_json := Raise (mk_exn ValueError [] None);
                        is_success := true |},
                 snd (screenshot sample_shot_env "example.com" (Some "KEY") 50
                        100%nat [])))
    by (vm_compute; reflexivity).
  destruct (screenshot_returns_thumbnail sample_shot_env "example.com"
              (Some "KEY") 50 100%nat [] _ _ H)
    as (bs_api_key & bs_id & polls & Hkey & _ & _ & _ & Hdone).
  injection Hkey as <-.
  exists bs_id, polls. exact Hdone.
Defined.

Lemma screenshot_never_finished_witness :
  screenshot slow_shot_env "example.com" (Some "KEY") 50 2%nat [] =
    (Ret {| content_json := Raise (mk_exn ValueError [] None);
            is_success := false |},
     [ShotGet (id_string slow_shot_env "example.com" (PStr "KEY")) true;
      ShotGet (status_string slow_shot_env (PInt 12345) (PStr "KEY")) true;
      ShotSleep;
      ShotGet (status_string slow_shot_env (PInt 12345) (PStr "KEY")) true;
      ShotSleep;
      ShotGet (image_string slow_shot_env (PInt 12345) (PStr "KEY")) false;
      ShotWarn request_problem]).
Proof.
  assert (H1 : browshot_key slow_shot_env (Some "KEY") = Ret (PStr "KEY"))
    by reflexivity.
  assert (H2 : PStr "KEY" <> PNone) by discriminate.
  assert (H3 : httpx_get_after slow_shot_env []
                 (id_string slow_shot_env "example.com" (PStr "KEY")) true
               = Ret {| content_json := Ret (PDict [("id", PInt 12345)]);
                        is_success := true |})
    by reflexivity.
  assert (H4 : json_field
                 {| content_json := Ret (PDict [("id", PInt 12345)]);
                    is_success := true |} "id"
               = Ret (PInt 12345))
    by reflexivity.
  assert (H5 : forall done0,
             exists status_data status_value,
               httpx_get_after slow_shot_env done0
                 (status_string slow_shot_env (PInt 12345) (PStr "KEY")) true
                 = Ret status_data /\
               json_field status_data "status" = Ret status_value /\
               is_finished status_value = false)
    by (intros done0; eexists; eexists;
        split; [reflexivity | split; reflexivity]).
  assert (H6 : time_sleep slow_shot_env 50 = Ret tt) by reflexivity.
  rewrite (screenshot_never_finished slow_shot_env "example.com" (Some "KEY")
             50 2%nat [] (PStr "KEY") (PInt 12345) _ H1 H2 H3 H4 H5 H6).
  reflexivity.
Defined.

(** * What a returned query status can be *)

(** X24. Whenever [query_with_results] returns, the service has answered
    the dispatched query with a full result, or with a partial one while
    failing on partial results is off, and the result holds at least one
    table: the frame is made of the first one, and the status gives the
    service's status name and the number of tables, at least 1, with no
    [result] entry.  The status [unknown failure] that [_get_query_status]
    makes for any other kind of result is never returned. *)
Theorem query_with_results_returned
    (E : Env) (w w' : world) (query_text : string)
    (kwargs : gmap string pyval) (data : DataFrame) (st : query_status) :
  query_with_results E query_text kwargs w = (Ret (data, st), w') ->
  exists client time_span_value status_name table others,
    _query_client (self w) = Some client /\
    (service_answer E client (self w) query_text kwargs time_span_value
       = SvcReturn (LogsQueryResult status_name (table :: others)) \/
     (service_answer E client (self w) query_text kwargs time_span_value
        = SvcReturn (LogsQueryPartialResult status_name (table :: others)) /\
      truthy (effective_fail_on_partial (self w) kwargs) = false)) /\
    data = {| df_rows := rows table; df_columns := columns table |} /\
    st = {| status := status_name;
            tables := S (length others);
            result := None |}.
Proof.
  intros H.
  destruct (_connected (self w)) eqn:Hc.
  2: { unfold query_with_results, mbind, M_bind, get_self in H.
       rewrite Hc in H. discriminate H. }
  destruct (_query_client (self w)) as [client |] eqn:Hq.
  2: { unfold query_with_results, mbind, M_bind, get_self in H.
       rewrite Hc, Hq in H. discriminate H. }
  pose proof (_get_time_span_value_world E kwargs w) as Hw.
  destruct (_get_time_span_value E kwargs w) as [[tsv | e] w1] eqn:Hts;
    cbn in Hw; subst w1.
  2: { unfold query_with_results, mbind, M_bind, get_self in H.
       rewrite Hc, Hq in H. cbn in H. rewrite Hts in H. discriminate H. }
  rewrite (query_with_results_dispatch E w query_text kwargs client tsv Hc Hq)
    in H by now rewrite Hts.
  exists client, tsv.
  unfold mbind, M_bind, mret, M_ret in H.
  destruct (service_answer E client (self w) query_text kwargs tsv)
    as [[sn tl | sn pd | r] | message | err];
    cbn - [dispatch_event] in H; try discriminate H.
  - destruct tl as [| table others]; cbn - [dispatch_event] in H;
      [discriminate H |].
    injection H as <- <- _.
    exists sn, table, others. auto.
  - destruct (truthy (effective_fail_on_partial (self w) kwargs)) eqn:Hf;
      cbn - [dispatch_event] in H; [discriminate H |].
    destruct pd as [| table others]; cbn - [dispatch_event] in H;
      [discriminate H |].
    injection H as <- <- _.
    exists sn, table, others. auto.
Qed.

Lemma query_with_results_returned_witness :
  exists client time_span_value,
    service_answer sample_env client (self (connected_world []))
      "SecurityAlert" ∅ time_span_value
    = SvcReturn (LogsQueryResult "SUCCESS" [sample_table]).
Proof.
  assert (H : query_with_results sample_env "SecurityAlert" ∅
                (connected_world [])
              = (Ret ({| df_rows := rows sample_table;
                         df_columns := columns sample_table |},
                      {| status := "SUCCESS"; tables := 1; result := None |}),
                 snd (query_with_results sample_env "SecurityAlert" ∅
                        (connected_world []))))
    by (vm_compute; reflexivity).
  destruct (query_with_results_returned sample_env (connected_world []) _
              "SecurityAlert" ∅ _ _ H)
    as (client & tsv & sn & table & others & _ & Hans & _ & Hst).
  exists client, tsv.
  destruct Hans as [Hans | [Hans _]].
  - rewrite Hans. vm_compute in Hans. injection Hans as <- <- <-.
    reflexivity.
  - vm_compute in Hans. discriminate Hans.
Defined.
